(** * Membership-upgrade payment reconciliation (Fitmate back end)

    A shallow embedding of [src/controllers/stripe.controller.ts] and
    [src/constants/stripePlans.ts]: the three request handlers
    [createCheckoutSession], [handleWebhook] and [verifySession], the
    role-rank table and the plan registry.

    The handlers are [async] functions.  Every awaited call to the ORM
    (Prisma) or to the payment gateway (Stripe) is a point where another
    request may run, so a handler is written once as a program over those
    calls ([Prog]); the same program is then run to completion on a store
    ([run]) or interleaved with others call by call ([interleave]).

    Conventions of the model:
    - the two tables are finite maps keyed by their primary key; a call to
      the ORM is atomic and always answers, with the rejections Prisma
      defines for [update] (no such row) and [create] (key taken);
    - what the gateway answers, the id generated for a new purchase and the
      [CLIENT_URL] setting come from the surroundings ([Env]);
    - request fields have the types the handlers declare for them: [userId]
      is a number, [metadata.targetRole] is a [Role] when present;
    - [console] output is kept in the trace of calls, next to the reads and
      writes, so that the order of effects can be stated. *)

From Stdlib Require Import ZArith String Ascii List Bool Lia.
From stdpp Require Import gmap strings list fin_maps pretty.

Local Open Scope string_scope.
Local Open Scope Z_scope.

(** ** Data model *)

(** The [Role] enum of the schema (column [targetRole] and [User.role]). *)
Inductive Role : Type :=
| USER | USER_BRONZE | USER_GOLD | USER_PLATINUM | TRAINER | ADMIN.

#[global] Instance Role_eq_dec : EqDecision Role.
Proof. solve_decision. Defined.

(** [const ROLE_RANK: Record<Role, number>]. *)
Definition ROLE_RANK (r : Role) : Z :=
  match r with
  | USER => 0
  | USER_BRONZE => 1
  | USER_GOLD => 2
  | USER_PLATINUM => 3
  | TRAINER => 99
  | ADMIN => 100
  end.

(** The [status] column: the controller's own enum names only [PENDING] and
    [PAID]; the column also admits [FAILED] and [CANCELED]. *)
Inductive PaymentStatus : Type := PENDING | PAID | FAILED | CANCELED.

#[global] Instance PaymentStatus_eq_dec : EqDecision PaymentStatus.
Proof. solve_decision. Defined.

(** An entry of the plan registry. *)
Module Plan.
Record t : Type := mk
  { role : Role; amount : Z; currency : string; label : string }.
End Plan.

(** A [User] row as the controller sees it: the key and the [role] column
    (no other column is read or written here). *)
Module User.
Record t : Type := mk { id : Z; role : Role }.
End User.

(** A [MembershipPurchase] row.  [row] holds the columns stored under the
    primary key, [t] is a fetched record (key and columns). *)
Module Purchase.
Record row : Type := mkRow
  { r_userId : Z;
    r_targetRole : Role;
    r_status : PaymentStatus;
    r_amount : option Z;
    r_currency : option string;
    r_gateway : option string;
    r_externalId : option string }.

Record t : Type := mk
  { id : string;
    userId : Z;
    targetRole : Role;
    status : PaymentStatus;
    amount : option Z;
    currency : option string;
    gateway : option string;
    externalId : option string }.

Definition of_row (k : string) (r : row) : t :=
  mk k (r_userId r) (r_targetRole r) (r_status r) (r_amount r)
     (r_currency r) (r_gateway r) (r_externalId r).

(** [data] of [create]: [externalId] is not given and starts as NULL. *)
Record create_data : Type := mkCreate
  { c_userId : Z;
    c_targetRole : Role;
    c_status : PaymentStatus;
    c_amount : option Z;
    c_currency : option string;
    c_gateway : option string }.

Definition create_row (d : create_data) : row :=
  mkRow (c_userId d) (c_targetRole d) (c_status d) (c_amount d)
        (c_currency d) (c_gateway d) None.

(** [data] of [update]: a field that is absent ([undefined]) is left as it
    is. *)
Record update_data : Type := mkUpdate
  { u_status : option PaymentStatus;
    u_amount : option Z;
    u_currency : option string;
    u_externalId : option string;
    u_gateway : option string }.

Definition set_field {A} (new : option A) (old : option A) : option A :=
  match new with Some x => Some x | None => old end.

Definition apply_update (d : update_data) (r : row) : row :=
  mkRow (r_userId r) (r_targetRole r)
        (match u_status d with Some s => s | None => r_status r end)
        (set_field (u_amount d) (r_amount r))
        (set_field (u_currency d) (r_currency r))
        (set_field (u_gateway d) (r_gateway r))
        (set_field (u_externalId d) (r_externalId r)).

Definition to_row (p : t) : row :=
  mkRow (userId p) (targetRole p) (status p) (amount p) (currency p)
        (gateway p) (externalId p).

(** The record [update] returns for a row fetched as [p]. *)
Definition updated (d : update_data) (p : t) : t :=
  of_row (id p) (apply_update d (to_row p)).
End Purchase.

(** The gateway's checkout session, as far as the controller reads it. *)
Inductive SessionPaymentStatus : Type := paid | unpaid | no_payment_required.
Inductive SessionStatus : Type := open | complete | expired.

Module Session.
Record t : Type := mk
  { id : string;
    url : option string;
    payment_status : SessionPaymentStatus;
    status : option SessionStatus;
    amount_total : option Z;
    currency : option string;
    (* [metadata?.purchaseId] and [metadata?.targetRole as Role | undefined] *)
    metadata_purchaseId : option string;
    metadata_targetRole : option Role }.

Record metadata : Type := mkMetadata
  { purchaseId : string; userId : string; targetRole : Role }.

Record create_params : Type := mkParams
  { price : string;
    success_url : string;
    cancel_url : string;
    md : metadata }.
End Session.

Module Event.
Record t : Type := mk { type : string; data_object : Session.t }.
End Event.

(** The message of a thrown error. *)
Definition Error : Type := string.

(** ** The store and the calls a handler awaits *)

Record Db : Type := mkDb
  { users : gmap Z Role;
    purchases : gmap string Purchase.row }.

(** What the surroundings decide: the id the ORM generates for the next
    created purchase, the [CLIENT_URL] setting, and the gateway's answers. *)
Record Env : Type := mkEnv
  { newId : string;
    CLIENT_URL : option string;
    sessions_create : Session.create_params -> Error + Session.t;
    sessions_retrieve : string -> Error + Session.t }.

Inductive LogLine : Type :=
| log_checkout_error (e : Error)
| log_webhook_verify_failed (e : Error)
| log_webhook_missing_metadata
| log_webhook_amount_mismatch (got expect : Z)
| log_webhook_currency_mismatch (got expect : string)
| log_webhook_upgraded (userId : Z) (targetRole : Role)
| log_webhook_skip_role_update
| log_webhook_handler_error (e : Error)
| log_verify_error (e : Error).

(** [membershipPurchase_create_partial userId] is [create] with [data]
    [{ userId, targetRole: undefined, status: PENDING, amount: undefined,
    currency: undefined, gateway: "stripe" }], which is what the checkout
    passes when the indexed registry entry is no plan.  Every purchase the
    controller reads has a [targetRole], so the column is required and the
    ORM refuses this call: it has no successful reply. *)
Inductive Call : Type :=
| user_findUnique (id : Z)
| user_update (id : Z) (role : Role)
| membershipPurchase_create (data : Purchase.create_data)
| membershipPurchase_create_partial (userId : Z)
| membershipPurchase_findUnique (id : string)
| membershipPurchase_findFirst (externalId : string)
| membershipPurchase_update (id : string) (data : Purchase.update_data)
| stripe_checkout_sessions_create (params : Session.create_params)
| stripe_checkout_sessions_retrieve (id : string)
| console (line : LogLine).

Definition Reply (c : Call) : Type :=
  match c with
  | user_findUnique _ => option User.t
  | user_update _ _ => User.t
  | membershipPurchase_create _ => Purchase.t
  | membershipPurchase_create_partial _ => Empty_set
  | membershipPurchase_findUnique _ => option Purchase.t
  | membershipPurchase_findFirst _ => option Purchase.t
  | membershipPurchase_update _ _ => Purchase.t
  | stripe_checkout_sessions_create _ => Session.t
  | stripe_checkout_sessions_retrieve _ => Session.t
  | console _ => unit
  end.

(** A call that writes to a table. *)
Definition is_write (c : Call) : bool :=
  match c with
  | user_update _ _ | membershipPurchase_create _
  | membershipPurchase_create_partial _
  | membershipPurchase_update _ _ => true
  | _ => false
  end.

(** *** Table operations *)

Definition db_user_findUnique (db : Db) (k : Z) : option User.t :=
  User.mk k <$> users db !! k.

(** [update] rejects (P2025) when no row has the key. *)
Definition db_user_update (db : Db) (k : Z) (r : Role) : (Error + User.t) * Db :=
  match users db !! k with
  | Some _ => (inr (User.mk k r), mkDb (<[k := r]> (users db)) (purchases db))
  | None => (inl "Record to update not found.", db)
  end.

Definition db_purchase_findUnique (db : Db) (k : string) : option Purchase.t :=
  Purchase.of_row k <$> purchases db !! k.

(** [findFirst({ where: { externalId } })]: the first matching row in the
    table's enumeration order. *)
Definition db_purchase_findFirst (db : Db) (ext : string) : option Purchase.t :=
  (fun ikr : nat * (string * Purchase.row) =>
     Purchase.of_row (fst (snd ikr)) (snd (snd ikr)))
  <$> list_find (fun kr : string * Purchase.row =>
                   Purchase.r_externalId (snd kr) = Some ext)
                (map_to_list (purchases db)).

(** [create] stores the row under the generated id; a taken id violates the
    primary key (P2002). *)
Definition db_purchase_create (db : Db) (k : string) (d : Purchase.create_data)
  : (Error + Purchase.t) * Db :=
  match purchases db !! k with
  | Some _ => (inl "Unique constraint failed.", db)
  | None =>
      let r := Purchase.create_row d in
      (inr (Purchase.of_row k r), mkDb (users db) (<[k := r]> (purchases db)))
  end.

Definition db_purchase_update (db : Db) (k : string) (d : Purchase.update_data)
  : (Error + Purchase.t) * Db :=
  match purchases db !! k with
  | Some r =>
      let r' := Purchase.apply_update d r in
      (inr (Purchase.of_row k r'), mkDb (users db) (<[k := r']> (purchases db)))
  | None => (inl "Record to update not found.", db)
  end.

(** One awaited call against the store and the surroundings. *)
Definition exec (env : Env) (db : Db) (c : Call) : (Error + Reply c) * Db :=
  match c return (Error + Reply c) * Db with
  | user_findUnique k => (inr (db_user_findUnique db k), db)
  | user_update k r => db_user_update db k r
  | membershipPurchase_create d => db_purchase_create db (newId env) d
  | membershipPurchase_create_partial _ =>
      (inl "Argument `targetRole` is missing.", db)
  | membershipPurchase_findUnique k => (inr (db_purchase_findUnique db k), db)
  | membershipPurchase_findFirst ext => (inr (db_purchase_findFirst db ext), db)
  | membershipPurchase_update k d => db_purchase_update db k d
  | stripe_checkout_sessions_create p => (sessions_create env p, db)
  | stripe_checkout_sessions_retrieve k => (sessions_retrieve env k, db)
  | console _ => (inr tt, db)
  end.

(** ** Handler programs *)

Inductive Prog (R : Type) : Type :=
| Return (r : R)
| Throw (e : Error)
| Await (c : Call) (k : Error + Reply c -> Prog R).

Arguments Return {R} r.
Arguments Throw {R} e.
Arguments Await {R} c k.

Fixpoint bind {A B} (p : Prog A) (f : A -> Prog B) : Prog B :=
  match p with
  | Return a => f a
  | Throw e => Throw e
  | Await c k => Await c (fun x => bind (k x) f)
  end.

(** [await c]: the reply, or the call's rejection rethrown. *)
Definition await (c : Call) : Prog (Reply c) :=
  Await c (fun x => match x with inl e => Throw e | inr v => Return v end).

(** [try { p } catch (e) { h e }]. *)
Fixpoint tryCatch {A} (p : Prog A) (h : Error -> Prog A) : Prog A :=
  match p with
  | Return a => Return a
  | Throw e => h e
  | Await c k => Await c (fun x => tryCatch (k x) h)
  end.

Notation "x <- p ;; q" := (bind p (fun x => q))
  (at level 100, p at next level, right associativity).
Notation "p ;;; q" := (bind p (fun _ => q))
  (at level 100, right associativity).

Definition when (b : bool) (p : Prog unit) : Prog unit :=
  if b then p else Return tt.

(** Run a program to completion: outcome, final store, and the calls made,
    in order. *)
Fixpoint run {R} (env : Env) (p : Prog R) (db : Db)
  : (Error + R) * Db * list Call :=
  match p with
  | Return r => (inr r, db, [])
  | Throw e => (inl e, db, [])
  | Await c k =>
      let '(x, db1) := exec env db c in
      let '(o, db2, tr) := run env (k x) db1 in
      (o, db2, c :: tr)
  end.

(** What a call can reply when the store and the gateway are not taken to
    behave: any reply of the call's type, and with [failures] also any
    error, except that writing a log line does not fail. *)
Definition possible (failures : bool) (c : Call) (x : Error + Reply c)
  : Prop :=
  match x with
  | inr _ => True
  | inl _ =>
      failures = true /\
      match c with console _ => False | _ => True end
  end.

(** The outcomes a handler can end with, over every possible reply to every
    call it awaits. *)
Fixpoint answers {R} (failures : bool) (p : Prog R) (o : Error + R) : Prop :=
  match p with
  | Return r => o = inr r
  | Throw e => o = inl e
  | Await c k => exists x, possible failures c x /\ answers failures (k x) o
  end.

(** ** Requests and responses *)

Record CheckoutBody : Type := mkCheckoutBody
  { b_userId : option Z;
    b_priceId : option string;
    b_successPath : option string;
    b_cancelPath : option string }.

Record Effects : Type := mkEffects
  { didMarkPaid : bool; didUpgrade : bool; upgradedTo : option Role }.

Record VerifyBody : Type := mkVerifyBody
  { v_sessionId : string;
    v_payment_status : SessionPaymentStatus;
    v_amount_total : option Z;
    v_currency : option string;
    v_purchase : option (string * PaymentStatus * Role);
    v_user : option User.t;
    v_effects : Effects }.

Inductive Body : Type :=
| json_error (error : string)
| json_received
| send_text (text : string)
| json_checkout (url : option string) (sessionId purchaseId : string)
| json_verify (v : VerifyBody).

Record Response : Type := mkResponse { status_code : Z; body : Body }.

(** [res.json(b)] answers 200; [res.status(n).json(b)] answers [n]. *)
Definition res_json (b : Body) : Response := mkResponse 200 b.
Definition res_status (n : Z) (b : Body) : Response := mkResponse n b.

(** ** JavaScript operators the handlers use *)

(** A string operand of [!], [&&] or [||]: absent and empty are falsy. *)
Definition truthy (s : option string) : option string :=
  match s with
  | Some EmptyString => None
  | Some s => Some s
  | None => None
  end.

(** A numeric operand of [!]: absent and [0] are falsy. *)
Definition truthy_num (n : option Z) : option Z :=
  match n with
  | Some 0 => None
  | Some n => Some n
  | None => None
  end.

(** [a || b] on strings with a default. *)
Definition or_else (s : option string) (d : string) : string :=
  match truthy s with Some s => s | None => d end.

Definition upper_ascii (a : ascii) : ascii :=
  let n := nat_of_ascii a in
  if (Nat.leb 97 n && Nat.leb n 122)%bool then ascii_of_nat (n - 32) else a.

(** [String.prototype.toUpperCase] on the ASCII range (currency codes). *)
Fixpoint toUpperCase (s : string) : string :=
  match s with
  | EmptyString => EmptyString
  | String a s' => String (upper_ascii a) (toUpperCase s')
  end.

(** The own keys of an object literal: the value written under [priceId],
    if the literal has that key. *)
Fixpoint lookup_price (plans : list (string * Plan.t)) (priceId : string)
  : option Plan.t :=
  match plans with
  | [] => None
  | (k, p) :: rest =>
      if String.eqb k priceId then Some p else lookup_price rest priceId
  end.

(** The names every object literal inherits from [Object.prototype]. *)
Definition Object_prototype : list string :=
  [ "constructor"; "__defineGetter__"; "__defineSetter__"; "hasOwnProperty";
    "__lookupGetter__"; "__lookupSetter__"; "isPrototypeOf";
    "propertyIsEnumerable"; "toString"; "valueOf"; "__proto__";
    "toLocaleString" ].

Definition inherited_key (key : string) : bool :=
  existsb (String.eqb key) Object_prototype.

(** [obj[key]] on an object literal whose values are plans: the plan of an
    own key; for an inherited name a member of [Object.prototype] (a
    function, or the prototype itself), which is truthy and has no [role],
    [amount] or [currency]; [undefined] for any other key. *)
Inductive Indexed : Type :=
| indexed_plan (plan : Plan.t)
| indexed_inherited
| indexed_undefined.

Definition index (plans : list (string * Plan.t)) (key : string) : Indexed :=
  match lookup_price plans key with
  | Some plan => indexed_plan plan
  | None => if inherited_key key then indexed_inherited else indexed_undefined
  end.

(** [Object.values(obj).find(p => p.role === targetRole)]. *)
Definition find_plan_by_role (plans : list (string * Plan.t)) (r : Role)
  : option Plan.t :=
  List.find (fun p => bool_decide (Plan.role p = r)) (List.map snd plans).

(** [session.payment_status === "paid" || session.status === "complete"]. *)
Definition isPaid (s : Session.t) : bool :=
  match Session.payment_status s, Session.status s with
  | paid, _ => true
  | _, Some complete => true
  | _, _ => false
  end.

(** ** The controller *)

Section Controller.

(** [import { STRIPE_PRICE_TO_PLAN } from "../constants/stripePlans"]: the
    handlers are written over the imported registry, whatever it holds. *)
Variable STRIPE_PRICE_TO_PLAN : list (string * Plan.t).

(** [POST /api/stripe/checkout]. *)
Definition createCheckoutSession (env : Env) (req : CheckoutBody)
  : Prog Response :=
  tryCatch
    (let successPath := default "/success" (b_successPath req) in
     let cancelPath := default "/cancel" (b_cancelPath req) in
     match truthy_num (b_userId req) with
     | None => Return (res_status 400 (json_error "userId required"))
     | Some userId =>
     match truthy (b_priceId req) with
     | None => Return (res_status 400 (json_error "priceId required"))
     | Some priceId =>
     match index STRIPE_PRICE_TO_PLAN priceId with
     | indexed_undefined =>
         Return (res_status 400 (json_error "invalid priceId"))
     | indexed_inherited =>
         (* [plan] is truthy; [plan.role] is [undefined], and
            [ROLE_RANK[undefined] <= n] is false, so the guard passes *)
         user <- await (user_findUnique userId) ;;
         match user with
         | None => Return (res_status 404 (json_error "user not found"))
         | Some user =>
             refused <- await (membershipPurchase_create_partial
                                 (User.id user)) ;;
             match refused with end
         end
     | indexed_plan plan =>
         user <- await (user_findUnique userId) ;;
         match user with
         | None => Return (res_status 404 (json_error "user not found"))
         | Some user =>
             if ROLE_RANK (Plan.role plan) <=? ROLE_RANK (User.role user)
             then Return (res_status 409
                            (json_error "already has equal or higher role"))
             else
               purchase <- await (membershipPurchase_create
                 (Purchase.mkCreate (User.id user) (Plan.role plan) PENDING
                    (Some (Plan.amount plan)) (Some (Plan.currency plan))
                    (Some "stripe"))) ;;
               let origin := or_else (CLIENT_URL env) "http://127.0.0.1:3000" in
               session <- await (stripe_checkout_sessions_create
                 (Session.mkParams priceId
                    (origin ++ successPath ++ "?session_id={CHECKOUT_SESSION_ID}")
                    (origin ++ cancelPath)
                    (Session.mkMetadata (Purchase.id purchase)
                       (pretty (User.id user)) (Plan.role plan)))) ;;
               await (membershipPurchase_update (Purchase.id purchase)
                 (Purchase.mkUpdate None None None
                    (Some (Session.id session)) None)) ;;;
               Return (res_json (json_checkout (Session.url session)
                         (Session.id session) (Purchase.id purchase)))
         end
     end end end)
    (fun e =>
       await (console (log_checkout_error e)) ;;;
       Return (res_status 500 (json_error e))).

(** The [data] both settlement paths write, but for [gateway]. *)
Definition paid_update (session : Session.t) (purchase : Purchase.t)
    (gateway : option string) : Purchase.update_data :=
  Purchase.mkUpdate
    (Some PAID)
    (match Session.amount_total session with
     | Some a => Some a
     | None => Purchase.amount purchase
     end)
    (Some (toUpperCase
             (match truthy (Session.currency session) with
              | Some c => c
              | None => or_else (Purchase.currency purchase) "THB"
              end)))
    (Some (Session.id session))
    gateway.

(** The advisory cross-check of the reported amount and currency against
    the plan of [targetRole]: it only warns. *)
Definition cross_check (session : Session.t) (targetRole : Role)
  : Prog unit :=
  match find_plan_by_role STRIPE_PRICE_TO_PLAN targetRole with
  | Some plan =>
      match Session.amount_total session with
      | Some got =>
          when (negb (got =? Plan.amount plan))
            (await (console (log_webhook_amount_mismatch
                               got (Plan.amount plan))))
      | None => Return tt
      end ;;;
      match truthy (Session.currency session) with
      | Some got =>
          when (negb (String.eqb (toUpperCase got)
                                 (toUpperCase (Plan.currency plan))))
            (await (console (log_webhook_currency_mismatch
                               got (Plan.currency plan))))
      | None => Return tt
      end
  | None => Return tt
  end.

(** [POST /api/stripe/webhook].  [req] is what
    [stripe.webhooks.constructEvent(req.body, sig, secret)] yields: the
    verified event, or the error it throws. *)
Definition handleWebhook (req : Error + Event.t) : Prog Response :=
  match req with
  | inl err =>
      await (console (log_webhook_verify_failed err)) ;;;
      Return (res_status 400 (send_text ("Webhook Error: " ++ err)))
  | inr event =>
    tryCatch
      (if String.eqb (Event.type event) "checkout.session.completed" then
         let session := Event.data_object event in
         match truthy (Session.metadata_purchaseId session),
               Session.metadata_targetRole session with
         | Some purchaseId, Some targetRole =>
             purchase <- await (membershipPurchase_findUnique purchaseId) ;;
             match purchase with
             | None => Return (res_json json_received)
             | Some purchase =>
                 if bool_decide (Purchase.status purchase = PAID)
                 then Return (res_json json_received)
                 else
                   cross_check session targetRole ;;;
                   await (membershipPurchase_update (Purchase.id purchase)
                            (paid_update session purchase None)) ;;;
                   user <- await (user_findUnique (Purchase.userId purchase)) ;;
                   match user with
                   | Some user =>
                       if ROLE_RANK targetRole >? ROLE_RANK (User.role user)
                       then
                         await (user_update (User.id user) targetRole) ;;;
                         await (console (log_webhook_upgraded
                                           (User.id user) targetRole))
                       else await (console log_webhook_skip_role_update)
                   | None => await (console log_webhook_skip_role_update)
                   end ;;;
                   Return (res_json json_received)
             end
         | _, _ =>
             await (console log_webhook_missing_metadata) ;;;
             Return (res_json json_received)
         end
       else Return (res_json json_received))
      (fun e =>
         await (console (log_webhook_handler_error e)) ;;;
         Return (res_status 500 (json_error "Webhook handler failed")))
  end.

(** [GET /api/stripe/verify?session_id=...]. *)
Definition verifySession (session_id : option string) : Prog Response :=
  tryCatch
    (match truthy session_id with
     | None => Return (res_status 400 (json_error "session_id required"))
     | Some sessionId =>
         session <- await (stripe_checkout_sessions_retrieve sessionId) ;;
         let isPaid := isPaid session in
         byExternalId <- await (membershipPurchase_findFirst (Session.id session)) ;;
         purchase <-
           match byExternalId with
           | Some p => Return (Some p)
           | None =>
               match truthy (Session.metadata_purchaseId session) with
               | Some purchaseId =>
                   await (membershipPurchase_findUnique purchaseId)
               | None => Return None
               end
           end ;;
         user <-
           match purchase with
           | Some p => await (user_findUnique (Purchase.userId p))
           | None => Return None
           end ;;
         settled <-
           match purchase, user, isPaid with
           | Some p, Some u, true =>
               marked <-
                 (if negb (bool_decide (Purchase.status p = PAID)) then
                    p' <- await (membershipPurchase_update (Purchase.id p)
                                   (paid_update session p (Some "stripe"))) ;;
                    Return (p', true)
                  else Return (p, false)) ;;
               let p := fst marked in
               if ROLE_RANK (Purchase.targetRole p) >? ROLE_RANK (User.role u)
               then
                 await (user_update (User.id u) (Purchase.targetRole p)) ;;;
                 Return (Some p, mkEffects (snd marked) true
                                   (Some (Purchase.targetRole p)))
               else Return (Some p, mkEffects (snd marked) false None)
           | _, _, _ => Return (purchase, mkEffects false false None)
           end ;;
         let purchase := fst settled in
         user <-
           match purchase with
           | Some p => await (user_findUnique (Purchase.userId p))
           | None => Return None
           end ;;
         Return (res_json (json_verify
           (mkVerifyBody (Session.id session)
              (Session.payment_status session)
              (Session.amount_total session)
              (toUpperCase <$> Session.currency session)
              ((fun p => (Purchase.id p, Purchase.status p,
                          Purchase.targetRole p)) <$> purchase)
              user
              (snd settled))))
     end)
    (fun e =>
       await (console (log_verify_error e)) ;;;
       Return (res_status 500 (json_error (or_else (Some e) "verify failed")))).

End Controller.

(** [export const STRIPE_PRICE_TO_PLAN] of [constants/stripePlans.ts], the
    registry the controller imports: an object literal, kept in key insertion
    order, which is the order [Object.values] enumerates. *)
Definition STRIPE_PRICE_TO_PLAN : list (string * Plan.t) :=
  [ ("price_1SHi6U3JFtC2WMSKhAQeq9c8",
      Plan.mk USER_BRONZE 49900 "THB" "Bronze 499");
    ("price_1SHi5X3JFtC2WMSKqqCbjHoV",
      Plan.mk USER_GOLD 129900 "THB" "Gold 1299");
    ("price_1SHi7b3JFtC2WMSKRkKDIGL0",
      Plan.mk USER_PLATINUM 299900 "THB" "Platinum 2999") ].

(** ** Requests in sequence and in overlap *)

Inductive Invocation : Type :=
| checkout (req : CheckoutBody)
| webhook (req : Error + Event.t)
| verify (session_id : option string).

Definition handler (plans : list (string * Plan.t)) (env : Env)
    (i : Invocation) : Prog Response :=
  match i with
  | checkout req => createCheckoutSession plans env req
  | webhook req => handleWebhook plans req
  | verify session_id => verifySession session_id
  end.

(** Requests served one after another, each to completion. *)
Fixpoint serve (plans : list (string * Plan.t))
    (reqs : list (Env * Invocation)) (db : Db)
  : list ((Error + Response) * list Call) * Db :=
  match reqs with
  | [] => ([], db)
  | (env, i) :: rest =>
      let '(o, db1, tr) := run env (handler plans env i) db in
      let '(outs, db2) := serve plans rest db1 in
      ((o, tr) :: outs, db2)
  end.

(** A request in flight: its surroundings and what is left of its handler. *)
Record Thread : Type := mkThread { t_env : Env; t_prog : Prog Response }.

Definition spawn (plans : list (string * Plan.t)) (ei : Env * Invocation)
  : Thread :=
  mkThread (fst ei) (handler plans (fst ei) (snd ei)).

(** The next awaited call of a request, executed atomically. *)
Definition step (t : Thread) (db : Db) : option (Thread * Db * Call) :=
  match t_prog t with
  | Await c k =>
      let '(x, db1) := exec (t_env t) db c in
      Some (mkThread (t_env t) (k x), db1, c)
  | _ => None
  end.

(** Requests in overlap: [sched] names, call by call, the request that
    proceeds.  The log pairs each executed call with its request and with the
    store it ran on.  A finished (or absent) request skips its turn. *)
Fixpoint interleave (sched : list nat) (pool : list Thread) (db : Db)
  : list Thread * Db * list (nat * Db * Call) :=
  match sched with
  | [] => (pool, db, [])
  | i :: sched' =>
      match t ← pool !! i; step t db with
      | Some (t', db1, c) =>
          let '(pool2, db2, log) := interleave sched' (<[i := t']> pool) db1 in
          (pool2, db2, (i, db, c) :: log)
      | None => interleave sched' pool db
      end
  end.

Definition finished (t : Thread) : option Response :=
  match t_prog t with Return r => Some r | _ => None end.

(** The write that settles purchase [pid]: an [update] of that row setting
    [status] to [PAID]. *)
Definition is_paid_write (pid : string) (c : Call) : bool :=
  match c with
  | membershipPurchase_update k d =>
      bool_decide (k = pid) && bool_decide (Purchase.u_status d = Some PAID)
  | _ => false
  end.

Definition purchase_status (db : Db) (pid : string) : option PaymentStatus :=
  Purchase.r_status <$> purchases db !! pid.

(** ** What a request is expected to do

    The definitions below only name the outcomes the properties talk about:
    the calls a path of a handler makes and the store it leaves. *)

Definition is_console (c : Call) : bool :=
  match c with console _ => true | _ => false end.

Definition is_user_update (c : Call) : bool :=
  match c with user_update _ _ => true | _ => false end.

Definition no_write (tr : list Call) : Prop :=
  Forall (fun c => is_write c = false) tr.

(** The warnings of the cross-check: the calls the block itself makes (it
    reads neither the store nor the surroundings). *)
Definition cross_check_log (plans : list (string * Plan.t)) (s : Session.t)
    (tgt : Role) : list Call :=
  snd (run (mkEnv "" None (fun _ => inl "") (fun _ => inl ""))
           (cross_check plans s tgt) (mkDb ∅ ∅)).

(** [handleWebhook] after its settling write: the user is fetched again and
    upgraded when [tgt] outranks the role read. *)
Definition webhook_upgrade_calls (db : Db) (tgt : Role) (p : Purchase.t)
  : list Call :=
  user_findUnique (Purchase.userId p) ::
  match db_user_findUnique db (Purchase.userId p) with
  | Some u =>
      if ROLE_RANK tgt >? ROLE_RANK (User.role u)
      then [user_update (Purchase.userId p) tgt;
            console (log_webhook_upgraded (Purchase.userId p) tgt)]
      else [console log_webhook_skip_role_update]
  | None => [console log_webhook_skip_role_update]
  end.

Definition webhook_final_users (db : Db) (tgt : Role) (p : Purchase.t)
  : gmap Z Role :=
  match db_user_findUnique db (Purchase.userId p) with
  | Some u =>
      if ROLE_RANK tgt >? ROLE_RANK (User.role u)
      then <[Purchase.userId p := tgt]> (users db)
      else users db
  | None => users db
  end.

(** The purchase [verifySession] resolves for a session: by [externalId]
    first, else by the [purchaseId] of the metadata; with the lookups made. *)
Definition verify_resolve (db : Db) (s : Session.t)
  : option Purchase.t * list Call :=
  match db_purchase_findFirst db (Session.id s) with
  | Some p => (Some p, [membershipPurchase_findFirst (Session.id s)])
  | None =>
      match truthy (Session.metadata_purchaseId s) with
      | Some k =>
          (db_purchase_findUnique db k,
           [membershipPurchase_findFirst (Session.id s);
            membershipPurchase_findUnique k])
      | None => (None, [membershipPurchase_findFirst (Session.id s)])
      end
  end.

(** The resolution rule in the specification's words: look up by
    [externalId] equal to the event's session id first; if not found, fall
    back to the [purchaseId] of the event's correlation metadata. *)
Definition reconcile_resolve_spec (db : Db) (s : Session.t)
  : option Purchase.t :=
  match db_purchase_findFirst db (Session.id s) with
  | Some p => Some p
  | None =>
      match truthy (Session.metadata_purchaseId s) with
      | Some k => db_purchase_findUnique db k
      | None => None
      end
  end.

Definition verify_response (s : Session.t) (purchase : option Purchase.t)
    (user : option User.t) (eff : Effects) : Response :=
  res_json (json_verify
    (mkVerifyBody (Session.id s) (Session.payment_status s)
       (Session.amount_total s) (toUpperCase <$> Session.currency s)
       ((fun p => (Purchase.id p, Purchase.status p, Purchase.targetRole p))
          <$> purchase)
       user eff)).

(** [verifySession] with purchase [p], user [u] and a paid session: whether
    the call writes the purchase, whether it upgrades, and what it leaves. *)
Definition verify_marks (p : Purchase.t) : bool :=
  negb (bool_decide (Purchase.status p = PAID)).

Definition verify_upgrades (p : Purchase.t) (u : User.t) : bool :=
  ROLE_RANK (Purchase.targetRole p) >? ROLE_RANK (User.role u).

Definition verify_purchase (s : Session.t) (p : Purchase.t) : Purchase.t :=
  if verify_marks p
  then Purchase.updated (paid_update s p (Some "stripe")) p
  else p.

Definition verify_final_db (db : Db) (s : Session.t) (p : Purchase.t)
    (u : User.t) : Db :=
  let db1 :=
    if verify_marks p
    then mkDb (users db)
              (<[Purchase.id p := Purchase.to_row (verify_purchase s p)]>
                 (purchases db))
    else db in
  if verify_upgrades p u
  then mkDb (<[Purchase.userId p := Purchase.targetRole p]> (users db1))
            (purchases db1)
  else db1.

Definition verify_settle_calls (s : Session.t) (p : Purchase.t) (u : User.t)
  : list Call :=
  ((if verify_marks p
    then [membershipPurchase_update (Purchase.id p)
            (paid_update s p (Some "stripe"))]
    else []) ++
   (if verify_upgrades p u
    then [user_update (Purchase.userId p) (Purchase.targetRole p)]
    else []))%list.

(** A checkout request that passes every validation. *)
Definition checkout_valid (plans : list (string * Plan.t)) (db : Db)
    (req : CheckoutBody) (uid : Z) (priceId : string) (plan : Plan.t)
    (u : User.t) : Prop :=
  truthy_num (b_userId req) = Some uid /\
  truthy (b_priceId req) = Some priceId /\
  lookup_price plans priceId = Some plan /\
  db_user_findUnique db uid = Some u /\
  ROLE_RANK (Plan.role plan) > ROLE_RANK (User.role u).

(** A checkout request that fails one: no user id, a user id of no user, a
    price id that resolves to no plan, or a plan that does not outrank the
    user's role. *)
Definition checkout_invalid (plans : list (string * Plan.t)) (db : Db)
    (req : CheckoutBody) : Prop :=
  truthy_num (b_userId req) = None \/
  (exists uid, truthy_num (b_userId req) = Some uid /\
               db_user_findUnique db uid = None) \/
  (forall priceId, truthy (b_priceId req) = Some priceId ->
                   lookup_price plans priceId = None) \/
  (exists uid priceId plan u,
      truthy_num (b_userId req) = Some uid /\
      truthy (b_priceId req) = Some priceId /\
      lookup_price plans priceId = Some plan /\
      db_user_findUnique db uid = Some u /\
      ROLE_RANK (Plan.role plan) <= ROLE_RANK (User.role u)).

(** A checkout request that the [!plan] check lets through although its
    price id resolves to no plan: the price id is an inherited name, and the
    user exists. *)
Definition checkout_slips (plans : list (string * Plan.t)) (db : Db)
    (req : CheckoutBody) (uid : Z) (priceId : string) (u : User.t) : Prop :=
  truthy_num (b_userId req) = Some uid /\
  truthy (b_priceId req) = Some priceId /\
  lookup_price plans priceId = None /\
  inherited_key priceId = true /\
  db_user_findUnique db uid = Some u.

Definition client_error (code : Z) : Prop :=
  code = 400 \/ code = 404 \/ code = 409.

Definition checkout_create_data (uid : Z) (plan : Plan.t)
  : Purchase.create_data :=
  Purchase.mkCreate uid (Plan.role plan) PENDING
    (Some (Plan.amount plan)) (Some (Plan.currency plan)) (Some "stripe").

Definition checkout_params (env : Env) (req : CheckoutBody) (uid : Z)
    (priceId : string) (plan : Plan.t) : Session.create_params :=
  let origin := or_else (CLIENT_URL env) "http://127.0.0.1:3000" in
  Session.mkParams priceId
    (origin ++ default "/success" (b_successPath req)
            ++ "?session_id={CHECKOUT_SESSION_ID}")
    (origin ++ default "/cancel" (b_cancelPath req))
    (Session.mkMetadata (newId env) (pretty uid) (Plan.role plan)).

(** The row as created ([externalId] absent), and as linked to a session. *)
Definition checkout_row (uid : Z) (plan : Plan.t) (ext : option string)
  : Purchase.row :=
  Purchase.mkRow uid (Plan.role plan) PENDING (Some (Plan.amount plan))
    (Some (Plan.currency plan)) (Some "stripe") ext.

(** A request that carries a completed-payment event and resolves purchase
    [p]; [tgt] is the role the handler would grant: the metadata's in
    [handleWebhook], the purchase's in [verifySession]. *)
Definition resolves_paid_event (env : Env) (db : Db) (i : Invocation)
    (p : Purchase.t) (tgt : Role) : Prop :=
  match i with
  | webhook (inr ev) =>
      Event.type ev = "checkout.session.completed" /\
      Session.metadata_targetRole (Event.data_object ev) = Some tgt /\
      exists pid,
        truthy (Session.metadata_purchaseId (Event.data_object ev)) = Some pid /\
        db_purchase_findUnique db pid = Some p
  | verify (Some sid) =>
      exists s,
        truthy (Some sid) = Some sid /\
        sessions_retrieve env sid = inr s /\
        isPaid s = true /\
        fst (verify_resolve db s) = Some p /\
        tgt = Purchase.targetRole p
  | _ => False
  end.

(** A request that carries a completed-payment event of gateway session
    [sid], whose metadata names purchase [pid]. *)
Definition carries (pid sid : string) (ei : Env * Invocation) : Prop :=
  match snd ei with
  | webhook (inr ev) =>
      Event.type ev = "checkout.session.completed" /\
      Session.id (Event.data_object ev) = sid /\
      truthy (Session.metadata_purchaseId (Event.data_object ev)) = Some pid /\
      is_Some (Session.metadata_targetRole (Event.data_object ev))
  | verify (Some session_id) =>
      exists s,
        truthy (Some session_id) = Some session_id /\
        sessions_retrieve (fst ei) session_id = inr s /\
        Session.id s = sid /\
        isPaid s = true /\
        truthy (Session.metadata_purchaseId s) = Some pid
  | _ => False
  end.

(** How often a run wrote [status = PAID] to purchase [pid], and how often it
    wrote a role. *)
Definition paid_writes (pid : string) (tr : list Call) : nat :=
  length (List.filter (is_paid_write pid) tr).

Definition role_writes (tr : list Call) : nat :=
  length (List.filter is_user_update tr).

(** The role of a user never drops from one store to the next. *)
Definition role_le (a b : option Role) : Prop :=
  match a, b with
  | Some x, Some y => ROLE_RANK x <= ROLE_RANK y
  | None, None => True
  | _, _ => False
  end.

(** The settling writes of an overlapped run, each with its request and the
    status the purchase had when the write ran. *)
Definition settling_writes (pid : string) (log : list (nat * Db * Call))
  : list (nat * option PaymentStatus) :=
  (fun e => (fst (fst e), purchase_status (snd (fst e)) pid))
  <$> List.filter (fun e => is_paid_write pid (snd e)) log.

(** What the checkout guard and the settlement checks decide, read off a
    run. *)
Definition checkout_rejected (r : (Error + Response) * Db * list Call) : bool :=
  match fst (fst r) with
  | inr resp => status_code resp =? 409
  | inl _ => false
  end.

Definition upgraded (r : (Error + Response) * Db * list Call) : bool :=
  existsb is_user_update (snd r).

(** A checkout request that reaches the role guard with a user holding
    [cur] and a plan granting [tgt]. *)
Definition checkout_at_guard (plans : list (string * Plan.t)) (db : Db)
    (req : CheckoutBody) (cur tgt : Role) : Prop :=
  exists uid priceId plan,
    truthy_num (b_userId req) = Some uid /\
    truthy (b_priceId req) = Some priceId /\
    lookup_price plans priceId = Some plan /\
    Plan.role plan = tgt /\
    db_user_findUnique db uid = Some (User.mk uid cur).

(** A webhook or verify request that reaches the upgrade check with a user
    holding [cur] and target role [tgt] ([handleWebhook] reaches it only
    past its [PAID] gate). *)
Definition settlement_at_guard (env : Env) (db : Db) (i : Invocation)
    (cur tgt : Role) : Prop :=
  exists p,
    resolves_paid_event env db i p tgt /\
    match i with
    | webhook _ => Purchase.status p <> PAID
    | _ => True
    end /\
    db_user_findUnique db (Purchase.userId p)
      = Some (User.mk (Purchase.userId p) cur).

(** The role writes still owed to the user of purchase [p]: one while the
    purchase's target outranks the user's role, none after. *)
Definition pending_upgrade (db : Db) (p : Purchase.t) : nat :=
  match users db !! Purchase.userId p with
  | Some r => if ROLE_RANK (Purchase.targetRole p) >? ROLE_RANK r then 1 else 0
  | None => 0
  end.

(** All the calls of a sequence of served requests. *)
Definition all_calls (outs : list ((Error + Response) * list Call))
  : list Call :=
  concat (snd <$> outs).

(** Only purchase [pid] may carry gateway session [sid] as [externalId]. *)
Definition unique_external (db : Db) (pid sid : string) : Prop :=
  forall k r,
    purchases db !! k = Some r ->
    Purchase.r_externalId r = Some sid ->
    k = pid.

(** ** Concrete stores, sessions and requests *)

Module Scenario.
Definition gold_price : string := "price_1SHi5X3JFtC2WMSKqqCbjHoV".

Definition gold_row (st : PaymentStatus) (ext : option string)
  : Purchase.row :=
  Purchase.mkRow 7 USER_GOLD st (Some 129900) (Some "THB") (Some "stripe") ext.

(** User 7 holds [USER]; purchase "p1" for [USER_GOLD] is linked to
    session "cs_1". *)
Definition db_pending : Db :=
  mkDb {[ 7 := USER ]} {[ "p1" := gold_row PENDING (Some "cs_1") ]}.

(** The same purchase settled while the user was not yet upgraded. *)
Definition db_paid : Db :=
  mkDb {[ 7 := USER ]} {[ "p1" := gold_row PAID (Some "cs_1") ]}.

(** The purchase names a user that does not exist. *)
Definition db_orphan : Db :=
  mkDb ∅ {[ "p1" := gold_row PENDING (Some "cs_1") ]}.

(** User 7 already holds [USER_PLATINUM]. *)
Definition db_platinum : Db := mkDb {[ 7 := USER_PLATINUM ]} ∅.

Definition session (amount : Z) (cur : string) (pid : option string)
    (tgt : option Role) : Session.t :=
  Session.mk "cs_1" (Some "https://checkout.stripe.com/c/cs_1") paid
    (Some complete) (Some amount) (Some cur) pid tgt.

Definition session_paid : Session.t :=
  session 129900 "thb" (Some "p1") (Some USER_GOLD).

(** Amount and currency differ from the Gold plan's. *)
Definition session_mismatch : Session.t :=
  session 100 "usd" (Some "p1") (Some USER_GOLD).

(** The metadata is missing. *)
Definition session_bare : Session.t := session 129900 "thb" None None.

(** The metadata names a higher role than the purchase. *)
Definition session_platinum : Session.t :=
  session 129900 "thb" (Some "p1") (Some USER_PLATINUM).

(** A session of some other system. *)
Definition session_foreign : Session.t :=
  Session.mk "cs_9" None paid (Some complete) (Some 500) (Some "usd")
    (Some "p9") (Some USER_BRONZE).

Definition completed (s : Session.t) : Event.t :=
  Event.mk "checkout.session.completed" s.

(** Surroundings: the next generated id is "p2" and the gateway answers
    every request with [s]. *)
Definition env_with (s : Session.t) : Env :=
  mkEnv "p2" None (fun _ => inr s) (fun _ => inr s).

(** Surroundings whose gateway refuses to create a session. *)
Definition env_down : Env :=
  mkEnv "p2" None (fun _ => inl "connection refused")
    (fun _ => inl "connection refused").

Definition gold_request : CheckoutBody :=
  mkCheckoutBody (Some 7) (Some gold_price) None None.


(** The webhook and the browser's verify request for the same paid session,
    in flight together. *)
Definition overlap_pool : list Thread :=
  [ spawn STRIPE_PRICE_TO_PLAN
      (env_with session_paid, webhook (inr (completed session_paid)));
    spawn STRIPE_PRICE_TO_PLAN (env_with session_paid, verify (Some "cs_1")) ].

(** Both requests read the purchase before either writes it. *)
Definition overlap_schedule : list nat :=
  [0; 1; 1; 1; 0; 1; 0; 1; 0; 0; 1]%nat.
End Scenario.

(** What is left of a program once it has run. *)
Definition residue {R} (o : Error + R) : Prog R :=
  match o with inr r => Return r | inl e => Throw e end.

(** The session a webhook or verify request acts on, and the [gateway] tag
    its settling write carries ([verifySession] sets it, [handleWebhook]
    leaves the column alone). *)
Definition session_of (env : Env) (i : Invocation) : option Session.t :=
  match i with
  | webhook (inr ev) => Some (Event.data_object ev)
  | verify (Some sid) =>
      match sessions_retrieve env sid with
      | inr s => Some s
      | inl _ => None
      end
  | _ => None
  end.

Definition gateway_tag (i : Invocation) : option string :=
  match i with
  | verify _ => Some "stripe"
  | _ => None
  end.

(** ** The authentication middleware ([src/middleware/auth.ts]) *)

Module Auth.

(** [TokenPayload]: the claims of a verified token ([exp] is not read). *)
Record TokenPayload : Type := mkPayload
  { p_id : option Z; p_email : option string; p_role : option string }.

(** [req.authUser]. *)
Record AuthUser : Type := mkAuthUser
  { id : option Z; email : option string; role : option string }.

(** A request as the middleware reads and extends it: the [Authorization]
    header and the attached user. *)
Record Request : Type := mkRequest
  { authorization : option string; authUser : option AuthUser }.

(** [res.status(n).json({ message })]. *)
Record Reply : Type := mkReply { status : Z; message : string }.

(** A middleware either hands the request on ([next()]) or answers. *)
Inductive Outcome : Type :=
| next (req : Request)
| respond (r : Reply).

(** [header.slice(n)]. *)
Definition slice (n : nat) (s : string) : string :=
  String.substring n (String.length s - n) s.

(** [const extractToken]. *)
Definition extractToken (req : Request) : option string :=
  match truthy (authorization req) with
  | None => None
  | Some header =>
      if String.prefix "Bearer " header
      then Some (slice (String.length "Bearer ") header)
      else None
  end.

Definition attach (req : Request) (payload : TokenPayload) : Request :=
  mkRequest (authorization req)
    (Some (mkAuthUser (p_id payload) (p_email payload) (p_role payload))).

Section Middleware.

(** [import { verifyToken } from "../utils/jwt"]: the verified payload, or
    the error it throws. *)
Variable verifyToken : string -> Error + TokenPayload.

Definition attachAuthIfPresent (req : Request) : Outcome :=
  match truthy (extractToken req) with
  | None => next req
  | Some token =>
      match verifyToken token with
      | inr payload => next (attach req payload)
      | inl _ => next req
      end
  end.

Definition requireAuth (req : Request) : Outcome :=
  match truthy (extractToken req) with
  | None => respond (mkReply 401 "Missing authorization token.")
  | Some token =>
      match verifyToken token with
      | inr payload => next (attach req payload)
      | inl _ => respond (mkReply 401 "Invalid token.")
      end
  end.

Definition requireAdmin (req : Request) : Outcome :=
  match truthy (extractToken req) with
  | None => respond (mkReply 401 "Missing authorization token.")
  | Some token =>
      match verifyToken token with
      | inr payload =>
          if negb (bool_decide (p_role payload = Some "ADMIN"))
          then respond (mkReply 403 "Only admins can perform this action.")
          else next (attach req payload)
      | inl _ => respond (mkReply 401 "Invalid token.")
      end
  end.

(** A header that carries a non-empty bearer token the verifier accepts. *)
Definition valid_bearer (req : Request) (payload : TokenPayload) : Prop :=
  exists t,
    authorization req = Some ("Bearer " ++ t) /\
    t <> "" /\
    verifyToken t = inr payload.

End Middleware.
End Auth.

(** ** The category controller ([src/controllers/classCategory.controller.ts]) *)

Module Category.

(** A [ClassCategory] row, as far as the handlers read and write it: the
    columns stored under the key, and a fetched record. *)
Record row : Type := mkRow { r_name : string; r_description : option string }.

Record t : Type := mk
  { id : Z; name : string; description : option string }.

Definition of_row (k : Z) (r : row) : t := mk k (r_name r) (r_description r).

(** The store: the category table with its auto-increment counter, and the
    [categoryId] column of the class table (what [_count.classes] counts). *)
Record Store : Type := mkStore
  { categories : gmap Z row;
    next_id : Z;
    classes : list (option Z) }.

(** The rejections of the ORM the handlers tell apart by [error.code]. *)
Inductive DbError : Type := P2002 | P2025 | validation.

(** [Number(id)] on a route parameter, as the handlers use the result: not
    a number, a number the ORM accepts as a key, or any other number
    (fractional, infinite, out of range), which the ORM rejects. *)
Inductive JsNumber : Type := js_nan | js_int (n : Z) | js_other.

Inductive Body : Type :=
| message (m : string)
| category (c : t).

Record Reply : Type := mkReply { status : Z; body : Body }.

(** The key of a row named [n], if any (the unique index on [name] that the
    handlers' [P2002] branch refers to). *)
Definition name_owner (m : gmap Z row) (n : string) : option Z :=
  (fun ikr : nat * (Z * row) => fst (snd ikr))
  <$> list_find (fun kr : Z * row => r_name (snd kr) = n) (map_to_list m).

(** [_count: { select: { classes: true } }]. *)
Definition count_classes (st : Store) (k : Z) : nat :=
  length (List.filter (fun c => bool_decide (c = Some k)) (classes st)).

(** [prisma.classCategory.create]. *)
Definition db_create (st : Store) (n : string) (d : option string)
  : (DbError + t) * Store :=
  match name_owner (categories st) n with
  | Some _ => (inl P2002, st)
  | None =>
      let r := mkRow n d in
      (inr (of_row (next_id st) r),
       mkStore (<[next_id st := r]> (categories st)) (next_id st + 1)
               (classes st))
  end.

(** [prisma.classCategory.update]: absent fields are left as they are. *)
Definition db_update (st : Store) (k : Z) (n : option string)
    (d : option string) : (DbError + t) * Store :=
  match categories st !! k with
  | None => (inl P2025, st)
  | Some r =>
      let r' := mkRow (default (r_name r) n)
                      (match d with Some x => Some x | None => r_description r end) in
      match n with
      | Some n' =>
          match name_owner (delete k (categories st)) n' with
          | Some _ => (inl P2002, st)
          | None =>
              (inr (of_row k r'),
               mkStore (<[k := r']> (categories st)) (next_id st) (classes st))
          end
      | None =>
          (inr (of_row k r'),
           mkStore (<[k := r']> (categories st)) (next_id st) (classes st))
      end
  end.

(** [prisma.classCategory.delete]. *)
Definition db_delete (st : Store) (k : Z) : (DbError + unit) * Store :=
  match categories st !! k with
  | None => (inl P2025, st)
  | Some _ =>
      (inr tt, mkStore (delete k (categories st)) (next_id st) (classes st))
  end.

Record CreateRequest : Type := mkCreateRequest
  { cr_authUser : option Auth.AuthUser;
    cr_name : option string;
    cr_description : option string }.

Record UpdateRequest : Type := mkUpdateRequest
  { ur_authUser : option Auth.AuthUser;
    ur_id : option string;
    ur_name : option string;
    ur_description : option string }.

Record DeleteRequest : Type := mkDeleteRequest
  { dr_authUser : option Auth.AuthUser;
    dr_id : option string }.

(** [export const createCategory]. *)
Definition createCategory (req : CreateRequest) (st : Store) : Reply * Store :=
  match truthy (cr_name req) with
  | None => (mkReply 400 (message "name is required."), st)
  | Some name =>
      match cr_authUser req with
      | None => (mkReply 401 (message "Missing authorization token."), st)
      | Some _ =>
          match db_create st name (cr_description req) with
          | (inr c, st') => (mkReply 201 (category c), st')
          | (inl P2002, st') =>
              (mkReply 409 (message "Category name already exists."), st')
          | (inl _, st') =>
              (mkReply 500 (message "Failed to create category."), st')
          end
      end
  end.

Section Handlers.

(** The built-in [Number] on a route parameter. *)
Variable Number : string -> JsNumber.

(** [export const updateCategory]. *)
Definition updateCategory (req : UpdateRequest) (st : Store) : Reply * Store :=
  match ur_authUser req with
  | None => (mkReply 401 (message "Missing authorization token."), st)
  | Some _ =>
  match truthy (ur_id req) with
  | None => (mkReply 400 (message "Category id is required."), st)
  | Some id =>
  match Number id with
  | js_nan =>
      (mkReply 400 (message "Category id must be a valid number."), st)
  | js_other => (mkReply 500 (message "Failed to update category."), st)
  | js_int categoryId =>
      match categories st !! categoryId with
      | None => (mkReply 404 (message "Category not found."), st)
      | Some _ =>
          match ur_name req, ur_description req with
          | None, None => (mkReply 400 (message "No fields to update."), st)
          | name, description =>
              match db_update st categoryId name description with
              | (inr c, st') => (mkReply 200 (category c), st')
              | (inl P2002, st') =>
                  (mkReply 409 (message "Category name already exists."), st')
              | (inl _, st') =>
                  (mkReply 500 (message "Failed to update category."), st')
              end
          end
      end
  end end end.

(** [export const deleteCategory]. *)
Definition deleteCategory (req : DeleteRequest) (st : Store) : Reply * Store :=
  match dr_authUser req with
  | None => (mkReply 401 (message "Missing authorization token."), st)
  | Some _ =>
  match truthy (dr_id req) with
  | None => (mkReply 400 (message "Category id is required."), st)
  | Some id =>
  match Number id with
  | js_nan =>
      (mkReply 400 (message "Category id must be a valid number."), st)
  | js_other => (mkReply 500 (message "Failed to delete category."), st)
  | js_int categoryId =>
      match categories st !! categoryId with
      | None => (mkReply 404 (message "Category not found."), st)
      | Some _ =>
          if (0 <? count_classes st categoryId)%nat
          then (mkReply 400
                  (message ("Cannot delete category. It is used by "
                            ++ pretty (count_classes st categoryId)
                            ++ " class(es).")), st)
          else
            match db_delete st categoryId with
            | (inr _, st') =>
                (mkReply 200 (message "Category deleted successfully."), st')
            | (inl _, st') =>
                (mkReply 500 (message "Failed to delete category."), st')
            end
      end
  end end end.

(** ** The category routes ([src/routes/classCategory.routes.ts]) *)

Variable verifyToken : string -> Error + Auth.TokenPayload.

(** [router.use(attachAuthIfPresent)] then [requireAdmin] then the handler:
    the answer of the first middleware that answers, else the handler's. *)
Definition behind_admin {Req} (authorization : option string)
    (handle : option Auth.AuthUser -> Req) (h : Req -> Store -> Reply * Store)
    (st : Store) : Reply * Store :=
  match Auth.attachAuthIfPresent verifyToken
          (Auth.mkRequest authorization None) with
  | Auth.respond r => (mkReply (Auth.status r) (message (Auth.message r)), st)
  | Auth.next req1 =>
      match Auth.requireAdmin verifyToken req1 with
      | Auth.respond r =>
          (mkReply (Auth.status r) (message (Auth.message r)), st)
      | Auth.next req2 => h (handle (Auth.authUser req2)) st
      end
  end.

(** [router.post("/", requireAdmin, createCategory)]. *)
Definition route_post (authorization : option string)
    (name description : option string) : Store -> Reply * Store :=
  behind_admin authorization
    (fun u => mkCreateRequest u name description) createCategory.

(** [router.put("/:id", requireAdmin, updateCategory)]. *)
Definition route_put (authorization : option string) (id : string)
    (name description : option string) : Store -> Reply * Store :=
  behind_admin authorization
    (fun u => mkUpdateRequest u (Some id) name description) updateCategory.

(** [router.delete("/:id", requireAdmin, deleteCategory)]. *)
Definition route_delete (authorization : option string) (id : string)
  : Store -> Reply * Store :=
  behind_admin authorization
    (fun u => mkDeleteRequest u (Some id)) deleteCategory.

(** What the admin gate makes of a route's outcome [out] on store [st]: 401
    exactly without a valid bearer token, 403 exactly for a valid token of
    another role, and a changed store only for an admin's token. *)
Definition admin_gated (authorization : option string) (st : Store)
    (out : Reply * Store) : Prop :=
  let req := Auth.mkRequest authorization None in
  (status (fst out) = 401 <->
   forall payload, ~ Auth.valid_bearer verifyToken req payload) /\
  (status (fst out) = 403 <->
   exists payload, Auth.valid_bearer verifyToken req payload /\
                   Auth.p_role payload <> Some "ADMIN") /\
  (snd out <> st ->
   exists payload, Auth.valid_bearer verifyToken req payload /\
                   Auth.p_role payload = Some "ADMIN").

End Handlers.

(** Names are unique and keys lie below the counter: what the unique index
    and the auto-increment column maintain. *)
Definition wf (st : Store) : Prop :=
  (forall k1 k2 r1 r2,
     categories st !! k1 = Some r1 ->
     categories st !! k2 = Some r2 ->
     r_name r1 = r_name r2 -> k1 = k2) /\
  (forall k r, categories st !! k = Some r -> k < next_id st).

(** Every class that names a category names a stored one (the relation
    [_count.classes] counts over). *)
Definition refs_ok (st : Store) : Prop :=
  forall k, Some k ∈ classes st -> is_Some (categories st !! k).

End Category.

(** A small store for the examples: one category, used by one class. *)
Module Studio.

Definition store : Category.Store :=
  Category.mkStore {[ 1 := Category.mkRow "Yoga" None ]} 2 [Some 1].

Definition admin : Auth.AuthUser :=
  Auth.mkAuthUser (Some 1) (Some "a@b.c") (Some "ADMIN").

(** [Number] on the route parameters the examples use. *)
Definition number (s : string) : Category.JsNumber :=
  if String.eqb s "1" then Category.js_int 1
  else if String.eqb s "2" then Category.js_int 2
  else Category.js_nan.

Definition boxing : Category.CreateRequest :=
  Category.mkCreateRequest (Some admin) (Some "Boxing") (Some "Gloves on").

Definition calm : Category.UpdateRequest :=
  Category.mkUpdateRequest (Some admin) (Some "1") None (Some "Calm").

Definition removal (id : string) : Category.DeleteRequest :=
  Category.mkDeleteRequest (Some admin) (Some id).

End Studio.

(** * Properties *)

(** ** The table operations *)

Lemma to_row_of_row k r : Purchase.to_row (Purchase.of_row k r) = r.
Proof. by destruct r. Qed.

Lemma truthy_Some_inv (x y : string) : truthy (Some x) = Some y -> y = x.
Proof. destruct x; simpl; congruence. Qed.

Lemma findUnique_purchase_inv db k p :
  db_purchase_findUnique db k = Some p ->
  exists r, purchases db !! k = Some r /\ p = Purchase.of_row k r.
Proof.
  unfold db_purchase_findUnique. intros H.
  destruct (purchases db !! k) as [r|] eqn:E; simplify_eq/=. eauto.
Qed.

Lemma findUnique_purchase_id db k p :
  db_purchase_findUnique db k = Some p -> Purchase.id p = k.
Proof. intros (r & _ & ->)%findUnique_purchase_inv. done. Qed.

Lemma findFirst_purchase_inv db ext p :
  db_purchase_findFirst db ext = Some p ->
  db_purchase_findUnique db (Purchase.id p) = Some p /\
  Purchase.externalId p = Some ext.
Proof.
  unfold db_purchase_findFirst, db_purchase_findUnique. intros H.
  destruct (list_find _ _) as [[i [k r]]|] eqn:E; simplify_eq/=.
  apply list_find_Some in E as (Hi & Hext & _).
  apply list_elem_of_lookup_2, elem_of_map_to_list in Hi.
  simpl in *. by rewrite Hi.
Qed.

Lemma findFirst_purchase_None db ext :
  db_purchase_findFirst db ext = None <->
  forall k r, purchases db !! k = Some r -> Purchase.r_externalId r <> Some ext.
Proof.
  unfold db_purchase_findFirst. split.
  - intros H k r Hk Hext.
    destruct (list_find _ _) as [?|] eqn:E; [done|].
    apply list_find_None in E.
    apply elem_of_map_to_list in Hk.
    eapply Forall_forall in E; [|exact Hk]. by apply E.
  - intros H. destruct (list_find _ _) as [[i [k r]]|] eqn:E; [|done].
    apply list_find_Some in E as (Hi & Hext & _).
    apply list_elem_of_lookup_2, elem_of_map_to_list in Hi.
    by apply H in Hi.
Qed.

Lemma update_purchase_found db k p d :
  db_purchase_findUnique db k = Some p ->
  db_purchase_update db k d =
    (inr (Purchase.updated d p),
     mkDb (users db)
          (<[k := Purchase.to_row (Purchase.updated d p)]> (purchases db))).
Proof.
  intros (r & Hr & ->)%findUnique_purchase_inv.
  unfold db_purchase_update, Purchase.updated. rewrite Hr. simpl.
  by rewrite !to_row_of_row.
Qed.

Lemma findUnique_user_inv db k u :
  db_user_findUnique db k = Some u ->
  users db !! k = Some (User.role u) /\ User.id u = k.
Proof.
  unfold db_user_findUnique.
  destruct (users db !! k) eqn:E; intros; simplify_eq/=. done.
Qed.

Lemma update_user_found db k u r :
  db_user_findUnique db k = Some u ->
  db_user_update db k r =
    (inr (User.mk k r), mkDb (<[k := r]> (users db)) (purchases db)).
Proof.
  intros [H _]%findUnique_user_inv. unfold db_user_update. by rewrite H.
Qed.

Arguments db_user_findUnique : simpl never.
Arguments db_user_update : simpl never.
Arguments db_purchase_findUnique : simpl never.
Arguments db_purchase_findFirst : simpl never.
Arguments db_purchase_create : simpl never.
Arguments db_purchase_update : simpl never.
Arguments toUpperCase : simpl never.
Arguments find_plan_by_role : simpl never.
Arguments lookup_price : simpl never.
Arguments ROLE_RANK : simpl never.
Arguments paid_update : simpl never.

(** ** Running programs *)

Lemma run_bind {A B} env (p : Prog A) (f : A -> Prog B) db :
  run env (bind p f) db =
    match run env p db with
    | (inr a, db1, t1) =>
        let '(o, db2, t2) := run env (f a) db1 in (o, db2, (t1 ++ t2)%list)
    | (inl e, db1, t1) => (inl e, db1, t1)
    end.
Proof.
  revert db. induction p as [a|e|c k IH]; intros db; simpl.
  - by destruct (run env (f a) db) as [[o db2] t2].
  - done.
  - destruct (exec env db c) as [x db1]. rewrite IH.
    destruct (run env (k x) db1) as [[[e|a] db2] t1]; [done|].
    by destruct (run env (f a) db2) as [[o db3] t2].
Qed.

Lemma run_tryCatch {A} env (p : Prog A) (h : Error -> Prog A) db :
  run env (tryCatch p h) db =
    match run env p db with
    | (inl e, db1, t1) =>
        let '(o, db2, t2) := run env (h e) db1 in (o, db2, (t1 ++ t2)%list)
    | (inr a, db1, t1) => (inr a, db1, t1)
    end.
Proof.
  revert db. induction p as [a|e|c k IH]; intros db; simpl.
  - done.
  - by destruct (run env (h e) db) as [[o db2] t2].
  - destruct (exec env db c) as [x db1]. rewrite IH.
    destruct (run env (k x) db1) as [[[e|a] db2] t1]; [|done].
    by destruct (run env (h e) db2) as [[o db3] t2].
Qed.

(** The cross-check never fails, never touches the store, and only logs. *)
Lemma run_cross_check plans s tgt env db :
  run env (cross_check plans s tgt) db = (inr tt, db, cross_check_log plans s tgt).
Proof.
  unfold cross_check_log, cross_check.
  destruct (find_plan_by_role plans tgt) as [plan|]; [|done].
  destruct (Session.amount_total s) as [a|];
    destruct (truthy (Session.currency s)) as [c|];
    try destruct (negb (a =? Plan.amount plan));
    try destruct (negb (String.eqb (toUpperCase c) _)); done.
Qed.

Lemma cross_check_log_console plans s tgt :
  Forall (fun c => is_console c = true) (cross_check_log plans s tgt).
Proof.
  unfold cross_check_log, cross_check.
  destruct (find_plan_by_role plans tgt) as [plan|]; [|by constructor].
  destruct (Session.amount_total s) as [a|];
    destruct (truthy (Session.currency s)) as [c|];
    try destruct (negb (a =? Plan.amount plan));
    try destruct (negb (String.eqb (toUpperCase c) _));
    simpl; repeat constructor.
Qed.

Lemma console_no_write tr :
  Forall (fun c => is_console c = true) tr -> no_write tr.
Proof. intros H. eapply Forall_impl; [exact H|]. by intros []. Qed.

(** ** The paths of [handleWebhook] *)

Lemma webhook_bad_signature plans env db err :
  run env (handleWebhook plans (inl err)) db =
    (inr (res_status 400 (send_text ("Webhook Error: " ++ err))), db,
     [console (log_webhook_verify_failed err)]).
Proof. done. Qed.

Lemma webhook_other_event plans env db ev :
  Event.type ev <> "checkout.session.completed" ->
  run env (handleWebhook plans (inr ev)) db =
    (inr (res_json json_received), db, []).
Proof.
  intros H. unfold handleWebhook.
  by rewrite (proj2 (String.eqb_neq _ _) H).
Qed.

Section Webhook.
Variable plans : list (string * Plan.t).
Variables (env : Env) (db : Db) (ev : Event.t).
Let s := Event.data_object ev.

Hypothesis Htype : Event.type ev = "checkout.session.completed".

Lemma webhook_missing_metadata :
truthy (Session.metadata_purchaseId s) = None \/
Session.metadata_targetRole s = None ->
run env (handleWebhook plans (inr ev)) db =
  (inr (res_json json_received), db, [console log_webhook_missing_metadata]).
Proof.
intros H. unfold handleWebhook. rewrite Htype. simpl. fold s.
destruct (truthy (Session.metadata_purchaseId s)),
  (Session.metadata_targetRole s); try done; by destruct H.
Qed.

Variables (pid : string) (tgt : Role).
Hypothesis Hpid : truthy (Session.metadata_purchaseId s) = Some pid.
Hypothesis Htgt : Session.metadata_targetRole s = Some tgt.

Lemma webhook_unknown_purchase :
db_purchase_findUnique db pid = None ->
run env (handleWebhook plans (inr ev)) db =
  (inr (res_json json_received), db, [membershipPurchase_findUnique pid]).
Proof.
intros Hp. unfold handleWebhook. rewrite Htype. simpl. fold s.
rewrite Hpid, Htgt. simpl. by rewrite Hp.
Qed.

Variable p : Purchase.t.
Hypothesis Hp : db_purchase_findUnique db pid = Some p.

(** At the gate: a purchase read as [PAID] ends the handler at once. *)
Lemma webhook_paid_gate :
Purchase.status p = PAID ->
run env (handleWebhook plans (inr ev)) db =
  (inr (res_json json_received), db, [membershipPurchase_findUnique pid]).
Proof.
intros Hst. unfold handleWebhook. rewrite Htype. simpl.
fold s. rewrite Hpid, Htgt. simpl. rewrite Hp. simpl.
by rewrite Hst.
Qed.

(** Past the gate: the purchase is written [PAID], whatever the cross-check
  found, and the upgrade check follows. *)
Lemma webhook_settles :
Purchase.status p <> PAID ->
run env (handleWebhook plans (inr ev)) db =
  (inr (res_json json_received),
   mkDb (webhook_final_users db tgt p)
        (<[pid := Purchase.to_row
                    (Purchase.updated (paid_update s p None) p)]>
           (purchases db)),
   membershipPurchase_findUnique pid ::
   (cross_check_log plans s tgt ++
    membershipPurchase_update pid (paid_update s p None) ::
    webhook_upgrade_calls db tgt p)%list).
Proof.
intros Hst.
pose proof (findUnique_purchase_id _ _ _ Hp) as Hid.
unfold handleWebhook, webhook_final_users, webhook_upgrade_calls.
rewrite Htype. simpl. fold s. rewrite Hpid, Htgt. simpl.
rewrite Hp. simpl. rewrite bool_decide_eq_false_2 by done.
rewrite run_tryCatch, run_bind, run_cross_check. simpl.
rewrite Hid, (update_purchase_found _ _ _ _ Hp). simpl.
change (db_user_findUnique (mkDb (users db) ?m) ?k)
  with (db_user_findUnique db k).
destruct (db_user_findUnique db (Purchase.userId p)) as [u|] eqn:Hu;
  simpl; [|done].
apply findUnique_user_inv in Hu as Hu'. destruct Hu' as [Hrole Huid].
destruct (ROLE_RANK tgt >? ROLE_RANK (User.role u)); simpl; [|done].
rewrite Huid.
assert (Hu1 : db_user_findUnique
          (mkDb (users db)
             (<[pid := Purchase.to_row
                         (Purchase.updated (paid_update s p None) p)]>
                (purchases db))) (Purchase.userId p) = Some u) by done.
by rewrite (update_user_found _ _ _ _ Hu1).
Qed.
End Webhook.

(** ** The paths of [verifySession] *)

Lemma verify_resolve_found db s p :
  fst (verify_resolve db s) = Some p ->
  db_purchase_findUnique db (Purchase.id p) = Some p.
Proof.
  unfold verify_resolve.
  destruct (db_purchase_findFirst db (Session.id s)) as [q|] eqn:E; simpl.
  - intros [= ->]. by apply findFirst_purchase_inv in E as [? _].
  - destruct (truthy _) as [k|]; simpl; [|done].
    intros H. by rewrite (findUnique_purchase_id _ _ _ H).
Qed.

Lemma verify_resolve_reads db s : no_write (snd (verify_resolve db s)).
Proof.
  unfold verify_resolve.
  destruct (db_purchase_findFirst _ _); [|destruct (truthy _)];
    repeat constructor.
Qed.

(** [verifySession] resolves by the rule of the specification. *)
Lemma verify_resolve_spec db s :
  fst (verify_resolve db s) = reconcile_resolve_spec db s.
Proof.
  unfold verify_resolve, reconcile_resolve_spec.
  destruct (db_purchase_findFirst _ _); [done|]. by destruct (truthy _).
Qed.

Lemma verify_no_session_id env db session_id :
  truthy session_id = None ->
  run env (verifySession session_id) db =
    (inr (res_status 400 (json_error "session_id required")), db, []).
Proof. intros H. unfold verifySession. by rewrite H. Qed.

Section Verify.
Variables (env : Env) (db : Db) (sid : string).
Hypothesis Hsid : truthy (Some sid) = Some sid.

Lemma verify_gateway_error e :
sessions_retrieve env sid = inl e ->
run env (verifySession (Some sid)) db =
  (inr (res_status 500 (json_error (or_else (Some e) "verify failed"))), db,
   [stripe_checkout_sessions_retrieve sid; console (log_verify_error e)]).
Proof.
intros He. unfold verifySession. rewrite Hsid. simpl. by rewrite He.
Qed.

Variable s : Session.t.
Hypothesis Hs : sessions_retrieve env sid = inr s.

(** No purchase resolves: nothing is written. *)
Lemma verify_unresolved :
fst (verify_resolve db s) = None ->
run env (verifySession (Some sid)) db =
  (inr (verify_response s None None (mkEffects false false None)), db,
   stripe_checkout_sessions_retrieve sid :: snd (verify_resolve db s)).
Proof.
unfold verifySession, verify_resolve. rewrite Hsid. simpl. rewrite Hs.
simpl.
destruct (db_purchase_findFirst db (Session.id s)) as [q|]; simpl;
  [done|].
destruct (truthy (Session.metadata_purchaseId s)) as [k|]; simpl;
  [|done].
by intros ->.
Qed.

Variable p : Purchase.t.
Hypothesis Hp : fst (verify_resolve db s) = Some p.

(** The purchase resolves but not its user, or the session is not paid:
  nothing is written. *)
Lemma verify_no_settlement :
db_user_findUnique db (Purchase.userId p) = None \/ isPaid s = false ->
run env (verifySession (Some sid)) db =
  (inr (verify_response s (Some p)
          (db_user_findUnique db (Purchase.userId p))
          (mkEffects false false None)),
   db,
   stripe_checkout_sessions_retrieve sid ::
   (snd (verify_resolve db s) ++
    [user_findUnique (Purchase.userId p);
     user_findUnique (Purchase.userId p)])%list).
Proof.
intros Hno. revert Hp.
unfold verifySession, verify_resolve. rewrite Hsid. simpl. rewrite Hs.
simpl.
destruct (db_purchase_findFirst db (Session.id s)) as [q|]; simpl;
  [intros [= ->]
  |destruct (truthy (Session.metadata_purchaseId s)) as [k|]; simpl;
   [intros ->|done]];
  simpl;
  (destruct (db_user_findUnique db (Purchase.userId p)) as [u|] eqn:Hu;
   simpl; [|by rewrite Hu]);
  (destruct Hno as [?| ->]; [congruence|]); simpl; by rewrite Hu.
Qed.

Variable u : User.t.
Hypothesis Hu : db_user_findUnique db (Purchase.userId p) = Some u.
Hypothesis Hpaid : isPaid s = true.

(** Purchase and user resolve and the session is paid. *)
Lemma verify_settles :
run env (verifySession (Some sid)) db =
  (inr (verify_response s (Some (verify_purchase s p))
          (Some (if verify_upgrades p u
                 then User.mk (Purchase.userId p) (Purchase.targetRole p)
                 else u))
          (mkEffects (verify_marks p) (verify_upgrades p u)
             (if verify_upgrades p u then Some (Purchase.targetRole p)
              else None))),
   verify_final_db db s p u,
   stripe_checkout_sessions_retrieve sid ::
   (snd (verify_resolve db s) ++
    user_findUnique (Purchase.userId p) ::
    verify_settle_calls s p u ++
    [user_findUnique (Purchase.userId p)])%list).
Proof.
pose proof (verify_resolve_found _ _ _ Hp) as Hfound.
apply findUnique_user_inv in Hu as Hu'. destruct Hu' as [Hrole Huid].
assert (Hu1 : forall m,
  db_user_findUnique (mkDb (users db) m) (Purchase.userId p) = Some u)
  by (intros m; exact Hu).
revert Hp.
unfold verifySession, verify_resolve, verify_final_db, verify_settle_calls,
  verify_purchase, verify_upgrades, verify_marks.
rewrite Hsid. simpl. rewrite Hs. simpl. rewrite Hpaid.
destruct (db_purchase_findFirst db (Session.id s)) as [q|]; simpl;
  [intros [= ->]
  |destruct (truthy (Session.metadata_purchaseId s)) as [k|]; simpl;
   [intros ->|done]];
  simpl; rewrite Hu; simpl;
  (destruct (bool_decide (Purchase.status p = PAID)) eqn:Hst; simpl;
   [|rewrite (update_purchase_found _ _ _ _ Hfound); simpl]);
  (destruct (ROLE_RANK (Purchase.targetRole p) >? ROLE_RANK (User.role u));
   simpl;
   [rewrite Huid;
    first [rewrite (update_user_found _ _ _ _ Hu)
          |rewrite (update_user_found _ _ _ _ (Hu1 _))];
    simpl; unfold db_user_findUnique at 1; simpl;
    by rewrite lookup_insert_eq
   |by rewrite ?Hu1, ?Hu]).
Qed.
End Verify.

(** ** The paths of [createCheckoutSession] *)

Section Checkout.
Variable plans : list (string * Plan.t).
Variables (env : Env) (db : Db) (req : CheckoutBody).

(** An inherited name passes both guards: the handler asks for a purchase
    without a target role, is refused, and answers 500. *)
Lemma checkout_slip_run uid priceId u :
checkout_slips plans db req uid priceId u ->
exists msg,
  run env (createCheckoutSession plans env req) db =
    (inr (res_status 500 (json_error msg)), db,
     [user_findUnique uid; membershipPurchase_create_partial uid;
      console (log_checkout_error msg)]).
Proof.
intros (Huid & Hprice & Hplan & Hinh & Hu).
apply findUnique_user_inv in Hu as Hid. destruct Hid as [_ Hid].
unfold createCheckoutSession, index. rewrite Huid, Hprice, Hplan, Hinh.
simpl. rewrite Hu. simpl. rewrite Hid. by eexists.
Qed.

Lemma checkout_rejects :
checkout_invalid plans db req ->
(forall uid priceId u, ~ checkout_slips plans db req uid priceId u) ->
exists code msg tr,
  run env (createCheckoutSession plans env req) db =
    (inr (res_status code (json_error msg)), db, tr) /\
  client_error code /\ no_write tr /\
  (tr = [] \/ exists uid, tr = [user_findUnique uid]).
Proof.
unfold checkout_invalid, createCheckoutSession, index, client_error, no_write.
intros Hbad Hslip.
destruct (truthy_num (b_userId req)) as [uid|] eqn:Huid; simpl;
  [|eexists 400, _, []; split_and!; eauto].
destruct (truthy (b_priceId req)) as [priceId|] eqn:Hprice; simpl;
  [|eexists 400, _, []; split_and!; eauto].
destruct (lookup_price plans priceId) as [plan|] eqn:Hplan; simpl.
2: { destruct (inherited_key priceId) eqn:Hinh; simpl;
       [|eexists 400, _, []; split_and!; eauto].
     destruct (db_user_findUnique db uid) as [u|] eqn:Hu; simpl;
       [|eexists 404, _, [_]; split_and!; eauto; by repeat constructor].
     exfalso. by apply (Hslip uid priceId u). }
destruct (db_user_findUnique db uid) as [u|] eqn:Hu; simpl;
  [|eexists 404, _, [_]; split_and!; eauto; by repeat constructor].
destruct (ROLE_RANK (Plan.role plan) <=? ROLE_RANK (User.role u)) eqn:Hrank;
  simpl; [eexists 409, _, [_]; split_and!; eauto; by repeat constructor|].
exfalso. apply Z.leb_gt in Hrank.
destruct Hbad as [?|[(uid' & ? & ?)|[Hnone|(uid' & k & pl & u' & Hb)]]];
  simplify_eq.
- specialize (Hnone _ eq_refl). congruence.
- destruct Hb as (? & ? & ? & ? & ?). simplify_eq. lia.
Qed.

(** A request is let through by the [!plan] check, or it is not. *)
Lemma checkout_slips_dec :
(exists uid priceId u, checkout_slips plans db req uid priceId u) \/
(forall uid priceId u, ~ checkout_slips plans db req uid priceId u).
Proof.
unfold checkout_slips.
destruct (truthy_num (b_userId req)) as [uid|] eqn:Huid;
  [|right; by intros ? ? ? (? & _)].
destruct (truthy (b_priceId req)) as [priceId|] eqn:Hprice;
  [|right; by intros ? ? ? (_ & ? & _)].
destruct (lookup_price plans priceId) as [plan|] eqn:Hplan;
  [right; intros ? ? ? (_ & ? & ? & _); congruence|].
destruct (inherited_key priceId) eqn:Hinh;
  [|right; intros ? ? ? (_ & ? & _ & ? & _); congruence].
destruct (db_user_findUnique db uid) as [u|] eqn:Hu;
  [|right; intros ? ? ? (? & _ & _ & _ & ?); congruence].
left. by exists uid, priceId, u.
Qed.

(** A request that fails a validation leaves the store as it is and is
    answered with an error. *)
Lemma checkout_invalid_run :
checkout_invalid plans db req ->
exists code msg tr,
  run env (createCheckoutSession plans env req) db =
    (inr (res_status code (json_error msg)), db, tr).
Proof.
intros Hbad.
destruct checkout_slips_dec as [(uid & priceId & u & Hslip)|Hno].
- destruct (checkout_slip_run uid priceId u Hslip) as [msg ->]. eauto.
- destruct (checkout_rejects Hbad Hno) as (code & msg & tr & -> & _). eauto.
Qed.

(** Every request is invalid or valid. *)
Lemma checkout_invalid_or_valid :
checkout_invalid plans db req \/
exists uid priceId plan u, checkout_valid plans db req uid priceId plan u.
Proof.
unfold checkout_invalid, checkout_valid.
destruct (truthy_num (b_userId req)) as [uid|] eqn:Huid; [|by left; left].
destruct (truthy (b_priceId req)) as [priceId|] eqn:Hprice;
  [|by left; right; right; left].
destruct (lookup_price plans priceId) as [plan|] eqn:Hplan;
  [|left; right; right; left; by intros ? [= <-]].
destruct (db_user_findUnique db uid) as [u|] eqn:Hu;
  [|left; right; left; eauto].
destruct (Z_le_gt_dec (ROLE_RANK (Plan.role plan)) (ROLE_RANK (User.role u))).
- left. right. right. right. by exists uid, priceId, plan, u.
- right. by exists uid, priceId, plan, u.
Qed.

Variables (uid : Z) (priceId : string) (plan : Plan.t) (u : User.t).
Hypothesis Hvalid : checkout_valid plans db req uid priceId plan u.

(** Past the validations: the handler continues with [create]. *)
Lemma checkout_prefix :
exists k,
  createCheckoutSession plans env req = Await (user_findUnique uid) k /\
  k (inr (Some u)) =
    tryCatch
      (purchase <- await (membershipPurchase_create
                            (checkout_create_data uid plan)) ;;
       session <- await (stripe_checkout_sessions_create
         (Session.mkParams priceId
            (Session.success_url (checkout_params env req uid priceId plan))
            (Session.cancel_url (checkout_params env req uid priceId plan))
            (Session.mkMetadata (Purchase.id purchase)
               (pretty uid) (Plan.role plan)))) ;;
       await (membershipPurchase_update (Purchase.id purchase)
         (Purchase.mkUpdate None None None
            (Some (Session.id session)) None)) ;;;
       Return (res_json (json_checkout (Session.url session)
                 (Session.id session) (Purchase.id purchase))))
      (fun e =>
         await (console (log_checkout_error e)) ;;;
         Return (res_status 500 (json_error e))).
Proof.
destruct Hvalid as (Huid & Hprice & Hplan & Hu & Hrank).
apply findUnique_user_inv in Hu as [_ Hid].
unfold createCheckoutSession, index. rewrite Huid, Hprice, Hplan. simpl.
eexists. split; [reflexivity|]. simpl.
rewrite (proj2 (Z.leb_gt _ _)) by lia. simpl. by rewrite Hid.
Qed.

Hypothesis Hfresh : db_purchase_findUnique db (newId env) = None.

Lemma checkout_created :
db_purchase_create db (newId env) (checkout_create_data uid plan) =
  (inr (Purchase.of_row (newId env) (checkout_row uid plan None)),
   mkDb (users db)
        (<[newId env := checkout_row uid plan None]> (purchases db))).
Proof.
unfold db_purchase_create. unfold db_purchase_findUnique in Hfresh.
by destruct (purchases db !! newId env).
Qed.

(** The gateway answers with a session. *)
Lemma checkout_session_created session :
sessions_create env (checkout_params env req uid priceId plan) = inr session ->
run env (createCheckoutSession plans env req) db =
  (inr (res_json (json_checkout (Session.url session)
                    (Session.id session) (newId env))),
   mkDb (users db)
        (<[newId env := checkout_row uid plan (Some (Session.id session))]>
           (purchases db)),
   [user_findUnique uid;
    membershipPurchase_create (checkout_create_data uid plan);
    stripe_checkout_sessions_create (checkout_params env req uid priceId plan);
    membershipPurchase_update (newId env)
      (Purchase.mkUpdate None None None (Some (Session.id session)) None)]).
Proof.
intros Hsession.
destruct checkout_prefix as (k & -> & Hk).
destruct Hvalid as (_ & _ & _ & Hu & _).
cbn [run exec]. rewrite Hu, Hk. simpl.
rewrite checkout_created. simpl.
unfold checkout_params in Hsession |- *.
simpl in Hsession |- *. rewrite Hsession. simpl.
unfold db_purchase_update. simpl. rewrite lookup_insert_eq. simpl.
by rewrite insert_insert_eq.
Qed.

(** The gateway request fails. *)
Lemma checkout_session_failed e :
sessions_create env (checkout_params env req uid priceId plan) = inl e ->
run env (createCheckoutSession plans env req) db =
  (inr (res_status 500 (json_error e)),
   mkDb (users db)
        (<[newId env := checkout_row uid plan None]> (purchases db)),
   [user_findUnique uid;
    membershipPurchase_create (checkout_create_data uid plan);
    stripe_checkout_sessions_create (checkout_params env req uid priceId plan);
    console (log_checkout_error e)]).
Proof.
intros Hsession.
destruct checkout_prefix as (k & -> & Hk).
destruct Hvalid as (_ & _ & _ & Hu & _).
cbn [run exec]. rewrite Hu, Hk. simpl.
rewrite checkout_created. simpl.
unfold checkout_params in Hsession |- *.
simpl in Hsession |- *. by rewrite Hsession.
Qed.
End Checkout.

(** Past the validations the answer is never the guard's 409, the first
    write is the [create], and no role is written. *)
Lemma checkout_past_guard plans env db req uid priceId plan u :
  checkout_valid plans db req uid priceId plan u ->
  exists resp db' tr,
    run env (createCheckoutSession plans env req) db =
      (inr resp, db',
       user_findUnique uid ::
       membershipPurchase_create (checkout_create_data uid plan) :: tr) /\
    status_code resp <> 409 /\
    users db' = users db /\
    Forall (fun c => is_user_update c = false) tr.
Proof.
  intros Hvalid.
  destruct (checkout_prefix plans env db req uid priceId plan u Hvalid)
    as (k & -> & Hk).
  destruct Hvalid as (_ & _ & _ & Hu & _).
  cbn [run exec]. rewrite Hu, Hk. simpl.
  unfold db_purchase_create.
  destruct (purchases db !! newId env) as [r|] eqn:Hr; simpl.
  { eexists _, _, _. split; [reflexivity|]. split_and!; try done.
    by repeat constructor. }
  destruct (sessions_create env _) as [e|session]; simpl.
  { eexists _, _, _. split; [reflexivity|]. split_and!; try done.
    by repeat constructor. }
  unfold db_purchase_update. simpl. rewrite lookup_insert_eq. simpl.
  eexists _, _, _. split; [reflexivity|]. split_and!; try done.
  by repeat constructor.
Qed.

(** * The claims *)



(** C8.  Past the validations, [createCheckoutSession] first creates the
    purchase ([PENDING], the plan's amount and currency), then asks the
    gateway for a session whose metadata is the purchase id, the user id and
    the target role, then writes the session id to the purchase's
    [externalId].  When the gateway request fails the created row stays as it
    is, [PENDING] and without [externalId]; nothing undoes it. *)
Theorem checkout_effects_in_order plans env db req uid priceId plan u :
  checkout_valid plans db req uid priceId plan u ->
  db_purchase_findUnique db (newId env) = None ->
  let params := checkout_params env req uid priceId plan in
  Session.md params =
    Session.mkMetadata (newId env) (pretty uid) (Plan.role plan) /\
  match sessions_create env params with
  | inr session =>
      run env (createCheckoutSession plans env req) db =
        (inr (res_json (json_checkout (Session.url session)
                          (Session.id session) (newId env))),
         mkDb (users db)
              (<[newId env :=
                   Purchase.mkRow uid (Plan.role plan) PENDING
                     (Some (Plan.amount plan)) (Some (Plan.currency plan))
                     (Some "stripe") (Some (Session.id session))]>
                 (purchases db)),
         [user_findUnique uid;
          membershipPurchase_create
            (Purchase.mkCreate uid (Plan.role plan) PENDING
               (Some (Plan.amount plan)) (Some (Plan.currency plan))
               (Some "stripe"));
          stripe_checkout_sessions_create params;
          membershipPurchase_update (newId env)
            (Purchase.mkUpdate None None None (Some (Session.id session))
               None)])
  | inl e =>
      run env (createCheckoutSession plans env req) db =
        (inr (res_status 500 (json_error e)),
         mkDb (users db)
              (<[newId env :=
                   Purchase.mkRow uid (Plan.role plan) PENDING
                     (Some (Plan.amount plan)) (Some (Plan.currency plan))
                     (Some "stripe") None]>
                 (purchases db)),
         [user_findUnique uid;
          membershipPurchase_create
            (Purchase.mkCreate uid (Plan.role plan) PENDING
               (Some (Plan.amount plan)) (Some (Plan.currency plan))
               (Some "stripe"));
          stripe_checkout_sessions_create params;
          console (log_checkout_error e)])
  end.
Proof.
  intros Hvalid Hfresh params. split; [done|].
  destruct (sessions_create env params) as [e|session] eqn:Hsession.
  - exact (checkout_session_failed plans env db req uid priceId plan u
             Hvalid Hfresh e Hsession).
  - exact (checkout_session_created plans env db req uid priceId plan u
             Hvalid Hfresh session Hsession).
Qed.

Lemma checkout_effects_in_order_witness :
  checkout_valid STRIPE_PRICE_TO_PLAN Scenario.db_pending Scenario.gold_request
    7 Scenario.gold_price (Plan.mk USER_GOLD 129900 "THB" "Gold 1299")
    (User.mk 7 USER) /\
  db_purchase_findUnique Scenario.db_pending (newId Scenario.env_down) = None /\
  run Scenario.env_down
      (createCheckoutSession STRIPE_PRICE_TO_PLAN Scenario.env_down
         Scenario.gold_request)
      Scenario.db_pending
  = (inr (res_status 500 (json_error "connection refused")),
     mkDb (users Scenario.db_pending)
          (<["p2" := Purchase.mkRow 7 USER_GOLD PENDING (Some 129900)
                       (Some "THB") (Some "stripe") None]>
             (purchases Scenario.db_pending)),
     [user_findUnique 7;
      membershipPurchase_create
        (Purchase.mkCreate 7 USER_GOLD PENDING (Some 129900) (Some "THB")
           (Some "stripe"));
      stripe_checkout_sessions_create
        (Session.mkParams Scenario.gold_price
           "http://127.0.0.1:3000/success?session_id={CHECKOUT_SESSION_ID}"
           "http://127.0.0.1:3000/cancel"
           (Session.mkMetadata "p2" "7" USER_GOLD));
      console (log_checkout_error "connection refused")]).
Proof.
  assert (Hvalid :
    checkout_valid STRIPE_PRICE_TO_PLAN Scenario.db_pending Scenario.gold_request
      7 Scenario.gold_price (Plan.mk USER_GOLD 129900 "THB" "Gold 1299")
      (User.mk 7 USER)).
  { unfold checkout_valid. split_and!; try (vm_compute; reflexivity). }
  assert (Hfresh :
    db_purchase_findUnique Scenario.db_pending (newId Scenario.env_down)
    = None) by (vm_compute; reflexivity).
  split; [exact Hvalid|]. split; [exact Hfresh|].
  exact (proj2 (checkout_effects_in_order STRIPE_PRICE_TO_PLAN Scenario.env_down
                  Scenario.db_pending Scenario.gold_request 7
                  Scenario.gold_price _ _ Hvalid Hfresh)).
Defined.

(** C7.  An event that matches no stored purchase (no row carries its session
    id as [externalId], and the purchase id of its metadata, if any, is the
    key of no row) makes [handleWebhook] and [verifySession] write nothing;
    the webhook still answers the gateway with 200 [{received: true}]. *)
Theorem unresolved_event_writes_nothing plans env db ev sid :
  let s := Event.data_object ev in
  db_purchase_findFirst db (Session.id s) = None ->
  (forall k, truthy (Session.metadata_purchaseId s) = Some k ->
             db_purchase_findUnique db k = None) ->
  (exists tr,
     run env (handleWebhook plans (inr ev)) db =
       (inr (res_json json_received), db, tr) /\ no_write tr) /\
  (truthy (Some sid) = Some sid ->
   sessions_retrieve env sid = inr s ->
   exists tr,
     run env (verifySession (Some sid)) db =
       (inr (verify_response s None None (mkEffects false false None)),
        db, tr) /\ no_write tr).
Proof.
  intros s Hext Hmeta. split.
  - destruct (decide (Event.type ev = "checkout.session.completed"))
      as [Htype|Htype].
    + destruct (truthy (Session.metadata_purchaseId s)) as [k|] eqn:Hk.
      * destruct (Session.metadata_targetRole s) as [tgt|] eqn:Htgt.
        -- eexists. split.
           ++ eapply webhook_unknown_purchase; eauto.
           ++ by repeat constructor.
        -- eexists. split.
           ++ apply webhook_missing_metadata; [done|by right].
           ++ by repeat constructor.
      * eexists. split.
        -- apply webhook_missing_metadata; [done|by left].
        -- by repeat constructor.
    + eexists. split; [by apply webhook_other_event|constructor].
  - intros Hsid Hs.
    assert (Hnone : fst (verify_resolve db s) = None).
    { unfold verify_resolve. rewrite Hext.
      destruct (truthy (Session.metadata_purchaseId s)) as [k|] eqn:Hk;
        simpl; [by apply Hmeta|done]. }
    eexists. split.
    + by apply verify_unresolved.
    + constructor; [done|]. apply verify_resolve_reads.
Qed.

Lemma unresolved_event_writes_nothing_witness :
  db_purchase_findFirst Scenario.db_pending
    (Session.id Scenario.session_foreign) = None /\
  (forall k,
     truthy (Session.metadata_purchaseId Scenario.session_foreign) = Some k ->
     db_purchase_findUnique Scenario.db_pending k = None) /\
  (exists tr,
     run (Scenario.env_with Scenario.session_foreign)
         (handleWebhook STRIPE_PRICE_TO_PLAN
            (inr (Scenario.completed Scenario.session_foreign)))
         Scenario.db_pending
     = (inr (res_json json_received), Scenario.db_pending, tr) /\
     no_write tr).
Proof.
  assert (H1 : db_purchase_findFirst Scenario.db_pending
                 (Session.id Scenario.session_foreign) = None)
    by (vm_compute; reflexivity).
  assert (H2 : forall k,
     truthy (Session.metadata_purchaseId Scenario.session_foreign) = Some k ->
     db_purchase_findUnique Scenario.db_pending k = None).
  { intros k [= <-]. vm_compute. reflexivity. }
  split; [exact H1|]. split; [exact H2|].
  exact (proj1 (unresolved_event_writes_nothing STRIPE_PRICE_TO_PLAN
                  (Scenario.env_with Scenario.session_foreign)
                  Scenario.db_pending
                  (Scenario.completed Scenario.session_foreign) "cs_9"
                  H1 H2)).
Defined.

(** C10.  When [verifySession] resolves a purchase whose [userId] is the key
    of no user, it writes nothing, also for a session the gateway reports as
    paid: the store is left as it was, and the answer is 200 with the
    purchase as read, a null user and no effect. *)
Theorem verify_without_user_writes_nothing env db sid s p :
  truthy (Some sid) = Some sid ->
  sessions_retrieve env sid = inr s ->
  fst (verify_resolve db s) = Some p ->
  db_user_findUnique db (Purchase.userId p) = None ->
  exists tr,
    run env (verifySession (Some sid)) db =
      (inr (res_json (json_verify
              (mkVerifyBody (Session.id s) (Session.payment_status s)
                 (Session.amount_total s)
                 (toUpperCase <$> Session.currency s)
                 (Some (Purchase.id p, Purchase.status p,
                        Purchase.targetRole p))
                 None
                 (mkEffects false false None)))),
       db, tr) /\
    no_write tr.
Proof.
  intros Hsid Hs Hp Hu.
  eexists. split.
  - rewrite (verify_no_settlement env db sid Hsid s Hs p Hp (or_introl Hu)).
    by rewrite Hu.
  - constructor; [done|]. apply Forall_app. split.
    + apply verify_resolve_reads.
    + by repeat constructor.
Qed.

Lemma verify_without_user_writes_nothing_witness :
  isPaid Scenario.session_paid = true /\
  purchase_status Scenario.db_orphan "p1" = Some PENDING /\
  exists tr,
    run (Scenario.env_with Scenario.session_paid)
        (verifySession (Some "cs_1")) Scenario.db_orphan
    = (inr (res_json (json_verify
              (mkVerifyBody "cs_1" paid (Some 129900) (Some "THB")
                 (Some ("p1", PENDING, USER_GOLD)) None
                 (mkEffects false false None)))),
       Scenario.db_orphan, tr) /\
    no_write tr.
Proof.
  split; [reflexivity|]. split; [vm_compute; reflexivity|].
  exact (verify_without_user_writes_nothing
           (Scenario.env_with Scenario.session_paid) Scenario.db_orphan
           "cs_1" Scenario.session_paid
           (Purchase.of_row "p1" (Scenario.gold_row PENDING (Some "cs_1")))
           eq_refl eq_refl
           ltac:(vm_compute; reflexivity) ltac:(vm_compute; reflexivity)).
Defined.

(** ** What the settling write records *)

Lemma of_row_to_row p : Purchase.of_row (Purchase.id p) (Purchase.to_row p) = p.
Proof. by destruct p. Qed.

Lemma paid_update_records s p g :
  let p' := Purchase.updated (paid_update s p g) p in
  Purchase.id p' = Purchase.id p /\
  Purchase.userId p' = Purchase.userId p /\
  Purchase.targetRole p' = Purchase.targetRole p /\
  Purchase.status p' = PAID /\
  (forall a, Session.amount_total s = Some a -> Purchase.amount p' = Some a) /\
  (forall c, truthy (Session.currency s) = Some c ->
             Purchase.currency p' = Some (toUpperCase c)) /\
  Purchase.externalId p' = Some (Session.id s).
Proof.
  unfold Purchase.updated, paid_update. simpl. split_and!; try done.
  - by intros a ->.
  - by intros c ->.
Qed.

Lemma findUnique_after_put db k p :
  Purchase.id p = k ->
  forall us,
    db_purchase_findUnique
      (mkDb us (<[k := Purchase.to_row p]> (purchases db))) k = Some p.
Proof.
  intros <- us. unfold db_purchase_findUnique. simpl.
  rewrite lookup_insert_eq. simpl. by rewrite of_row_to_row.
Qed.

Lemma cross_check_log_amount plans s tgt plan a :
  find_plan_by_role plans tgt = Some plan ->
  Session.amount_total s = Some a ->
  a <> Plan.amount plan ->
  In (console (log_webhook_amount_mismatch a (Plan.amount plan)))
     (cross_check_log plans s tgt).
Proof.
  intros Hplan Ha Hne. unfold cross_check_log, cross_check.
  rewrite Hplan, Ha. rewrite (proj2 (Z.eqb_neq _ _) Hne). simpl.
  destruct (truthy (Session.currency s)) as [c|]; simpl; [|by left].
  destruct (negb _); simpl; by left.
Qed.

Lemma cross_check_log_currency plans s tgt plan c :
  find_plan_by_role plans tgt = Some plan ->
  truthy (Session.currency s) = Some c ->
  toUpperCase c <> toUpperCase (Plan.currency plan) ->
  In (console (log_webhook_currency_mismatch c (Plan.currency plan)))
     (cross_check_log plans s tgt).
Proof.
  intros Hplan Hc Hne. unfold cross_check_log, cross_check.
  rewrite Hplan, Hc. rewrite (proj2 (String.eqb_neq _ _) Hne). simpl.
  destruct (Session.amount_total s) as [a|]; simpl; [|by left].
  destruct (negb _); simpl; [right|]; by left.
Qed.

(** C9.  A completed-payment event settles a [PENDING] purchase whatever
    amount and currency it reports.  [handleWebhook] logs a warning when they
    differ from the plan's, then writes [PAID] with the reported amount, the
    reported currency in upper case and the session id, and goes on to the
    role-upgrade check; [verifySession] writes the same without any
    cross-check. *)
Theorem mismatch_does_not_block_settlement plans env db ev pid tgt p :
  let s := Event.data_object ev in
  Event.type ev = "checkout.session.completed" ->
  truthy (Session.metadata_purchaseId s) = Some pid ->
  Session.metadata_targetRole s = Some tgt ->
  db_purchase_findUnique db pid = Some p ->
  Purchase.status p = PENDING ->
  (exists db' p',
     run env (handleWebhook plans (inr ev)) db =
       (inr (res_json json_received), db',
        membershipPurchase_findUnique pid ::
        (cross_check_log plans s tgt ++
         membershipPurchase_update pid (paid_update s p None) ::
         webhook_upgrade_calls db tgt p)%list) /\
     users db' = webhook_final_users db tgt p /\
     db_purchase_findUnique db' pid = Some p' /\
     Purchase.status p' = PAID /\
     (forall a, Session.amount_total s = Some a ->
                Purchase.amount p' = Some a) /\
     (forall c, truthy (Session.currency s) = Some c ->
                Purchase.currency p' = Some (toUpperCase c)) /\
     Purchase.externalId p' = Some (Session.id s)) /\
  (forall plan,
     find_plan_by_role plans tgt = Some plan ->
     (forall a, Session.amount_total s = Some a -> a <> Plan.amount plan ->
        In (console (log_webhook_amount_mismatch a (Plan.amount plan)))
           (cross_check_log plans s tgt)) /\
     (forall c, truthy (Session.currency s) = Some c ->
        toUpperCase c <> toUpperCase (Plan.currency plan) ->
        In (console (log_webhook_currency_mismatch c (Plan.currency plan)))
           (cross_check_log plans s tgt))) /\
  (forall sid u,
     truthy (Some sid) = Some sid ->
     sessions_retrieve env sid = inr s ->
     isPaid s = true ->
     fst (verify_resolve db s) = Some p ->
     db_user_findUnique db (Purchase.userId p) = Some u ->
     exists o db' tr p',
       run env (verifySession (Some sid)) db = (o, db', tr) /\
       In (membershipPurchase_update pid (paid_update s p (Some "stripe"))) tr /\
       db_purchase_findUnique db' pid = Some p' /\
       Purchase.status p' = PAID /\
       (forall a, Session.amount_total s = Some a ->
                  Purchase.amount p' = Some a) /\
       (forall c, truthy (Session.currency s) = Some c ->
                  Purchase.currency p' = Some (toUpperCase c)) /\
       users db' !! Purchase.userId p =
         Some (if verify_upgrades p u then Purchase.targetRole p
               else User.role u)).
Proof.
  intros s Htype Hpid Htgt Hp Hst.
  pose proof (findUnique_purchase_id _ _ _ Hp) as Hid.
  assert (Hne : Purchase.status p <> PAID) by (rewrite Hst; done).
  split_and!.
  - destruct (paid_update_records s p None)
      as (Hid' & _ & _ & Hpaid & Hamt & Hcur & Hext).
    eexists _, _. split.
    { apply (webhook_settles plans env db ev Htype pid tgt Hpid Htgt p Hp Hne). }
    split; [done|]. split.
    { apply findUnique_after_put. exact Hid. }
    done.
  - intros plan Hplan. split.
    + intros a. by apply cross_check_log_amount.
    + intros c. by apply cross_check_log_currency.
  - intros sid u Hsid Hs Hpaid Hres Hu.
    destruct (paid_update_records s p (Some "stripe"))
      as (Hid' & _ & _ & Hpaid' & Hamt & Hcur & Hext).
    assert (Hmarks : verify_marks p = true).
    { unfold verify_marks. by rewrite bool_decide_eq_false_2. }
    apply findUnique_user_inv in Hu as Hu'. destruct Hu' as [Hrole _].
    eexists _, _, _, (Purchase.updated (paid_update s p (Some "stripe")) p).
    split.
    { apply (verify_settles env db sid Hsid s Hs p Hres u Hu Hpaid). }
    unfold verify_settle_calls, verify_final_db, verify_purchase.
    rewrite Hmarks, Hid. split_and!; try done.
    + right. apply in_or_app. right. right. apply in_or_app. left. by left.
    + destruct (verify_upgrades p u); simpl;
        apply findUnique_after_put; exact Hid.
    + destruct (verify_upgrades p u); simpl; [by rewrite lookup_insert_eq|done].
Qed.

Lemma mismatch_does_not_block_settlement_witness :
  find_plan_by_role STRIPE_PRICE_TO_PLAN USER_GOLD
    = Some (Plan.mk USER_GOLD 129900 "THB" "Gold 1299") /\
  Session.amount_total Scenario.session_mismatch = Some 100 /\
  Session.currency Scenario.session_mismatch = Some "usd" /\
  exists db' p',
    run (Scenario.env_with Scenario.session_mismatch)
        (handleWebhook STRIPE_PRICE_TO_PLAN
           (inr (Scenario.completed Scenario.session_mismatch)))
        Scenario.db_pending
    = (inr (res_json json_received), db',
       [membershipPurchase_findUnique "p1";
        console (log_webhook_amount_mismatch 100 129900);
        console (log_webhook_currency_mismatch "usd" "THB");
        membershipPurchase_update "p1"
          (Purchase.mkUpdate (Some PAID) (Some 100) (Some "USD")
             (Some "cs_1") None);
        user_findUnique 7;
        user_update 7 USER_GOLD;
        console (log_webhook_upgraded 7 USER_GOLD)]) /\
    users db' = {[ 7 := USER_GOLD ]} /\
    db_purchase_findUnique db' "p1" = Some p' /\
    Purchase.status p' = PAID /\
    Purchase.amount p' = Some 100 /\
    Purchase.currency p' = Some "USD".
Proof.
  split; [reflexivity|]. split; [reflexivity|]. split; [reflexivity|].
  destruct (proj1 (mismatch_does_not_block_settlement STRIPE_PRICE_TO_PLAN
              (Scenario.env_with Scenario.session_mismatch)
              Scenario.db_pending
              (Scenario.completed Scenario.session_mismatch)
              "p1" USER_GOLD
              (Purchase.of_row "p1" (Scenario.gold_row PENDING (Some "cs_1")))
              eq_refl eq_refl eq_refl
              ltac:(vm_compute; reflexivity) eq_refl))
    as (db' & p' & Hrun & Husers & Hfind & Hst & Hamt & Hcur & _).
  exists db', p'. split_and!.
  - rewrite Hrun. vm_compute. reflexivity.
  - rewrite Husers. vm_compute. reflexivity.
  - exact Hfind.
  - exact Hst.
  - exact (Hamt 100 eq_refl).
  - exact (Hcur "usd" eq_refl).
Defined.

(** ** The role guards *)

Lemma existsb_console_update tr :
  Forall (fun c => is_console c = true) tr -> existsb is_user_update tr = false.
Proof.
  induction 1 as [|c tr Hc _ IH]; [done|]. simpl. rewrite IH.
  by destruct c.
Qed.

Lemma existsb_resolve_update db s :
  existsb is_user_update (snd (verify_resolve db s)) = false.
Proof.
  unfold verify_resolve.
  by destruct (db_purchase_findFirst _ _); [|destruct (truthy _)].
Qed.

(** Past the gate, [handleWebhook] writes the role exactly when the target
    outranks the role read. *)
Lemma webhook_upgraded plans env db ev pid tgt p u :
  Event.type ev = "checkout.session.completed" ->
  truthy (Session.metadata_purchaseId (Event.data_object ev)) = Some pid ->
  Session.metadata_targetRole (Event.data_object ev) = Some tgt ->
  db_purchase_findUnique db pid = Some p ->
  Purchase.status p <> PAID ->
  db_user_findUnique db (Purchase.userId p) = Some u ->
  upgraded (run env (handleWebhook plans (inr ev)) db)
    = (ROLE_RANK tgt >? ROLE_RANK (User.role u)).
Proof.
  intros Htype Hpid Htgt Hp Hst Hu.
  rewrite (webhook_settles plans env db ev Htype pid tgt Hpid Htgt p Hp Hst).
  unfold upgraded, webhook_upgrade_calls. simpl.
  rewrite existsb_app, (existsb_console_update _ (cross_check_log_console _ _ _)).
  simpl. rewrite Hu. by destruct (ROLE_RANK tgt >? ROLE_RANK (User.role u)).
Qed.

Lemma verify_upgraded env db sid s p u :
  truthy (Some sid) = Some sid ->
  sessions_retrieve env sid = inr s ->
  isPaid s = true ->
  fst (verify_resolve db s) = Some p ->
  db_user_findUnique db (Purchase.userId p) = Some u ->
  upgraded (run env (verifySession (Some sid)) db)
    = (ROLE_RANK (Purchase.targetRole p) >? ROLE_RANK (User.role u)).
Proof.
  intros Hsid Hs Hpaid Hp Hu.
  rewrite (verify_settles env db sid Hsid s Hs p Hp u Hu Hpaid).
  unfold upgraded, verify_settle_calls, verify_upgrades. simpl.
  rewrite existsb_app, existsb_resolve_update. simpl.
  rewrite !existsb_app.
  destruct (verify_marks p),
    (ROLE_RANK (Purchase.targetRole p) >? ROLE_RANK (User.role u)); done.
Qed.

Lemma checkout_guard_decides plans env db req cur tgt :
  checkout_at_guard plans db req cur tgt ->
  checkout_rejected (run env (createCheckoutSession plans env req) db)
    = (ROLE_RANK tgt <=? ROLE_RANK cur).
Proof.
  intros (uid & priceId & plan & Huid & Hprice & Hplan & <- & Hu).
  destruct (ROLE_RANK (Plan.role plan) <=? ROLE_RANK cur) eqn:Hrank.
  - unfold createCheckoutSession, index. rewrite Huid, Hprice, Hplan. simpl.
    rewrite Hu. simpl. by rewrite Hrank.
  - apply Z.leb_gt in Hrank.
    destruct (checkout_past_guard plans env db req uid priceId plan
                (User.mk uid cur)) as (resp & db' & tr & -> & Hcode & _).
    { unfold checkout_valid. split_and!; try done. simpl. lia. }
    unfold checkout_rejected. simpl. by apply Z.eqb_neq.
Qed.

(** C6.  For every pair of roles, the guard of [createCheckoutSession] and
    the upgrade checks of [handleWebhook] and [verifySession] agree: checkout
    answers 409 exactly when settlement would write no role, and both decide
    by [ROLE_RANK tgt > ROLE_RANK cur]. *)
Theorem role_guards_agree plans (cur tgt : Role) envc dbc req envs dbs i :
  checkout_at_guard plans dbc req cur tgt ->
  settlement_at_guard envs dbs i cur tgt ->
  checkout_rejected (run envc (createCheckoutSession plans envc req) dbc)
    = negb (upgraded (run envs (handler plans envs i) dbs)) /\
  upgraded (run envs (handler plans envs i) dbs)
    = (ROLE_RANK tgt >? ROLE_RANK cur).
Proof.
  intros Hc (p & Hres & Hgate & Hu).
  rewrite (checkout_guard_decides _ _ _ _ _ _ Hc).
  assert (Hup : upgraded (run envs (handler plans envs i) dbs)
                = (ROLE_RANK tgt >? ROLE_RANK cur)).
  { destruct i as [r|[e|ev]|[sid|]]; simpl in Hres; try done.
    - destruct Hres as (Htype & Htgt & pid & Hpid & Hp).
      unfold handler.
      by rewrite (webhook_upgraded plans envs dbs ev pid tgt p _
                    Htype Hpid Htgt Hp Hgate Hu).
    - destruct Hres as (s & Hsid & Hs & Hpaid & Hp & ->).
      unfold handler.
      by rewrite (verify_upgraded envs dbs sid s p _ Hsid Hs Hpaid Hp Hu). }
  rewrite Hup. split; [|done].
  rewrite Z.gtb_ltb, Z.leb_antisym. done.
Qed.

Lemma role_guards_agree_witness :
  checkout_at_guard STRIPE_PRICE_TO_PLAN Scenario.db_platinum Scenario.gold_request
    USER_PLATINUM USER_GOLD /\
  settlement_at_guard (Scenario.env_with Scenario.session_paid)
    (mkDb {[ 7 := USER_PLATINUM ]}
          {[ "p1" := Scenario.gold_row PENDING (Some "cs_1") ]})
    (webhook (inr (Scenario.completed Scenario.session_paid)))
    USER_PLATINUM USER_GOLD /\
  checkout_rejected
    (run (Scenario.env_with Scenario.session_paid)
       (createCheckoutSession STRIPE_PRICE_TO_PLAN
          (Scenario.env_with Scenario.session_paid) Scenario.gold_request)
       Scenario.db_platinum) = true /\
  upgraded
    (run (Scenario.env_with Scenario.session_paid)
       (handleWebhook STRIPE_PRICE_TO_PLAN
          (inr (Scenario.completed Scenario.session_paid)))
       (mkDb {[ 7 := USER_PLATINUM ]}
             {[ "p1" := Scenario.gold_row PENDING (Some "cs_1") ]})) = false.
Proof.
  assert (Hc : checkout_at_guard STRIPE_PRICE_TO_PLAN Scenario.db_platinum
                 Scenario.gold_request USER_PLATINUM USER_GOLD).
  { exists 7, Scenario.gold_price, (Plan.mk USER_GOLD 129900 "THB" "Gold 1299").
    split_and!; vm_compute; reflexivity. }
  assert (Hs : settlement_at_guard (Scenario.env_with Scenario.session_paid)
    (mkDb {[ 7 := USER_PLATINUM ]}
          {[ "p1" := Scenario.gold_row PENDING (Some "cs_1") ]})
    (webhook (inr (Scenario.completed Scenario.session_paid)))
    USER_PLATINUM USER_GOLD).
  { exists (Purchase.of_row "p1" (Scenario.gold_row PENDING (Some "cs_1"))).
    split_and!.
    - simpl. split_and!; try reflexivity. exists "p1".
      split; vm_compute; reflexivity.
    - simpl. discriminate.
    - vm_compute. reflexivity. }
  split; [exact Hc|]. split; [exact Hs|].
  destruct (role_guards_agree STRIPE_PRICE_TO_PLAN USER_PLATINUM USER_GOLD
              (Scenario.env_with Scenario.session_paid) Scenario.db_platinum
              Scenario.gold_request
              (Scenario.env_with Scenario.session_paid) _ _ Hc Hs)
    as [Hrej Hup].
  unfold handler in Hrej, Hup. rewrite Hrej, Hup. split; reflexivity.
Defined.

(** ** A purchase already settled *)

Lemma paid_writes_app pid t1 t2 :
  paid_writes pid (t1 ++ t2) = (paid_writes pid t1 + paid_writes pid t2)%nat.
Proof. unfold paid_writes. by rewrite List.filter_app, length_app. Qed.

Lemma role_writes_app t1 t2 :
  role_writes (t1 ++ t2) = (role_writes t1 + role_writes t2)%nat.
Proof. unfold role_writes. by rewrite List.filter_app, length_app. Qed.

Lemma paid_writes_reads pid tr : no_write tr -> paid_writes pid tr = 0%nat.
Proof.
  unfold paid_writes. induction 1 as [|c tr Hc _ IH]; [done|].
  simpl. by destruct c.
Qed.

Lemma role_writes_reads tr : no_write tr -> role_writes tr = 0%nat.
Proof.
  unfold role_writes. induction 1 as [|c tr Hc _ IH]; [done|].
  simpl. by destruct c.
Qed.

(** [verifySession] on a purchase read as [PAID]: the purchase is not
    written again, the upgrade check still runs. *)
Lemma verify_recheck env db sid s p u :
  truthy (Some sid) = Some sid ->
  sessions_retrieve env sid = inr s ->
  isPaid s = true ->
  fst (verify_resolve db s) = Some p ->
  db_user_findUnique db (Purchase.userId p) = Some u ->
  Purchase.status p = PAID ->
  exists o tr,
    run env (verifySession (Some sid)) db =
      (o,
       mkDb (if verify_upgrades p u
             then <[Purchase.userId p := Purchase.targetRole p]> (users db)
             else users db)
            (purchases db),
       tr) /\
    In (user_findUnique (Purchase.userId p)) tr /\
    paid_writes (Purchase.id p) tr = 0%nat /\
    role_writes tr = (if verify_upgrades p u then 1 else 0)%nat.
Proof.
  intros Hsid Hs Hpaid Hp Hu Hst.
  assert (Hmarks : verify_marks p = false).
  { unfold verify_marks. by rewrite bool_decide_eq_true_2. }
  assert (Hdb : verify_final_db db s p u =
    mkDb (if verify_upgrades p u
          then <[Purchase.userId p := Purchase.targetRole p]> (users db)
          else users db)
         (purchases db)).
  { unfold verify_final_db. rewrite Hmarks.
    destruct (verify_upgrades p u); [done|by destruct db]. }
  rewrite (verify_settles env db sid Hsid s Hs p Hp u Hu Hpaid), Hdb.
  eexists _, _. split; [reflexivity|].
  unfold verify_settle_calls. rewrite Hmarks. simpl. split_and!.
  - right. apply in_or_app. right. by left.
  - change (?a :: ?l) with ([a] ++ l)%list.
    rewrite !paid_writes_app,
      (paid_writes_reads _ _ (verify_resolve_reads db s)).
    by destruct (verify_upgrades p u).
  - change (?a :: ?l) with ([a] ++ l)%list.
    rewrite !role_writes_app,
      (role_writes_reads _ (verify_resolve_reads db s)).
    by destruct (verify_upgrades p u).
Qed.

(** C3 (as the code has it).  On a purchase already [PAID], a completed
    payment seen by [verifySession] still leads to the upgrade check: the
    user is read, the role is raised to the purchase's target exactly when
    the target outranks it, and the purchase is not written again.
    [handleWebhook] stops at its gate instead: it answers
    [{received: true}] having only read the purchase. *)
Theorem paid_purchase_recheck plans env db i p tgt u :
  resolves_paid_event env db i p tgt ->
  Purchase.status p = PAID ->
  db_user_findUnique db (Purchase.userId p) = Some u ->
  match i with
  | verify _ =>
      exists o tr,
        run env (handler plans env i) db =
          (o,
           mkDb (if ROLE_RANK tgt >? ROLE_RANK (User.role u)
                 then <[Purchase.userId p := tgt]> (users db)
                 else users db)
                (purchases db),
           tr) /\
        In (user_findUnique (Purchase.userId p)) tr /\
        paid_writes (Purchase.id p) tr = 0%nat /\
        role_writes tr =
          (if ROLE_RANK tgt >? ROLE_RANK (User.role u) then 1 else 0)%nat
  | _ =>
      run env (handler plans env i) db =
        (inr (res_json json_received), db,
         [membershipPurchase_findUnique (Purchase.id p)])
  end.
Proof.
  intros Hres Hst Hu.
  destruct i as [r|[e|ev]|[sid|]]; simpl in Hres; try done.
  - destruct Hres as (Htype & Htgt & pid & Hpid & Hp).
    rewrite (findUnique_purchase_id _ _ _ Hp). unfold handler.
    by apply (webhook_paid_gate plans env db ev Htype pid tgt Hpid Htgt p).
  - destruct Hres as (s & Hsid & Hs & Hpaid & Hp & ->). unfold handler.
    by apply (verify_recheck env db sid s p u).
Qed.

Lemma paid_purchase_recheck_witness :
  exists o tr,
    run (Scenario.env_with Scenario.session_paid)
        (verifySession (Some "cs_1")) Scenario.db_paid
    = (o,
       mkDb (<[7 := USER_GOLD]> (users Scenario.db_paid))
            (purchases Scenario.db_paid),
       tr) /\
    In (user_findUnique 7) tr /\
    paid_writes "p1" tr = 0%nat /\
    role_writes tr = 1%nat.
Proof.
  assert (Hres :
    resolves_paid_event (Scenario.env_with Scenario.session_paid)
      Scenario.db_paid (verify (Some "cs_1"))
      (Purchase.of_row "p1" (Scenario.gold_row PAID (Some "cs_1")))
      USER_GOLD).
  { exists Scenario.session_paid. split_and!; vm_compute; reflexivity. }
  assert (Hu : db_user_findUnique Scenario.db_paid 7 = Some (User.mk 7 USER))
    by (vm_compute; reflexivity).
  exact (paid_purchase_recheck STRIPE_PRICE_TO_PLAN
           (Scenario.env_with Scenario.session_paid) Scenario.db_paid
           (verify (Some "cs_1"))
           (Purchase.of_row "p1" (Scenario.gold_row PAID (Some "cs_1")))
           USER_GOLD (User.mk 7 USER) Hres eq_refl Hu).
Defined.

(** C3, refuted as stated.  Purchase "p1" is [PAID], its user still holds
    [USER] although the target [USER_GOLD] outranks it; the completed-payment
    webhook for it reads the purchase and returns: the user is not read and
    no role is written. *)
Lemma webhook_skips_recheck_on_paid_purchase :
  resolves_paid_event (Scenario.env_with Scenario.session_paid)
    Scenario.db_paid
    (webhook (inr (Scenario.completed Scenario.session_paid)))
    (Purchase.of_row "p1" (Scenario.gold_row PAID (Some "cs_1"))) USER_GOLD /\
  db_user_findUnique Scenario.db_paid 7 = Some (User.mk 7 USER) /\
  ROLE_RANK USER_GOLD > ROLE_RANK USER /\
  run (Scenario.env_with Scenario.session_paid)
      (handleWebhook STRIPE_PRICE_TO_PLAN
         (inr (Scenario.completed Scenario.session_paid)))
      Scenario.db_paid
  = (inr (res_json json_received), Scenario.db_paid,
     [membershipPurchase_findUnique "p1"]) /\
  ~ In (user_findUnique 7) [membershipPurchase_findUnique "p1"] /\
  users Scenario.db_paid !! 7 = Some USER.
Proof.
  split_and!.
  - simpl. split_and!; try reflexivity. exists "p1".
    split; vm_compute; reflexivity.
  - vm_compute. reflexivity.
  - vm_compute. reflexivity.
  - vm_compute. reflexivity.
  - intros [H|[]]. discriminate H.
  - vm_compute. reflexivity.
Qed.

(** ** Role changes *)

Lemma role_le_refl a : role_le a a.
Proof. destruct a; simpl; [lia|done]. Qed.

Lemma role_le_trans a b c : role_le a b -> role_le b c -> role_le a c.
Proof. destruct a, b, c; simpl; try done; lia. Qed.

(** One request, on any store: every user keeps their role, except that the
    user of the resolved purchase may be moved to the target role the
    request grants, which then strictly outranks the role held before. *)
Lemma role_step plans env db i k :
  users (snd (fst (run env (handler plans env i) db))) !! k = users db !! k \/
  exists p tgt cur,
    resolves_paid_event env db i p tgt /\
    k = Purchase.userId p /\
    users db !! k = Some cur /\
    users (snd (fst (run env (handler plans env i) db))) !! k = Some tgt /\
    ROLE_RANK cur < ROLE_RANK tgt.
Proof.
  destruct i as [req|[e|ev]|[sid|]]; unfold handler.
  - (* checkout *)
    left. destruct (checkout_invalid_or_valid plans db req)
      as [Hbad|(uid & priceId & plan & u & Hok)].
    + by destruct (checkout_invalid_run plans env db req Hbad)
        as (code & msg & tr & ->).
    + destruct (checkout_past_guard plans env db req _ _ _ _ Hok)
        as (resp & db' & tr & -> & _ & Husers & _).
      simpl. by rewrite Husers.
  - (* webhook, signature rejected *)
    by left.
  - (* webhook *)
    destruct (decide (Event.type ev = "checkout.session.completed"))
      as [Htype|Htype]; [|left; by rewrite webhook_other_event].
    destruct (truthy (Session.metadata_purchaseId (Event.data_object ev)))
      as [pid|] eqn:Hpid;
      [|left; by rewrite webhook_missing_metadata; [| |left]].
    destruct (Session.metadata_targetRole (Event.data_object ev))
      as [tgt|] eqn:Htgt;
      [|left; by rewrite webhook_missing_metadata; [| |right]].
    destruct (db_purchase_findUnique db pid) as [p|] eqn:Hp;
      [|left; by rewrite (webhook_unknown_purchase plans env db ev Htype
                            pid tgt Hpid Htgt Hp)].
    destruct (decide (Purchase.status p = PAID)) as [Hst|Hst];
      [left; by rewrite (webhook_paid_gate plans env db ev Htype pid tgt
                           Hpid Htgt p Hp Hst)|].
    rewrite (webhook_settles plans env db ev Htype pid tgt Hpid Htgt p Hp Hst).
    simpl. unfold webhook_final_users.
    destruct (db_user_findUnique db (Purchase.userId p)) as [u|] eqn:Hu;
      [|by left].
    destruct (ROLE_RANK tgt >? ROLE_RANK (User.role u)) eqn:Hrank; [|by left].
    destruct (decide (k = Purchase.userId p)) as [->|Hk];
      [|left; by rewrite lookup_insert_ne].
    right. exists p, tgt, (User.role u).
    apply findUnique_user_inv in Hu as [Hrole _].
    rewrite lookup_insert_eq. split_and!; try done.
    + simpl. eauto.
    + apply Z.gtb_lt in Hrank. lia.
  - (* verify *)
    destruct (truthy (Some sid)) as [sid'|] eqn:Hsid;
      [|left; by rewrite verify_no_session_id].
    apply truthy_Some_inv in Hsid as Heq. subst sid'.
    destruct (sessions_retrieve env sid) as [e|s] eqn:Hs;
      [left; by rewrite (verify_gateway_error env db sid Hsid e Hs)|].
    destruct (fst (verify_resolve db s)) as [p|] eqn:Hp;
      [|left; by rewrite (verify_unresolved env db sid Hsid s Hs Hp)].
    destruct (db_user_findUnique db (Purchase.userId p)) as [u|] eqn:Hu;
      [|left; by rewrite (verify_no_settlement env db sid Hsid s Hs p Hp
                            (or_introl Hu))].
    destruct (isPaid s) eqn:Hpaid;
      [|left; by rewrite (verify_no_settlement env db sid Hsid s Hs p Hp
                            (or_intror Hpaid))].
    rewrite (verify_settles env db sid Hsid s Hs p Hp u Hu Hpaid).
    simpl. unfold verify_final_db.
    assert (Hsame : users (if verify_marks p
        then mkDb (users db)
               (<[Purchase.id p := Purchase.to_row (verify_purchase s p)]>
                  (purchases db))
        else db) = users db) by (by destruct (verify_marks p)).
    destruct (verify_upgrades p u) eqn:Hrank; simpl; rewrite Hsame;
      [|by left].
    destruct (decide (k = Purchase.userId p)) as [->|Hk];
      [|left; by rewrite lookup_insert_ne].
    right. exists p, (Purchase.targetRole p), (User.role u).
    apply findUnique_user_inv in Hu as [Hrole _].
    rewrite lookup_insert_eq. split_and!; try done.
    + simpl. eauto 10.
    + unfold verify_upgrades in Hrank. apply Z.gtb_lt in Hrank. lia.
  - (* verify without a session id *)
    left. by rewrite verify_no_session_id.
Qed.

(** The facts that make a request resolve a purchase read only the purchase
    table. *)
Lemma resolves_same_purchases env db1 db2 i p tgt :
  purchases db1 = purchases db2 ->
  resolves_paid_event env db1 i p tgt ->
  resolves_paid_event env db2 i p tgt.
Proof.
  intros Heq.
  assert (Hfu : forall k, db_purchase_findUnique db1 k
                          = db_purchase_findUnique db2 k)
    by (intros k; unfold db_purchase_findUnique; by rewrite Heq).
  assert (Hff : forall e, db_purchase_findFirst db1 e
                          = db_purchase_findFirst db2 e)
    by (intros e; unfold db_purchase_findFirst; by rewrite Heq).
  assert (Hvr : forall s, verify_resolve db1 s = verify_resolve db2 s).
  { intros s. unfold verify_resolve. rewrite Hff.
    destruct (db_purchase_findFirst db2 _); [done|].
    destruct (truthy _); [|done]. by rewrite Hfu. }
  destruct i as [req|[e|ev]|[sid|]]; simpl; try done.
  - intros (? & ? & pid & ? & ?). split_and!; try done.
    exists pid. by rewrite <- Hfu.
  - intros (s & ? & ? & ? & ? & ?). exists s. by rewrite <- Hvr.
Qed.

(** A request on a purchase already [PAID]: the purchase table is left as
    it is, and the role is written at most once, and only while the
    purchase's target outranks it. *)
Lemma step_after_settlement plans env db i p tgt :
  resolves_paid_event env db i p tgt ->
  Purchase.status p = PAID ->
  exists o db' tr,
    run env (handler plans env i) db = (o, db', tr) /\
    purchases db' = purchases db /\
    paid_writes (Purchase.id p) tr = 0%nat /\
    (role_writes tr + pending_upgrade db' p <= pending_upgrade db p)%nat.
Proof.
  intros Hres Hst.
  destruct i as [r|[e|ev]|[sid|]]; simpl in Hres; try done; unfold handler.
  - destruct Hres as (Htype & Htgt & pid & Hpid & Hp).
    rewrite (webhook_paid_gate plans env db ev Htype pid tgt Hpid Htgt p Hp Hst).
    eexists _, _, _. split; [reflexivity|]. split; [done|].
    split; [done|]. simpl. lia.
  - destruct Hres as (s & Hsid & Hs & Hpaid & Hp & ->).
    destruct (db_user_findUnique db (Purchase.userId p)) as [u|] eqn:Hu.
    + destruct (verify_recheck env db sid s p u Hsid Hs Hpaid Hp Hu Hst)
        as (o & tr & -> & _ & Hpw & Hrw).
      eexists _, _, _. split; [reflexivity|]. split; [done|].
      split; [done|].
      apply findUnique_user_inv in Hu as [Hrole _].
      rewrite Hrw. unfold pending_upgrade, verify_upgrades. simpl.
      rewrite Hrole.
      destruct (ROLE_RANK (Purchase.targetRole p) >? ROLE_RANK (User.role u))
        eqn:Hrank; simpl; [|by rewrite Hrole, Hrank].
      by rewrite lookup_insert_eq, Z.gtb_ltb, Z.ltb_irrefl.
    + rewrite (verify_no_settlement env db sid Hsid s Hs p Hp (or_introl Hu)).
      assert (Hnw : no_write
        (stripe_checkout_sessions_retrieve sid ::
         (snd (verify_resolve db s) ++
          [user_findUnique (Purchase.userId p);
           user_findUnique (Purchase.userId p)])%list)).
      { constructor; [done|]. apply Forall_app. split.
        - apply verify_resolve_reads.
        - by repeat constructor. }
      eexists _, _, _. split; [reflexivity|]. split; [done|].
      rewrite (paid_writes_reads _ _ Hnw), (role_writes_reads _ Hnw).
      split; [done|]. simpl. lia.
Qed.

Lemma serve_cons plans env i rest db :
  serve plans ((env, i) :: rest) db =
    (((fst (fst (run env (handler plans env i) db)),
       snd (run env (handler plans env i) db))
      :: fst (serve plans rest (snd (fst (run env (handler plans env i) db))))),
     snd (serve plans rest (snd (fst (run env (handler plans env i) db))))).
Proof.
  simpl. destruct (run env (handler plans env i) db) as [[o db1] tr]. simpl.
  by destruct (serve plans rest db1).
Qed.

Lemma serve_roles_monotone plans reqs db k :
  role_le (users db !! k) (users (snd (serve plans reqs db)) !! k).
Proof.
  revert db. induction reqs as [|[env i] rest IH]; intros db.
  - apply role_le_refl.
  - rewrite serve_cons. simpl.
    eapply role_le_trans; [|apply IH].
    destruct (role_step plans env db i k)
      as [->|(p & tgt & cur & _ & _ & -> & -> & Hlt)].
    + apply role_le_refl.
    + simpl. lia.
Qed.

Lemma serve_after_settlement plans p :
  Purchase.status p = PAID ->
  forall reqs db,
    Forall (fun ei => exists tgt,
              resolves_paid_event (fst ei) db (snd ei) p tgt) reqs ->
    purchases (snd (serve plans reqs db)) = purchases db /\
    Forall (fun o => paid_writes (Purchase.id p) (snd o) = 0%nat)
           (fst (serve plans reqs db)) /\
    (role_writes (all_calls (fst (serve plans reqs db)))
     + pending_upgrade (snd (serve plans reqs db)) p
     <= pending_upgrade db p)%nat.
Proof.
  intros Hst. induction reqs as [|[env i] rest IH]; intros db Hall.
  - simpl. split; [done|]. split; [constructor|].
    unfold all_calls, role_writes. simpl. lia.
  - apply Forall_cons in Hall as [[tgt Hres] Hrest].
    simpl in Hres.
    destruct (step_after_settlement plans env db i p tgt Hres Hst)
      as (o & db1 & tr & Hrun & Hpurch & Hpw & Hle).
    rewrite serve_cons, Hrun. simpl.
    destruct (IH db1) as (Hpurch' & Hpw' & Hle').
    { eapply Forall_impl; [exact Hrest|].
      intros [env' i'] [tgt' Hres']. exists tgt'.
      by apply (resolves_same_purchases env' db db1). }
    split; [congruence|]. split; [by constructor|].
    change (all_calls ((o, tr) :: ?l)) with (tr ++ all_calls l)%list.
    rewrite role_writes_app. lia.
Qed.

(** C4 (as the code has it).  A request on any store leaves every role as
    it is, or moves the user of the purchase it resolves to the target role
    it grants (the metadata's in [handleWebhook], the purchase's in
    [verifySession]), and only when that role strictly outranks the one held.
    Hence requests served in sequence on a purchase already [PAID] write a
    role at most once in total, and no role ever drops. *)
Theorem role_changes_only_upward plans :
  (forall env db i k,
     users (snd (fst (run env (handler plans env i) db))) !! k
       = users db !! k \/
     exists p tgt cur,
       resolves_paid_event env db i p tgt /\
       k = Purchase.userId p /\
       users db !! k = Some cur /\
       users (snd (fst (run env (handler plans env i) db))) !! k = Some tgt /\
       ROLE_RANK cur < ROLE_RANK tgt) /\
  (forall reqs db p,
     Purchase.status p = PAID ->
     Forall (fun ei => exists tgt,
               resolves_paid_event (fst ei) db (snd ei) p tgt) reqs ->
     (role_writes (all_calls (fst (serve plans reqs db))) <= 1)%nat /\
     forall k, role_le (users db !! k)
                       (users (snd (serve plans reqs db)) !! k)).
Proof.
  split.
  - intros env db i k. apply role_step.
  - intros reqs db p Hst Hall. split.
    + destruct (serve_after_settlement plans p Hst reqs db Hall)
        as (_ & _ & Hle).
      assert (pending_upgrade db p <= 1)%nat; [|lia].
      unfold pending_upgrade.
      destruct (users db !! Purchase.userId p) as [r|]; [|lia].
      destruct (_ >? _); lia.
    + intros k. apply serve_roles_monotone.
Qed.

Lemma role_changes_only_upward_witness :
  let reqs :=
    [ (Scenario.env_with Scenario.session_paid, verify (Some "cs_1"));
      (Scenario.env_with Scenario.session_paid,
       webhook (inr (Scenario.completed Scenario.session_paid)));
      (Scenario.env_with Scenario.session_paid, verify (Some "cs_1")) ] in
  role_writes (all_calls (fst (serve STRIPE_PRICE_TO_PLAN reqs Scenario.db_paid)))
    = 1%nat /\
  users (snd (serve STRIPE_PRICE_TO_PLAN reqs Scenario.db_paid)) !! 7
    = Some USER_GOLD /\
  (role_writes (all_calls (fst (serve STRIPE_PRICE_TO_PLAN reqs Scenario.db_paid)))
     <= 1)%nat /\
  forall k, role_le (users Scenario.db_paid !! k)
                    (users (snd (serve STRIPE_PRICE_TO_PLAN reqs Scenario.db_paid)) !! k).
Proof.
  intros reqs.
  split; [vm_compute; reflexivity|]. split; [vm_compute; reflexivity|].
  apply (proj2 (role_changes_only_upward STRIPE_PRICE_TO_PLAN) reqs Scenario.db_paid
           (Purchase.of_row "p1" (Scenario.gold_row PAID (Some "cs_1")))
           eq_refl).
  repeat constructor; exists USER_GOLD; simpl.
  - exists Scenario.session_paid. split_and!; vm_compute; reflexivity.
  - split_and!; try reflexivity. exists "p1". split; vm_compute; reflexivity.
  - exists Scenario.session_paid. split_and!; vm_compute; reflexivity.
Defined.

(** C4, refuted as stated.  Purchase "p1" has target [USER_GOLD]; a
    completed-payment webhook whose metadata names [USER_PLATINUM] for it
    moves the user from [USER] to [USER_PLATINUM], which is not the
    purchase's target role. *)
Lemma webhook_grants_metadata_role :
  db_purchase_findUnique Scenario.db_pending "p1"
    = Some (Purchase.of_row "p1" (Scenario.gold_row PENDING (Some "cs_1"))) /\
  Purchase.targetRole
    (Purchase.of_row "p1" (Scenario.gold_row PENDING (Some "cs_1")))
    = USER_GOLD /\
  users Scenario.db_pending !! 7 = Some USER /\
  users (snd (fst (run (Scenario.env_with Scenario.session_platinum)
                     (handleWebhook STRIPE_PRICE_TO_PLAN
                        (inr (Scenario.completed Scenario.session_platinum)))
                     Scenario.db_pending))) !! 7
    = Some USER_PLATINUM /\
  USER_PLATINUM <> USER_GOLD.
Proof. split_and!; try (vm_compute; reflexivity). discriminate. Qed.

(** ** Settling once *)

Lemma carries_resolves env db i pid sid p :
  unique_external db pid sid ->
  db_purchase_findUnique db pid = Some p ->
  carries pid sid (env, i) ->
  exists tgt, resolves_paid_event env db i p tgt.
Proof.
  intros Huniq Hp Hc. unfold carries in Hc. simpl in Hc.
  destruct i as [req|[e|ev]|[session_id|]]; try done.
  - destruct Hc as (Htype & _ & Hpid & [tgt Htgt]).
    exists tgt. simpl. eauto 6.
  - destruct Hc as (s & Hsid & Hs & Hid & Hpaid & Hpid).
    exists (Purchase.targetRole p), s. split_and!; try done.
    unfold verify_resolve. rewrite Hid.
    destruct (db_purchase_findFirst db sid) as [q|] eqn:Hq; simpl.
    + apply findFirst_purchase_inv in Hq as [Hq Hext].
      apply findUnique_purchase_inv in Hq as Hq'.
      destruct Hq' as (r & Hr & Heq).
      assert (Hext' : Purchase.r_externalId r = Some sid)
        by (rewrite Heq in Hext; exact Hext).
      rewrite (Huniq _ _ Hr Hext') in Hq. congruence.
    + by rewrite Hpid.
Qed.

Lemma unique_external_put db pid sid us row :
  unique_external db pid sid ->
  unique_external (mkDb us (<[pid := row]> (purchases db))) pid sid.
Proof.
  intros Huniq k r. simpl. rewrite lookup_insert.
  case_decide; [done|]. apply Huniq.
Qed.

Lemma paid_writes_upgrade_calls pid db tgt p :
  paid_writes pid (webhook_upgrade_calls db tgt p) = 0%nat.
Proof.
  unfold webhook_upgrade_calls.
  destruct (db_user_findUnique db (Purchase.userId p)) as [u|]; [|done].
  by destruct (ROLE_RANK tgt >? ROLE_RANK (User.role u)).
Qed.

Lemma paid_writes_settling pid s p g :
  paid_writes pid [membershipPurchase_update pid (paid_update s p g)] = 1%nat.
Proof.
  unfold paid_writes. simpl. by rewrite !bool_decide_eq_true_2.
Qed.

(** The first request on a purchase not yet [PAID] writes it once. *)
Lemma first_request_settles plans env db i pid sid p u :
  db_purchase_findUnique db pid = Some p ->
  Purchase.status p <> PAID ->
  db_user_findUnique db (Purchase.userId p) = Some u ->
  unique_external db pid sid ->
  carries pid sid (env, i) ->
  exists o db1 tr p',
    run env (handler plans env i) db = (o, db1, tr) /\
    paid_writes pid tr = 1%nat /\
    db_purchase_findUnique db1 pid = Some p' /\
    Purchase.status p' = PAID /\
    unique_external db1 pid sid.
Proof.
  intros Hp Hst Hu Huniq Hc.
  pose proof (findUnique_purchase_id _ _ _ Hp) as Hid.
  destruct (carries_resolves env db i pid sid p Huniq Hp Hc) as [tgt Hres].
  destruct i as [req|[e|ev]|[session_id|]]; simpl in Hres; try done;
    unfold handler.
  - destruct Hres as (Htype & Htgt & pid' & Hpid & Hp').
    assert (pid' = pid) as ->.
    { destruct Hc as (_ & _ & Hpid'' & _). simpl in Hpid''. congruence. }
    rewrite (webhook_settles plans env db ev Htype pid tgt Hpid Htgt p Hp Hst).
    eexists _, _, _, _. split; [reflexivity|]. split_and!.
    + change (?a :: (?l ++ ?b :: ?m)%list)
        with ([a] ++ l ++ [b] ++ m)%list.
      rewrite !paid_writes_app, paid_writes_settling,
        paid_writes_upgrade_calls.
      rewrite (paid_writes_reads _ (cross_check_log _ _ _)); [done|].
      apply console_no_write, cross_check_log_console.
    + by apply findUnique_after_put.
    + done.
    + by apply unique_external_put.
  - destruct Hres as (s & Hsid & Hs & Hpaid & Hres & ->).
    rewrite (verify_settles env db session_id Hsid s Hs p Hres u Hu Hpaid).
    assert (Hmarks : verify_marks p = true).
    { unfold verify_marks. by rewrite bool_decide_eq_false_2. }
    eexists _, _, _,
      (Purchase.updated (paid_update s p (Some "stripe")) p).
    split; [reflexivity|].
    unfold verify_final_db, verify_settle_calls, verify_purchase.
    rewrite Hmarks, Hid. split_and!.
    + change (?a :: (?l ++ ?b :: ?m)%list)
        with ([a] ++ l ++ [b] ++ m)%list.
      rewrite !paid_writes_app, paid_writes_settling.
      rewrite (paid_writes_reads _ _ (verify_resolve_reads db s)).
      by destruct (verify_upgrades p u).
    + destruct (verify_upgrades p u); by apply findUnique_after_put.
    + done.
    + destruct (verify_upgrades p u); by apply unique_external_put.
Qed.

(** C1 (as the code has it).  Requests served one after another, all carrying
    a completed payment of the same gateway session for a [PENDING] purchase
    whose user exists: the first one writes [PAID], every later one reads the
    purchase as [PAID] and does not write it again.  The write is guarded by
    the status read earlier in the same request, not by a condition of the
    write itself. *)
Theorem sequential_requests_settle_once plans pid sid p u first rest db :
  db_purchase_findUnique db pid = Some p ->
  Purchase.status p = PENDING ->
  db_user_findUnique db (Purchase.userId p) = Some u ->
  unique_external db pid sid ->
  Forall (carries pid sid) (first :: rest) ->
  (paid_writes pid <$> (snd <$> fst (serve plans (first :: rest) db)))
    = 1%nat :: replicate (length rest) 0%nat /\
  purchase_status (snd (serve plans (first :: rest) db)) pid = Some PAID /\
  purchases (snd (serve plans (first :: rest) db))
    = purchases (snd (serve plans [first] db)).
Proof.
  intros Hp Hst Hu Huniq Hall.
  apply Forall_cons in Hall as [Hfirst Hrest].
  destruct first as [env i].
  assert (Hne : Purchase.status p <> PAID) by (rewrite Hst; done).
  destruct (first_request_settles plans env db i pid sid p u
              Hp Hne Hu Huniq Hfirst)
    as (o & db1 & tr & p' & Hrun & Hpw & Hp' & Hst' & Huniq').
  pose proof (findUnique_purchase_id _ _ _ Hp') as Hid'.
  destruct (serve_after_settlement plans p' Hst' rest db1)
    as (Hpurch & Hzero & _).
  { eapply Forall_impl; [exact Hrest|].
    intros [env' i'] Hc. simpl.
    by apply (carries_resolves env' db1 i' pid sid p'). }
  rewrite !serve_cons, Hrun. simpl. rewrite Hpw. split_and!.
  - f_equal. rewrite Hid' in Hzero.
    assert (Hlen : length (fst (serve plans rest db1)) = length rest).
    { clear. revert db1. induction rest as [|[env i] rest IH]; intros db1;
        [done|]. rewrite serve_cons. simpl. by rewrite IH. }
    rewrite <- Hlen. clear -Hzero.
    induction Hzero as [|x l Hx _ IH]; [done|]. simpl. by rewrite Hx, IH.
  - unfold purchase_status. rewrite Hpurch.
    apply findUnique_purchase_inv in Hp' as (r & -> & ->). simpl.
    by rewrite <- Hst'.
  - done.
Qed.

Lemma sequential_requests_settle_once_witness :
  let reqs :=
    [ (Scenario.env_with Scenario.session_paid,
       webhook (inr (Scenario.completed Scenario.session_paid)));
      (Scenario.env_with Scenario.session_paid, verify (Some "cs_1"));
      (Scenario.env_with Scenario.session_paid,
       webhook (inr (Scenario.completed Scenario.session_paid))) ] in
  (paid_writes "p1" <$> (snd <$> fst (serve STRIPE_PRICE_TO_PLAN reqs Scenario.db_pending)))
    = [1; 0; 0]%nat /\
  purchase_status (snd (serve STRIPE_PRICE_TO_PLAN reqs Scenario.db_pending)) "p1"
    = Some PAID.
Proof.
  intros reqs.
  assert (Huniq : unique_external Scenario.db_pending "p1" "cs_1").
  { intros k r. unfold Scenario.db_pending. simpl.
    rewrite lookup_singleton. case_decide; [done|]. discriminate. }
  assert (Hall : Forall (carries "p1" "cs_1") reqs).
  { repeat constructor; unfold carries; simpl; try (by eexists);
      exists Scenario.session_paid; split_and!; reflexivity. }
  destruct (sequential_requests_settle_once STRIPE_PRICE_TO_PLAN "p1" "cs_1"
              (Purchase.of_row "p1" (Scenario.gold_row PENDING (Some "cs_1")))
              (User.mk 7 USER) _ _ Scenario.db_pending
              ltac:(vm_compute; reflexivity) eq_refl
              ltac:(vm_compute; reflexivity) Huniq Hall)
    as (Hw & Hs & _).
  split; [exact Hw|exact Hs].
Defined.

(** ** Overlapping requests *)

(** A request scheduled alone goes through the calls of its run. *)
Lemma interleave_alone env (p : Prog Response) db :
  exists log,
    interleave (replicate (length (snd (run env p db))) 0%nat)
               [mkThread env p] db
    = ([mkThread env (residue (fst (fst (run env p db))))],
       snd (fst (run env p db)), log) /\
    (snd <$> log) = snd (run env p db).
Proof.
  revert db. induction p as [r|e|c k IH]; intros db.
  - by exists [].
  - by exists [].
  - simpl.
    destruct (exec env db c) as [x db1] eqn:Hx.
    destruct (IH x db1) as (log & Hrun & Hlog).
    destruct (run env (k x) db1) as [[o db2] tr] eqn:Hr. simpl in *.
    unfold step. simpl. rewrite Hx, Hrun.
    exists ((0%nat, db, c) :: log). split; [done|].
    rewrite fmap_cons. simpl. by f_equal.
Qed.

(** C1, refuted as stated.  The webhook and the verify request for the same
    paid session overlap on a [PENDING] purchase: each reads the status
    before the other writes, so both write [PAID]; the second write runs
    when the status is already [PAID], and the verify request still reports
    that it marked the purchase paid. *)
Lemma overlapping_requests_both_settle :
  Forall (carries "p1" "cs_1")
    [ (Scenario.env_with Scenario.session_paid,
       webhook (inr (Scenario.completed Scenario.session_paid)));
      (Scenario.env_with Scenario.session_paid, verify (Some "cs_1")) ] /\
  purchase_status Scenario.db_pending "p1" = Some PENDING /\
  let r := interleave Scenario.overlap_schedule Scenario.overlap_pool
             Scenario.db_pending in
  settling_writes "p1" (snd r) = [(0%nat, Some PENDING); (1%nat, Some PAID)] /\
  finished <$> fst (fst r) =
    [ Some (res_json json_received);
      Some (verify_response Scenario.session_paid
              (Some (Purchase.of_row "p1"
                       (Purchase.mkRow 7 USER_GOLD PAID (Some 129900)
                          (Some "THB") (Some "stripe") (Some "cs_1"))))
              (Some (User.mk 7 USER_GOLD))
              (mkEffects true true (Some USER_GOLD))) ].
Proof.
  split_and!.
  - repeat constructor; unfold carries; simpl; try (by eexists);
      exists Scenario.session_paid; split_and!; reflexivity.
  - vm_compute. reflexivity.
  - vm_compute. split; reflexivity.
Qed.

(** ** Resolving the purchase *)

Lemma webhook_never_reads_externalId plans env db req ext :
  ~ In (membershipPurchase_findFirst ext)
       (snd (run env (handleWebhook plans req) db)).
Proof.
  destruct req as [e|ev]; [simpl; intuition discriminate|].
  destruct (decide (Event.type ev = "checkout.session.completed"))
    as [Htype|Htype];
    [|rewrite webhook_other_event by done; simpl; tauto].
  destruct (truthy (Session.metadata_purchaseId (Event.data_object ev)))
    as [pid|] eqn:Hpid;
    [|rewrite webhook_missing_metadata by (done || by left);
      simpl; intuition discriminate].
  destruct (Session.metadata_targetRole (Event.data_object ev))
    as [tgt|] eqn:Htgt;
    [|rewrite webhook_missing_metadata by (done || by right);
      simpl; intuition discriminate].
  destruct (db_purchase_findUnique db pid) as [p|] eqn:Hp;
    [|rewrite (webhook_unknown_purchase plans env db ev Htype pid tgt
                 Hpid Htgt Hp); simpl; intuition discriminate].
  destruct (decide (Purchase.status p = PAID)) as [Hst|Hst];
    [rewrite (webhook_paid_gate plans env db ev Htype pid tgt Hpid Htgt p
                Hp Hst); simpl; intuition discriminate|].
  rewrite (webhook_settles plans env db ev Htype pid tgt Hpid Htgt p Hp Hst).
  simpl. intros [?|Hin]; [done|].
  apply in_app_or in Hin as [Hin|[?|Hin]]; [|done|].
  - pose proof (cross_check_log_console plans (Event.data_object ev) tgt) as Hc.
    rewrite Forall_forall in Hc. apply list_elem_of_In, Hc in Hin. done.
  - unfold webhook_upgrade_calls in Hin.
    destruct Hin as [?|Hin]; [done|].
    destruct (db_user_findUnique db (Purchase.userId p)) as [u|];
      [destruct (ROLE_RANK tgt >? ROLE_RANK (User.role u))|];
      simpl in Hin; intuition discriminate.
Qed.

(** C2, where the code departs from it.  Purchase "p1" carries session
    "cs_1" as [externalId]; the completed-payment event of that session comes
    without metadata.  The rule of the specification resolves "p1", and
    [verifySession] does so and settles it; [handleWebhook] never looks a
    purchase up by [externalId]: it logs the missing metadata and leaves the
    purchase [PENDING]. *)
Theorem webhook_resolves_by_metadata_only :
  reconcile_resolve_spec Scenario.db_pending Scenario.session_bare
    = Some (Purchase.of_row "p1" (Scenario.gold_row PENDING (Some "cs_1"))) /\
  run (Scenario.env_with Scenario.session_bare)
      (handleWebhook STRIPE_PRICE_TO_PLAN
         (inr (Scenario.completed Scenario.session_bare)))
      Scenario.db_pending
  = (inr (res_json json_received), Scenario.db_pending,
     [console log_webhook_missing_metadata]) /\
  purchase_status
    (snd (fst (run (Scenario.env_with Scenario.session_bare)
                 (verifySession (Some "cs_1")) Scenario.db_pending))) "p1"
  = Some PAID /\
  (forall plans env db req ext,
     ~ In (membershipPurchase_findFirst ext)
          (snd (run env (handleWebhook plans req) db))).
Proof.
  split_and!; try (vm_compute; reflexivity).
  apply webhook_never_reads_externalId.
Qed.

(** * Further properties of the controller *)

(** ** What [handleWebhook] answers and when it writes *)

Lemma truthy_inv o x : truthy o = Some x -> o = Some x /\ truthy (Some x) = Some x.
Proof. destruct o as [[|a s]|]; simpl; intros; simplify_eq; done. Qed.

(** Every run is one of the outcomes [answers] ranges over. *)
Lemma run_answers {R} env (p : Prog R) db :
  answers true p (fst (fst (run env p db))).
Proof.
  revert db. induction p as [r|e|c k IH]; intros db; simpl; [done|done|].
  destruct (exec env db c) as [x db1] eqn:Hx.
  specialize (IH x db1).
  destruct (run env (k x) db1) as [[o db2] tr]. simpl in *.
  exists x. split; [|done].
  destruct x as [e|v]; simpl; [|done]. split; [done|]. by destruct c.
Qed.

(** Case analysis of [answers] along a handler: each awaited call replies or
    fails, each guard goes either way. *)
Ltac crack :=
  repeat match goal with
  | H : answers _ _ _ |- _ =>
      progress (cbn [answers tryCatch bind await possible] in H)
  | H : ex (fun x => possible _ _ x /\ _) |- _ =>
      let x := fresh "x" in
      let Hp := fresh "Hp" in
      destruct H as (x & Hp & H); destruct x; cbn [possible] in Hp
  | H : answers _ _ _ |- _ => progress (unfold when in H)
  | H : answers _ ?p _ |- _ =>
      match p with
      | context [match ?t with _ => _ end] => destruct t eqn:?
      end
  end.

(** X1.  [handleWebhook] answers 400 only for a bad signature and never lets
    an error escape.  A payload whose signature does not verify is answered
    400 with the verifier's message, and the store is not touched.  For a
    verified event, whatever the store and each awaited call reply: when no
    call fails the answer is 200 [{received: true}], and when calls may fail
    it is either that or 500 "Webhook handler failed", the handler's catch
    for any error thrown on the way. *)
Theorem webhook_answers plans :
  (forall env db err,
     run env (handleWebhook plans (inl err)) db =
       (inr (res_status 400 (send_text ("Webhook Error: " ++ err))), db,
        [console (log_webhook_verify_failed err)])) /\
  (forall failures ev o,
     answers failures (handleWebhook plans (inr ev)) o ->
     o = inr (res_json json_received) \/
     (failures = true /\
      o = inr (res_status 500 (json_error "Webhook handler failed")))).
Proof.
  split; [done|].
  unfold handleWebhook, cross_check. intros failures ev o H.
  crack; intuition.
Qed.

(** X2.  [handleWebhook] writes to the store exactly when the event is a
    completed checkout session whose metadata carries both a purchase id and
    a target role, the purchase id is the key of a row, and that row is not
    [PAID]; in every other case the run makes no write at all. *)
Theorem webhook_writes_iff plans env db req :
  ~ no_write (snd (run env (handleWebhook plans req) db)) <->
  exists ev pid tgt p,
    req = inr ev /\
    Event.type ev = "checkout.session.completed" /\
    truthy (Session.metadata_purchaseId (Event.data_object ev)) = Some pid /\
    Session.metadata_targetRole (Event.data_object ev) = Some tgt /\
    db_purchase_findUnique db pid = Some p /\
    Purchase.status p <> PAID.
Proof.
  split.
  - intros Hw.
    destruct req as [e|ev]; [destruct Hw; by repeat constructor|].
    destruct (decide (Event.type ev = "checkout.session.completed"))
      as [Htype|Htype];
      [|destruct Hw; rewrite webhook_other_event by done; constructor].
    destruct (truthy (Session.metadata_purchaseId (Event.data_object ev)))
      as [pid|] eqn:Hpid;
      [|destruct Hw; rewrite webhook_missing_metadata by (done || by left);
        by repeat constructor].
    destruct (Session.metadata_targetRole (Event.data_object ev))
      as [tgt|] eqn:Htgt;
      [|destruct Hw; rewrite webhook_missing_metadata by (done || by right);
        by repeat constructor].
    destruct (db_purchase_findUnique db pid) as [p|] eqn:Hp;
      [|destruct Hw;
        rewrite (webhook_unknown_purchase plans env db ev Htype pid tgt
                   Hpid Htgt Hp); by repeat constructor].
    destruct (decide (Purchase.status p = PAID)) as [Hst|Hst];
      [destruct Hw;
       rewrite (webhook_paid_gate plans env db ev Htype pid tgt Hpid Htgt p
                  Hp Hst); by repeat constructor|].
    by exists ev, pid, tgt, p.
  - intros (ev & pid & tgt & p & -> & Htype & Hpid & Htgt & Hp & Hst) Hnw.
    rewrite (webhook_settles plans env db ev Htype pid tgt Hpid Htgt p Hp Hst)
      in Hnw.
    simpl in Hnw. unfold no_write in Hnw.
    apply Forall_cons in Hnw as [_ Hnw].
    apply Forall_app in Hnw as [_ Hnw].
    by apply Forall_cons in Hnw as [Hnw _].
Qed.

(** X3.  [handleWebhook] settles a purchase whose user does not exist: the
    purchase is written [PAID] with the session id, the user lookup finds
    nothing, the skip is logged and no role is written.  ([verifySession]
    writes nothing at all in that situation.) *)
Theorem webhook_settles_without_user plans env db ev pid tgt p :
  Event.type ev = "checkout.session.completed" ->
  truthy (Session.metadata_purchaseId (Event.data_object ev)) = Some pid ->
  Session.metadata_targetRole (Event.data_object ev) = Some tgt ->
  db_purchase_findUnique db pid = Some p ->
  Purchase.status p <> PAID ->
  db_user_findUnique db (Purchase.userId p) = None ->
  exists db' tr p',
    run env (handleWebhook plans (inr ev)) db =
      (inr (res_json json_received), db', tr) /\
    users db' = users db /\
    db_purchase_findUnique db' pid = Some p' /\
    Purchase.status p' = PAID /\
    Purchase.externalId p' = Some (Session.id (Event.data_object ev)) /\
    role_writes tr = 0%nat /\
    paid_writes pid tr = 1%nat /\
    last tr = Some (console log_webhook_skip_role_update).
Proof.
  intros Htype Hpid Htgt Hp Hst Hu.
  pose proof (findUnique_purchase_id _ _ _ Hp) as Hid.
  destruct (paid_update_records (Event.data_object ev) p None)
    as (_ & _ & _ & Hpaid & _ & _ & Hext).
  eexists _, _, _. split.
  { apply (webhook_settles plans env db ev Htype pid tgt Hpid Htgt p Hp Hst). }
  unfold webhook_final_users, webhook_upgrade_calls. rewrite Hu.
  assert (Hcc : no_write (cross_check_log plans (Event.data_object ev) tgt))
    by apply console_no_write, cross_check_log_console.
  split_and!; try done.
  - apply findUnique_after_put. exact Hid.
  - change (?a :: (?l ++ ?b :: ?m)%list) with ([a] ++ l ++ [b] ++ m)%list.
    by rewrite !role_writes_app, (role_writes_reads _ Hcc).
  - change (?a :: (?l ++ ?b :: ?m)%list) with ([a] ++ l ++ [b] ++ m)%list.
    by rewrite !paid_writes_app, paid_writes_settling,
      (paid_writes_reads _ _ Hcc).
  - by rewrite last_cons, last_app.
Qed.

Lemma webhook_settles_without_user_witness :
  exists db' tr p',
    run (Scenario.env_with Scenario.session_paid)
        (handleWebhook STRIPE_PRICE_TO_PLAN
           (inr (Scenario.completed Scenario.session_paid)))
        Scenario.db_orphan
    = (inr (res_json json_received), db', tr) /\
    users db' = users Scenario.db_orphan /\
    db_purchase_findUnique db' "p1" = Some p' /\
    Purchase.status p' = PAID /\
    Purchase.externalId p' = Some "cs_1" /\
    role_writes tr = 0%nat /\
    paid_writes "p1" tr = 1%nat /\
    last tr = Some (console log_webhook_skip_role_update).
Proof.
  exact (webhook_settles_without_user STRIPE_PRICE_TO_PLAN
           (Scenario.env_with Scenario.session_paid) Scenario.db_orphan
           (Scenario.completed Scenario.session_paid) "p1" USER_GOLD
           (Purchase.of_row "p1" (Scenario.gold_row PENDING (Some "cs_1")))
           eq_refl eq_refl eq_refl eq_refl
           ltac:(discriminate) eq_refl).
Defined.

(** ** What [verifySession] answers and when it writes *)

Lemma or_else_message e :
  or_else (Some e) "verify failed" = if decide (e = "") then "verify failed" else e.
Proof. by destruct e. Qed.

(** X4.  [verifySession] answers 400 without calling the gateway when the
    session id is absent or empty, and 500 with the gateway's message (or
    "verify failed" when that message is empty) when the session cannot be
    retrieved, leaving the store as it is.  It never lets an error escape:
    for a non-empty session id, whatever the gateway and the store reply,
    the answer is 200 with a verify body when no call fails, and when calls
    may fail it is either that or 500 with the failure's message. *)
Theorem verify_answers env db session_id :
  match truthy session_id with
  | None =>
      run env (verifySession session_id) db =
        (inr (res_status 400 (json_error "session_id required")), db, [])
  | Some sid =>
      forall e,
        sessions_retrieve env sid = inl e ->
        run env (verifySession session_id) db =
          (inr (res_status 500
                  (json_error (if decide (e = "") then "verify failed"
                               else e))),
           db,
           [stripe_checkout_sessions_retrieve sid;
            console (log_verify_error e)])
  end /\
  (forall failures o,
     answers failures (verifySession session_id) o ->
     match truthy session_id with
     | None => o = inr (res_status 400 (json_error "session_id required"))
     | Some _ =>
         (exists v, o = inr (res_json (json_verify v))) \/
         (failures = true /\
          exists e,
            o = inr (res_status 500
                      (json_error (if decide (e = "") then "verify failed"
                                   else e))))
     end).
Proof.
  split.
  - destruct (truthy session_id) as [sid|] eqn:Hsid;
      [|by apply verify_no_session_id].
    apply truthy_inv in Hsid as [-> Hsid]. intros e Hs.
    rewrite <- or_else_message. by apply verify_gateway_error.
  - unfold verifySession. intros failures o H.
    destruct (truthy session_id) as [sid|] eqn:Hsid; [|crack; done].
    crack; try tauto; subst.
    all: first [ left; eexists; reflexivity
               | right; split; [tauto|]; eexists;
                 rewrite <- or_else_message; reflexivity ].
Qed.

(** X5.  While the gateway does not report the session as paid,
    [verifySession] is read-only: it answers 200 with the purchase and the
    user as stored and no effect, and leaves the store as it is. *)
Theorem verify_before_payment_reads_only env db sid s :
  truthy (Some sid) = Some sid ->
  sessions_retrieve env sid = inr s ->
  isPaid s = false ->
  exists tr,
    run env (verifySession (Some sid)) db =
      (inr (verify_response s (fst (verify_resolve db s))
              (p ← fst (verify_resolve db s);
               db_user_findUnique db (Purchase.userId p))
              (mkEffects false false None)),
       db, tr) /\
    no_write tr.
Proof.
  intros Hsid Hs Hpaid.
  destruct (fst (verify_resolve db s)) as [p|] eqn:Hp; eexists; split.
  - by apply (verify_no_settlement env db sid Hsid s Hs p Hp
                (or_intror Hpaid)).
  - constructor; [done|]. apply Forall_app. split.
    + apply verify_resolve_reads.
    + by repeat constructor.
  - by apply verify_unresolved.
  - constructor; [done|]. apply verify_resolve_reads.
Qed.

Lemma verify_before_payment_reads_only_witness :
  let s := Session.mk "cs_1" None unpaid (Some open) (Some 129900)
             (Some "thb") (Some "p1") (Some USER_GOLD) in
  exists tr,
    run (Scenario.env_with s) (verifySession (Some "cs_1")) Scenario.db_pending
    = (inr (res_json (json_verify
              (mkVerifyBody "cs_1" unpaid (Some 129900) (Some "THB")
                 (Some ("p1", PENDING, USER_GOLD))
                 (Some (User.mk 7 USER))
                 (mkEffects false false None)))),
       Scenario.db_pending, tr) /\
    no_write tr.
Proof.
  intros s.
  exact (verify_before_payment_reads_only (Scenario.env_with s)
           Scenario.db_pending "cs_1" s eq_refl eq_refl eq_refl).
Defined.

Lemma verify_settle_calls_reads s p u :
  no_write (verify_settle_calls s p u) <->
  verify_marks p = false /\ verify_upgrades p u = false.
Proof.
  unfold verify_settle_calls, no_write.
  destruct (verify_marks p), (verify_upgrades p u); simpl; split;
    try (intros [??]; done); try done;
    intros H; try (by repeat constructor);
    apply Forall_cons in H as [H _]; done.
Qed.

(** X6.  [verifySession] writes to the store exactly when the session is
    retrieved and reported paid, a purchase resolves, its user exists, and
    either the purchase is not yet [PAID] or its target role outranks the
    user's role. *)
Theorem verify_writes_iff env db session_id :
  ~ no_write (snd (run env (verifySession session_id) db)) <->
  exists sid s p u,
    truthy session_id = Some sid /\
    sessions_retrieve env sid = inr s /\
    isPaid s = true /\
    fst (verify_resolve db s) = Some p /\
    db_user_findUnique db (Purchase.userId p) = Some u /\
    (Purchase.status p <> PAID \/
     ROLE_RANK (Purchase.targetRole p) > ROLE_RANK (User.role u)).
Proof.
  assert (Hreads : forall s (l : list Call),
    no_write l ->
    no_write (stripe_checkout_sessions_retrieve (Session.id s) ::
              (snd (verify_resolve db s) ++ l)%list) ).
  { intros s l Hl. constructor; [done|]. apply Forall_app. split; [|done].
    apply verify_resolve_reads. }
  split.
  - intros Hw.
    destruct (truthy session_id) as [sid|] eqn:Hsid;
      [|destruct Hw; rewrite verify_no_session_id by done; constructor].
    apply truthy_inv in Hsid as [-> Hsid].
    destruct (sessions_retrieve env sid) as [e|s] eqn:Hs;
      [destruct Hw; rewrite (verify_gateway_error env db sid Hsid e Hs);
       by repeat constructor|].
    destruct (fst (verify_resolve db s)) as [p|] eqn:Hp;
      [|destruct Hw; rewrite (verify_unresolved env db sid Hsid s Hs Hp);
        constructor; [done|apply verify_resolve_reads]].
    destruct (db_user_findUnique db (Purchase.userId p)) as [u|] eqn:Hu;
      [|destruct Hw;
        rewrite (verify_no_settlement env db sid Hsid s Hs p Hp
                   (or_introl Hu));
        constructor; [done|]; apply Forall_app; split;
        [apply verify_resolve_reads|by repeat constructor]].
    destruct (isPaid s) eqn:Hpaid;
      [|destruct Hw;
        rewrite (verify_no_settlement env db sid Hsid s Hs p Hp
                   (or_intror Hpaid));
        constructor; [done|]; apply Forall_app; split;
        [apply verify_resolve_reads|by repeat constructor]].
    exists sid, s, p, u. split_and!; try done.
    destruct (decide (Purchase.status p = PAID)) as [Hst|Hst]; [|by left].
    right.
    destruct (ROLE_RANK (Purchase.targetRole p) >? ROLE_RANK (User.role u))
      eqn:Hrank; [apply Z.gtb_lt in Hrank; lia|].
    destruct Hw.
    rewrite (verify_settles env db sid Hsid s Hs p Hp u Hu Hpaid). simpl.
    constructor; [done|]. apply Forall_app. split;
      [apply verify_resolve_reads|].
    constructor; [done|]. apply Forall_app. split; [|by repeat constructor].
    apply verify_settle_calls_reads. unfold verify_marks, verify_upgrades.
    by rewrite bool_decide_eq_true_2.
  - intros (sid & s & p & u & Hsid & Hs & Hpaid & Hp & Hu & Hwhy) Hnw.
    apply truthy_inv in Hsid as [-> Hsid].
    rewrite (verify_settles env db sid Hsid s Hs p Hp u Hu Hpaid) in Hnw.
    simpl in Hnw. unfold no_write in Hnw.
    apply Forall_cons in Hnw as [_ Hnw].
    apply Forall_app in Hnw as [_ Hnw].
    apply Forall_cons in Hnw as [_ Hnw].
    apply Forall_app in Hnw as [Hnw _].
    apply verify_settle_calls_reads in Hnw as [Hm Hup].
    unfold verify_marks, verify_upgrades in Hm, Hup.
    destruct Hwhy as [Hst|Hrank].
    + by rewrite bool_decide_eq_false_2 in Hm.
    + rewrite (proj2 (Z.gtb_lt _ _)) in Hup by lia. done.
Qed.

Lemma findUnique_purchase_same db1 db2 k :
  purchases db1 = purchases db2 ->
  db_purchase_findUnique db1 k = db_purchase_findUnique db2 k.
Proof. intros H. unfold db_purchase_findUnique. by rewrite H. Qed.

Lemma findUnique_user_same db1 db2 k :
  users db1 = users db2 ->
  db_user_findUnique db1 k = db_user_findUnique db2 k.
Proof. intros H. unfold db_user_findUnique. by rewrite H. Qed.

Lemma verify_resolve_same db1 db2 s :
  purchases db1 = purchases db2 -> verify_resolve db1 s = verify_resolve db2 s.
Proof.
  intros H. unfold verify_resolve, db_purchase_findFirst.
  rewrite H. destruct (list_find _ _); [done|].
  destruct (truthy _); [|done]. by rewrite (findUnique_purchase_same db1 db2).
Qed.

(** What [verifySession] leaves for a paid session with purchase and user:
    the purchase and the user it reports are the stored ones. *)
Lemma verify_final_purchase db s p u :
  db_purchase_findUnique db (Purchase.id p) = Some p ->
  db_purchase_findUnique (verify_final_db db s p u) (Purchase.id p)
    = Some (verify_purchase s p).
Proof.
  intros Hp. unfold verify_final_db, verify_purchase.
  destruct (verify_marks p), (verify_upgrades p u); simpl;
    try (by apply findUnique_after_put); exact Hp.
Qed.

Lemma verify_final_user db s p u :
  db_user_findUnique db (Purchase.userId p) = Some u ->
  db_user_findUnique (verify_final_db db s p u) (Purchase.userId p)
    = Some (if verify_upgrades p u
            then User.mk (Purchase.userId p) (Purchase.targetRole p)
            else u).
Proof.
  intros Hu. unfold verify_final_db.
  destruct (verify_upgrades p u).
  - unfold db_user_findUnique. simpl. by rewrite lookup_insert_eq.
  - by destruct (verify_marks p).
Qed.

Lemma verify_purchase_fields s p :
  Purchase.id (verify_purchase s p) = Purchase.id p /\
  Purchase.userId (verify_purchase s p) = Purchase.userId p /\
  Purchase.targetRole (verify_purchase s p) = Purchase.targetRole p /\
  Purchase.status (verify_purchase s p) = PAID.
Proof.
  unfold verify_purchase, verify_marks.
  destruct (decide (Purchase.status p = PAID)) as [Hst|Hst].
  - by rewrite bool_decide_eq_true_2.
  - by rewrite bool_decide_eq_false_2.
Qed.

(** X7.  What a 200 answer of [verifySession] reports is what the store
    holds after the call: the reported purchase is stored under the reported
    id with the reported status and target role, and the reported user is
    the stored user of that purchase (null when there is none). *)
Theorem verify_reports_the_store env db sid s v db' tr :
  truthy (Some sid) = Some sid ->
  sessions_retrieve env sid = inr s ->
  run env (verifySession (Some sid)) db
    = (inr (res_json (json_verify v)), db', tr) ->
  match v_purchase v with
  | Some (pid, st, tgt) =>
      exists p',
        db_purchase_findUnique db' pid = Some p' /\
        Purchase.status p' = st /\
        Purchase.targetRole p' = tgt /\
        v_user v = db_user_findUnique db' (Purchase.userId p')
  | None => v_user v = None /\ db' = db
  end.
Proof.
  intros Hsid Hs Hrun.
  destruct (fst (verify_resolve db s)) as [p|] eqn:Hp.
  2:{ rewrite (verify_unresolved env db sid Hsid s Hs Hp) in Hrun.
      unfold verify_response in Hrun. by simplify_eq/=. }
  pose proof (verify_resolve_found _ _ _ Hp) as Hfound.
  destruct (db_user_findUnique db (Purchase.userId p)) as [u|] eqn:Hu.
  2:{ rewrite (verify_no_settlement env db sid Hsid s Hs p Hp (or_introl Hu))
        in Hrun.
      unfold verify_response in Hrun. simplify_eq/=. rewrite Hu. eauto. }
  destruct (isPaid s) eqn:Hpaid.
  2:{ rewrite (verify_no_settlement env db sid Hsid s Hs p Hp
                 (or_intror Hpaid)) in Hrun.
      unfold verify_response in Hrun. simplify_eq/=. rewrite Hu. eauto. }
  rewrite (verify_settles env db sid Hsid s Hs p Hp u Hu Hpaid) in Hrun.
  unfold verify_response in Hrun. simplify_eq/=.
  destruct (verify_purchase_fields s p) as (Hid & Huid & _ & _).
  exists (verify_purchase s p). rewrite Hid, Huid. split_and!; try done.
  - by apply verify_final_purchase.
  - symmetry. by apply verify_final_user.
Qed.

Lemma verify_reports_the_store_witness :
  exists p',
    db_purchase_findUnique
      (snd (fst (run (Scenario.env_with Scenario.session_paid)
                   (verifySession (Some "cs_1")) Scenario.db_pending))) "p1"
      = Some p' /\
    Purchase.status p' = PAID /\
    Purchase.targetRole p' = USER_GOLD /\
    Some (User.mk 7 USER_GOLD) =
      db_user_findUnique
        (snd (fst (run (Scenario.env_with Scenario.session_paid)
                     (verifySession (Some "cs_1")) Scenario.db_pending)))
        (Purchase.userId p').
Proof.
  exact (verify_reports_the_store
           (Scenario.env_with Scenario.session_paid) Scenario.db_pending
           "cs_1" Scenario.session_paid
           (mkVerifyBody "cs_1" paid (Some 129900) (Some "THB")
              (Some ("p1", PAID, USER_GOLD)) (Some (User.mk 7 USER_GOLD))
              (mkEffects true true (Some USER_GOLD)))
           _ _ eq_refl eq_refl ltac:(vm_compute; reflexivity)).
Defined.

(** ** Calling [verifySession] again *)

Lemma unique_external_fresh db pid sid :
  db_purchase_findFirst db sid = None -> unique_external db pid sid.
Proof.
  intros H k r Hk Hext. by apply (proj1 (findFirst_purchase_None db sid) H) in Hk.
Qed.

(** A purchase that carries the session id, alone, is the one resolved. *)
Lemma verify_resolve_linked db s p :
  unique_external db (Purchase.id p) (Session.id s) ->
  db_purchase_findUnique db (Purchase.id p) = Some p ->
  Purchase.externalId p = Some (Session.id s) ->
  fst (verify_resolve db s) = Some p.
Proof.
  intros Huniq Hp Hext. unfold verify_resolve.
  destruct (db_purchase_findFirst db (Session.id s)) as [q|] eqn:Hq; simpl.
  - apply findFirst_purchase_inv in Hq as [Hq Hextq].
    apply findUnique_purchase_inv in Hq as Hq'.
    destruct Hq' as (r & Hr & Heq).
    assert (Hext' : Purchase.r_externalId r = Some (Session.id s))
      by (rewrite Heq in Hextq; exact Hextq).
    rewrite (Huniq _ _ Hr Hext') in Hq. congruence.
  - exfalso.
    apply findUnique_purchase_inv in Hp as (r & Hr & Heq).
    apply (proj1 (findFirst_purchase_None db (Session.id s)) Hq _ _ Hr).
    rewrite Heq in Hext. exact Hext.
Qed.

(** X8.  Calling [verifySession] again for the same paid session (a page
    refresh) changes nothing: when at most the resolved purchase carries the
    session id, the second call leaves the store as the first left it,
    reports the same purchase and user, and reports no effect. *)
Theorem verify_again_changes_nothing env db sid s p u :
  truthy (Some sid) = Some sid ->
  sessions_retrieve env sid = inr s ->
  isPaid s = true ->
  fst (verify_resolve db s) = Some p ->
  db_user_findUnique db (Purchase.userId p) = Some u ->
  unique_external db (Purchase.id p) (Session.id s) ->
  exists purchase user eff db1 tr1 tr2,
    run env (verifySession (Some sid)) db =
      (inr (verify_response s purchase user eff), db1, tr1) /\
    run env (verifySession (Some sid)) db1 =
      (inr (verify_response s purchase user (mkEffects false false None)),
       db1, tr2) /\
    no_write tr2.
Proof.
  intros Hsid Hs Hpaid Hp Hu Huniq.
  pose proof (verify_resolve_found _ _ _ Hp) as Hfound.
  destruct (verify_purchase_fields s p) as (Hid & Huid & Htgt & Hst).
  set (p1 := verify_purchase s p) in *.
  set (u1 := if verify_upgrades p u
             then User.mk (Purchase.userId p) (Purchase.targetRole p)
             else u).
  set (db1 := verify_final_db db s p u).
  assert (Hfound1 : db_purchase_findUnique db1 (Purchase.id p1) = Some p1).
  { rewrite Hid. by apply verify_final_purchase. }
  assert (Hu1 : db_user_findUnique db1 (Purchase.userId p1) = Some u1).
  { rewrite Huid. by apply verify_final_user. }
  assert (Hp1 : fst (verify_resolve db1 s) = Some p1).
  { destruct (verify_marks p) eqn:Hm.
    - apply verify_resolve_linked; [| exact Hfound1 |].
      + rewrite Hid. unfold db1, verify_final_db. rewrite Hm.
        destruct (verify_upgrades p u); by apply unique_external_put.
      + unfold p1, verify_purchase. rewrite Hm.
        by destruct (paid_update_records s p (Some "stripe"))
          as (_ & _ & _ & _ & _ & _ & ?).
    - assert (p1 = p) as -> by (unfold p1, verify_purchase; by rewrite Hm).
      rewrite (verify_resolve_same db1 db); [done|].
      unfold db1, verify_final_db. rewrite Hm.
      by destruct (verify_upgrades p u). }
  assert (Hm1 : verify_marks p1 = false).
  { unfold verify_marks. by rewrite bool_decide_eq_true_2. }
  assert (Hup1 : verify_upgrades p1 u1 = false).
  { unfold verify_upgrades, u1. rewrite Htgt.
    destruct (verify_upgrades p u) eqn:Hup; simpl.
    - by rewrite Z.gtb_ltb, Z.ltb_irrefl.
    - exact Hup. }
  exists (Some p1), (Some u1). eexists _, db1, _, _. split_and!.
  - apply (verify_settles env db sid Hsid s Hs p Hp u Hu Hpaid).
  - rewrite (verify_settles env db1 sid Hsid s Hs p1 Hp1 u1 Hu1 Hpaid).
    unfold verify_final_db, verify_purchase, verify_settle_calls.
    rewrite Hm1, Hup1. reflexivity.
  - constructor; [done|]. apply Forall_app. split;
      [apply verify_resolve_reads|].
    unfold verify_settle_calls. rewrite ?Hm1, ?Hup1. by repeat constructor.
Qed.

Lemma verify_again_changes_nothing_witness :
  exists purchase user eff db1 tr1 tr2,
    run (Scenario.env_with Scenario.session_paid)
        (verifySession (Some "cs_1")) Scenario.db_pending =
      (inr (verify_response Scenario.session_paid purchase user eff),
       db1, tr1) /\
    run (Scenario.env_with Scenario.session_paid)
        (verifySession (Some "cs_1")) db1 =
      (inr (verify_response Scenario.session_paid purchase user
              (mkEffects false false None)),
       db1, tr2) /\
    no_write tr2.
Proof.
  assert (Huniq : unique_external Scenario.db_pending "p1" "cs_1").
  { intros k r. unfold Scenario.db_pending. simpl.
    rewrite lookup_singleton. case_decide; [done|]. discriminate. }
  exact (verify_again_changes_nothing
           (Scenario.env_with Scenario.session_paid) Scenario.db_pending
           "cs_1" Scenario.session_paid
           (Purchase.of_row "p1" (Scenario.gold_row PENDING (Some "cs_1")))
           (User.mk 7 USER)
           eq_refl eq_refl eq_refl ltac:(vm_compute; reflexivity)
           ltac:(vm_compute; reflexivity) Huniq).
Defined.

(** ** The settling write *)

(** A request that resolves a purchase not yet [PAID], whose user exists,
    writes it: the row becomes the record [update] returns. *)
Lemma request_settles_unpaid plans env db i p tgt u s :
  resolves_paid_event env db i p tgt ->
  session_of env i = Some s ->
  Purchase.status p <> PAID ->
  db_user_findUnique db (Purchase.userId p) = Some u ->
  exists o db' tr,
    run env (handler plans env i) db = (o, db', tr) /\
    db_purchase_findUnique db' (Purchase.id p)
      = Some (Purchase.updated (paid_update s p (gateway_tag i)) p) /\
    paid_writes (Purchase.id p) tr = 1%nat /\
    forall k, k <> Purchase.id p -> purchases db' !! k = purchases db !! k.
Proof.
  intros Hres Hsess Hst Hu.
  destruct i as [req|[e|ev]|[sid|]]; simpl in Hres, Hsess; try done;
    unfold handler, gateway_tag.
  - destruct Hres as (Htype & Htgt & pid & Hpid & Hp). simplify_eq.
    pose proof (findUnique_purchase_id _ _ _ Hp) as Hid.
    rewrite (webhook_settles plans env db ev Htype pid tgt Hpid Htgt p Hp Hst).
    eexists _, _, _. split; [reflexivity|]. rewrite Hid. split_and!.
    + by apply findUnique_after_put.
    + change (?a :: (?l ++ ?b :: ?m)%list)
        with ([a] ++ l ++ [b] ++ m)%list.
      rewrite !paid_writes_app, paid_writes_settling,
        paid_writes_upgrade_calls.
      rewrite (paid_writes_reads _ (cross_check_log _ _ _)); [done|].
      apply console_no_write, cross_check_log_console.
    + intros k Hk. simpl. by rewrite lookup_insert_ne.
  - destruct Hres as (s' & Hsid & Hs & Hpaid & Hp & ->).
    rewrite Hs in Hsess. simplify_eq.
    pose proof (verify_resolve_found _ _ _ Hp) as Hfound.
    assert (Hm : verify_marks p = true).
    { unfold verify_marks. by rewrite bool_decide_eq_false_2. }
    rewrite (verify_settles env db sid Hsid s Hs p Hp u Hu Hpaid).
    eexists _, _, _. split; [reflexivity|]. split_and!.
    + rewrite verify_final_purchase by done.
      unfold verify_purchase. by rewrite Hm.
    + unfold verify_settle_calls. rewrite Hm.
      change (?a :: (?l ++ ?b :: ?m)%list)
        with ([a] ++ l ++ [b] ++ m)%list.
      rewrite !paid_writes_app, paid_writes_settling.
      rewrite (paid_writes_reads _ _ (verify_resolve_reads db s)).
      by destruct (verify_upgrades p u).
    + intros k Hk. unfold verify_final_db. rewrite Hm.
      destruct (verify_upgrades p u); simpl; by rewrite lookup_insert_ne.
Qed.

(** X9.  The gate of both handlers only stops at [PAID]: a completed payment
    for a purchase that is [FAILED] or [CANCELED] settles it like a
    [PENDING] one, with one [PAID] write, and touches no other purchase. *)
Theorem failed_or_canceled_purchase_is_settled plans env db i p tgt u :
  resolves_paid_event env db i p tgt ->
  Purchase.status p = FAILED \/ Purchase.status p = CANCELED ->
  db_user_findUnique db (Purchase.userId p) = Some u ->
  purchase_status (snd (fst (run env (handler plans env i) db)))
    (Purchase.id p) = Some PAID /\
  paid_writes (Purchase.id p) (snd (run env (handler plans env i) db))
    = 1%nat /\
  forall k, k <> Purchase.id p ->
    purchases (snd (fst (run env (handler plans env i) db))) !! k
      = purchases db !! k.
Proof.
  intros Hres Hst Hu.
  assert (Hne : Purchase.status p <> PAID) by (destruct Hst as [->| ->]; done).
  assert (exists s, session_of env i = Some s) as [s Hsess].
  { destruct i as [req|[e|ev]|[sid|]]; simpl in *; try done; [eauto|].
    destruct Hres as (s & _ & -> & _). eauto. }
  destruct (request_settles_unpaid plans env db i p tgt u s
              Hres Hsess Hne Hu) as (o & db' & tr & -> & Hp' & Hpw & Hframe).
  simpl. split_and!; [|done..].
  unfold purchase_status.
  apply findUnique_purchase_inv in Hp' as (r & -> & Hr). simpl. f_equal.
  change (Purchase.r_status r)
    with (Purchase.status (Purchase.of_row (Purchase.id p) r)).
  by rewrite <- Hr.
Qed.

Lemma failed_or_canceled_purchase_is_settled_witness :
  let db := mkDb {[ 7 := USER ]}
                 {[ "p1" := Scenario.gold_row CANCELED (Some "cs_1") ]} in
  purchase_status
    (snd (fst (run (Scenario.env_with Scenario.session_paid)
                 (handleWebhook STRIPE_PRICE_TO_PLAN
                    (inr (Scenario.completed Scenario.session_paid))) db)))
    "p1" = Some PAID.
Proof.
  intros db.
  refine (proj1 (failed_or_canceled_purchase_is_settled STRIPE_PRICE_TO_PLAN
            (Scenario.env_with Scenario.session_paid) db
            (webhook (inr (Scenario.completed Scenario.session_paid)))
            (Purchase.of_row "p1" (Scenario.gold_row CANCELED (Some "cs_1")))
            USER_GOLD (User.mk 7 USER) _ (or_intror eq_refl) _)).
  - simpl. split_and!; try reflexivity. exists "p1".
    split; vm_compute; reflexivity.
  - vm_compute. reflexivity.
Defined.

(** X10.  When the gateway's session reports neither an amount nor a
    currency, the settling write keeps the stored amount and writes the
    stored currency in upper case, or "THB" when none is stored. *)
Theorem settlement_without_reported_amount plans env db i p tgt u s :
  resolves_paid_event env db i p tgt ->
  session_of env i = Some s ->
  Purchase.status p <> PAID ->
  db_user_findUnique db (Purchase.userId p) = Some u ->
  Session.amount_total s = None ->
  truthy (Session.currency s) = None ->
  exists p',
    db_purchase_findUnique (snd (fst (run env (handler plans env i) db)))
      (Purchase.id p) = Some p' /\
    Purchase.amount p' = Purchase.amount p /\
    Purchase.currency p' =
      Some (toUpperCase (match truthy (Purchase.currency p) with
                         | Some c => c
                         | None => "THB"
                         end)).
Proof.
  intros Hres Hsess Hst Hu Hamt Hcur.
  destruct (request_settles_unpaid plans env db i p tgt u s
              Hres Hsess Hst Hu) as (o & db' & tr & -> & Hp' & _).
  eexists. split; [exact Hp'|].
  unfold Purchase.updated, paid_update. simpl.
  rewrite Hamt, Hcur. by destruct (Purchase.amount p).
Qed.

Lemma settlement_without_reported_amount_witness :
  let s := Session.mk "cs_1" None paid (Some complete) None None
             (Some "p1") (Some USER_GOLD) in
  let db := mkDb {[ 7 := USER ]}
              {[ "p1" := Purchase.mkRow 7 USER_GOLD PENDING (Some 129900)
                           None (Some "stripe") None ]} in
  exists p',
    db_purchase_findUnique
      (snd (fst (run (Scenario.env_with s)
                   (handleWebhook STRIPE_PRICE_TO_PLAN
                      (inr (Scenario.completed s))) db))) "p1" = Some p' /\
    Purchase.amount p' = Some 129900 /\
    Purchase.currency p' = Some "THB".
Proof.
  intros s db.
  refine (settlement_without_reported_amount STRIPE_PRICE_TO_PLAN
            (Scenario.env_with s) db (webhook (inr (Scenario.completed s)))
            (Purchase.of_row "p1"
               (Purchase.mkRow 7 USER_GOLD PENDING (Some 129900) None
                  (Some "stripe") None))
            USER_GOLD (User.mk 7 USER) s _ eq_refl _ _ eq_refl eq_refl).
  - simpl. split_and!; try reflexivity. exists "p1".
    split; vm_compute; reflexivity.
  - discriminate.
  - vm_compute. reflexivity.
Defined.

(** ** Checkout and what follows it *)

Lemma serve_two plans e1 i1 e2 i2 db :
  serve plans [(e1, i1); (e2, i2)] db =
    ([(fst (fst (run e1 (handler plans e1 i1) db)),
       snd (run e1 (handler plans e1 i1) db));
      (fst (fst (run e2 (handler plans e2 i2)
                   (snd (fst (run e1 (handler plans e1 i1) db))))),
       snd (run e2 (handler plans e2 i2)
              (snd (fst (run e1 (handler plans e1 i1) db)))))],
     snd (fst (run e2 (handler plans e2 i2)
                 (snd (fst (run e1 (handler plans e1 i1) db)))))).
Proof.
  simpl. destruct (run e1 (handler plans e1 i1) db) as [[o1 db1] t1]. simpl.
  by destruct (run e2 (handler plans e2 i2) db1) as [[o2 db2] t2].
Qed.

(** X11.  [createCheckoutSession] never writes a role and never changes or
    removes a purchase that exists: whatever the request and the outcome, the
    users are as before, every stored purchase is as before, and the only
    key that may gain a row is the generated id, with a [PENDING] row of the
    "stripe" gateway. *)
Theorem checkout_only_adds_a_purchase plans env db req :
  users (snd (fst (run env (createCheckoutSession plans env req) db)))
    = users db /\
  (forall k r,
     purchases db !! k = Some r ->
     purchases (snd (fst (run env (createCheckoutSession plans env req) db)))
       !! k = Some r) /\
  (forall k r,
     purchases (snd (fst (run env (createCheckoutSession plans env req) db)))
       !! k = Some r ->
     purchases db !! k = Some r \/
     (k = newId env /\ Purchase.r_status r = PENDING /\
      Purchase.r_gateway r = Some "stripe")).
Proof.
  destruct (checkout_invalid_or_valid plans db req)
    as [Hbad|(uid & priceId & plan & u & Hok)].
  { destruct (checkout_invalid_run plans env db req Hbad)
      as (code & msg & tr & ->). simpl. eauto. }
  destruct (checkout_prefix plans env db req uid priceId plan u Hok)
    as (k0 & -> & Hk).
  destruct Hok as (_ & _ & _ & Hu & _).
  cbn [run exec]. rewrite Hu, Hk. simpl.
  unfold db_purchase_create.
  destruct (purchases db !! newId env) as [r0|] eqn:Hr; simpl; [eauto|].
  destruct (sessions_create env _) as [e|session]; simpl.
  - split_and!; [done| |].
    + intros k r Hkr. rewrite lookup_insert_ne; [done|congruence].
    + intros k r. rewrite lookup_insert. case_decide; [|by left].
      intros [= <-]. by right.
  - unfold db_purchase_update. simpl. rewrite lookup_insert_eq. simpl.
    rewrite insert_insert_eq. split_and!; [done| |].
    + intros k r Hkr. rewrite lookup_insert_ne; [done|congruence].
    + intros k r. rewrite lookup_insert. case_decide; [|by left].
      intros [= <-]. by right.
Qed.

(** X12.  Checkout followed by the webhook of the session it created: when
    the event carries the metadata the checkout embedded (the id of the
    created purchase and the plan's role), the created purchase ends [PAID]
    and the user holds the plan's role; no other user is touched. *)
Theorem checkout_then_webhook plans env db req uid priceId plan u session
    envw ev :
  checkout_valid plans db req uid priceId plan u ->
  db_purchase_findUnique db (newId env) = None ->
  sessions_create env (checkout_params env req uid priceId plan) = inr session ->
  Event.type ev = "checkout.session.completed" ->
  truthy (Session.metadata_purchaseId (Event.data_object ev))
    = Some (Session.purchaseId
              (Session.md (checkout_params env req uid priceId plan))) ->
  Session.metadata_targetRole (Event.data_object ev)
    = Some (Session.targetRole
              (Session.md (checkout_params env req uid priceId plan))) ->
  let db2 := snd (serve plans [(env, checkout req); (envw, webhook (inr ev))]
                    db) in
  purchase_status db2 (newId env) = Some PAID /\
  users db2 !! uid = Some (Plan.role plan) /\
  forall k, k <> uid -> users db2 !! k = users db !! k.
Proof.
  intros Hvalid Hfresh Hsession Htype Hpid Htgt db2. subst db2.
  pose proof (checkout_session_created plans env db req uid priceId plan u
                Hvalid Hfresh session Hsession) as Hrun.
  destruct Hvalid as (_ & _ & _ & Hu & Hrank).
  apply findUnique_user_inv in Hu as Hu'. destruct Hu' as [Hrole Huid].
  set (db1 := mkDb (users db)
                (<[newId env := checkout_row uid plan (Some (Session.id session))]>
                   (purchases db))) in *.
  set (p := Purchase.of_row (newId env)
              (checkout_row uid plan (Some (Session.id session)))).
  assert (Hp : db_purchase_findUnique db1 (newId env) = Some p).
  { unfold db_purchase_findUnique, db1. simpl. by rewrite lookup_insert_eq. }
  assert (Hst : Purchase.status p <> PAID) by done.
  rewrite serve_two. unfold handler. rewrite Hrun. cbn [fst snd].
  rewrite (webhook_settles plans envw db1 ev Htype (newId env) (Plan.role plan)
             Hpid Htgt p Hp Hst).
  cbn [fst snd users purchases]. unfold webhook_final_users.
  change (db_user_findUnique db1 (Purchase.userId p))
    with (db_user_findUnique db uid).
  rewrite Hu. rewrite (proj2 (Z.gtb_lt _ _)) by lia. simpl.
  split_and!.
  - unfold purchase_status. simpl. by rewrite lookup_insert_eq.
  - by rewrite lookup_insert_eq.
  - intros k Hk. by rewrite lookup_insert_ne.
Qed.

Lemma checkout_then_webhook_witness :
  let env := Scenario.env_with Scenario.session_paid in
  let ev := Scenario.completed
              (Scenario.session 129900 "thb" (Some "p2") (Some USER_GOLD)) in
  let db := mkDb {[ 7 := USER_BRONZE ]} ∅ in
  let db3 := snd (serve STRIPE_PRICE_TO_PLAN
                    [(env, checkout Scenario.gold_request);
                     (env, webhook (inr ev))] db) in
  purchase_status db3 "p2" = Some PAID /\
  users db3 !! 7 = Some USER_GOLD /\
  forall k, k <> 7 -> users db3 !! k = users db !! k.
Proof.
  intros env ev db.
  refine (checkout_then_webhook STRIPE_PRICE_TO_PLAN env db
            Scenario.gold_request 7 Scenario.gold_price
            (Plan.mk USER_GOLD 129900 "THB" "Gold 1299")
            (User.mk 7 USER_BRONZE) Scenario.session_paid env ev
            _ _ eq_refl eq_refl eq_refl eq_refl).
  - unfold checkout_valid. split_and!; vm_compute; reflexivity.
  - vm_compute. reflexivity.
Defined.

(** X13.  Checkout followed by [verifySession] of the returned session id:
    the linking write alone lets the session be resolved, whatever its
    metadata.  When no older purchase carries that session id and the
    gateway reports the session paid, the created purchase ends [PAID], the
    user holds the plan's role, and the answer reports both effects. *)
Theorem checkout_then_verify plans env db req uid priceId plan u session
    envv sid s :
  checkout_valid plans db req uid priceId plan u ->
  db_purchase_findUnique db (newId env) = None ->
  sessions_create env (checkout_params env req uid priceId plan) = inr session ->
  db_purchase_findFirst db (Session.id session) = None ->
  truthy (Some sid) = Some sid ->
  sessions_retrieve envv sid = inr s ->
  Session.id s = Session.id session ->
  isPaid s = true ->
  exists p' db2 tr1 tr2,
    serve plans [(env, checkout req); (envv, verify (Some sid))] db =
      ([(inr (res_json (json_checkout (Session.url session)
                          (Session.id session) (newId env))), tr1);
        (inr (verify_response s (Some p')
                (Some (User.mk uid (Plan.role plan)))
                (mkEffects true true (Some (Plan.role plan)))), tr2)],
       db2) /\
    Purchase.id p' = newId env /\
    Purchase.status p' = PAID /\
    db_purchase_findUnique db2 (newId env) = Some p' /\
    users db2 !! uid = Some (Plan.role plan).
Proof.
  intros Hvalid Hfresh Hsession Hext Hsid Hs Hids Hpaid.
  pose proof (checkout_session_created plans env db req uid priceId plan u
                Hvalid Hfresh session Hsession) as Hrun.
  destruct Hvalid as (_ & _ & _ & Hu & Hrank).
  apply findUnique_user_inv in Hu as Hu'. destruct Hu' as [Hrole Huid].
  set (db1 := mkDb (users db)
                (<[newId env := checkout_row uid plan (Some (Session.id session))]>
                   (purchases db))) in *.
  set (p := Purchase.of_row (newId env)
              (checkout_row uid plan (Some (Session.id session)))).
  assert (Hp : db_purchase_findUnique db1 (Purchase.id p) = Some p).
  { unfold db_purchase_findUnique, db1. simpl. by rewrite lookup_insert_eq. }
  assert (Hres : fst (verify_resolve db1 s) = Some p).
  { apply verify_resolve_linked; [|done|by rewrite Hids].
    rewrite Hids. apply unique_external_put.
    by apply unique_external_fresh. }
  assert (Hu1 : db_user_findUnique db1 (Purchase.userId p) = Some u)
    by exact Hu.
  assert (Hm : verify_marks p = true) by done.
  assert (Hup : verify_upgrades p u = true).
  { unfold verify_upgrades. simpl. apply Z.gtb_lt. lia. }
  rewrite serve_two. unfold handler. rewrite Hrun. cbn [fst snd].
  rewrite (verify_settles envv db1 sid Hsid s Hs p Hres u Hu1 Hpaid).
  rewrite Hup. cbn [fst snd].
  eexists (verify_purchase s p), _, _, _. split; [reflexivity|].
  unfold verify_final_db, verify_purchase. rewrite Hm, Hup. simpl.
  split_and!; try done.
  - unfold db_purchase_findUnique. simpl. by rewrite lookup_insert_eq.
  - by rewrite lookup_insert_eq.
Qed.

Lemma checkout_then_verify_witness :
  let env := Scenario.env_with Scenario.session_bare in
  let db := mkDb {[ 7 := USER_BRONZE ]} ∅ in
  exists p' db2 tr1 tr2,
    serve STRIPE_PRICE_TO_PLAN
      [(env, checkout Scenario.gold_request); (env, verify (Some "cs_1"))] db =
      ([(inr (res_json (json_checkout
                          (Some "https://checkout.stripe.com/c/cs_1")
                          "cs_1" "p2")), tr1);
        (inr (verify_response Scenario.session_bare (Some p')
                (Some (User.mk 7 USER_GOLD))
                (mkEffects true true (Some USER_GOLD))), tr2)],
       db2) /\
    Purchase.id p' = "p2" /\
    Purchase.status p' = PAID /\
    db_purchase_findUnique db2 "p2" = Some p' /\
    users db2 !! 7 = Some USER_GOLD.
Proof.
  intros env db.
  refine (checkout_then_verify STRIPE_PRICE_TO_PLAN env db
            Scenario.gold_request 7 Scenario.gold_price
            (Plan.mk USER_GOLD 129900 "THB" "Gold 1299")
            (User.mk 7 USER_BRONZE) Scenario.session_bare env "cs_1"
            Scenario.session_bare _ _ eq_refl _ eq_refl eq_refl eq_refl
            eq_refl).
  - unfold checkout_valid. split_and!; vm_compute; reflexivity.
  - vm_compute. reflexivity.
  - vm_compute. reflexivity.
Defined.

(** ** The shipped registry and the role ranks *)

Lemma lookup_price_In plans priceId plan :
  lookup_price plans priceId = Some plan -> In plan (List.map snd plans).
Proof.
  induction plans as [|[k p] rest IH]; [done|].
  change (lookup_price ((k, p) :: rest) priceId)
    with (if String.eqb k priceId then Some p else lookup_price rest priceId).
  destruct (String.eqb k priceId).
  - intros [= ->]. by left.
  - intros H. right. by apply IH.
Qed.

Lemma shipped_plan_rank priceId plan :
  lookup_price STRIPE_PRICE_TO_PLAN priceId = Some plan ->
  In (Plan.role plan) [USER_BRONZE; USER_GOLD; USER_PLATINUM] /\
  Plan.currency plan = "THB".
Proof.
  intros H. apply lookup_price_In in H.
  destruct H as [<-|[<-|[<-|[]]]]; simpl; tauto.
Qed.

(** Past the validations, the trace holds one [create], the one of the
    validated plan. *)
Lemma checkout_creates_once plans env db req uid priceId plan u :
  checkout_valid plans db req uid priceId plan u ->
  forall d,
    In (membershipPurchase_create d)
       (snd (run env (createCheckoutSession plans env req) db)) ->
    d = checkout_create_data uid plan.
Proof.
  intros Hvalid d.
  destruct (checkout_prefix plans env db req uid priceId plan u Hvalid)
    as (k & -> & Hk).
  destruct Hvalid as (_ & _ & _ & Hu & _).
  cbn [run exec]. rewrite Hu, Hk. simpl.
  unfold db_purchase_create.
  destruct (purchases db !! newId env) as [r|] eqn:Hr; simpl;
    [intuition congruence|].
  destruct (sessions_create env _) as [e|session]; simpl;
    [intuition congruence|].
  unfold db_purchase_update. simpl. rewrite lookup_insert_eq. simpl.
  intuition congruence.
Qed.




(** X15.  With the shipped registry, every purchase row a checkout adds to
    the store is [PENDING], in THB, for the requesting user, and targets a
    membership tier: no checkout stores a purchase for [TRAINER], [ADMIN] or
    plain [USER], whatever price id the request names. *)
Theorem checkout_targets_membership_tiers env db req k r :
  purchases db !! k = None ->
  purchases
    (snd (fst (run env (createCheckoutSession STRIPE_PRICE_TO_PLAN env req)
                 db))) !! k = Some r ->
  In (Purchase.r_targetRole r) [USER_BRONZE; USER_GOLD; USER_PLATINUM] /\
  Purchase.r_status r = PENDING /\
  Purchase.r_currency r = Some "THB" /\
  truthy_num (b_userId req) = Some (Purchase.r_userId r).
Proof.
  intros Hold.
  destruct (checkout_invalid_or_valid STRIPE_PRICE_TO_PLAN db req)
    as [Hbad|(uid & priceId & plan & u & Hok)].
  { destruct (checkout_invalid_run STRIPE_PRICE_TO_PLAN env db req Hbad)
      as (code & msg & tr & ->). simpl. congruence. }
  destruct (checkout_prefix STRIPE_PRICE_TO_PLAN env db req uid priceId plan
              u Hok) as (k0 & -> & Hk).
  destruct Hok as (Huid & _ & Hplan & Hu & _).
  destruct (shipped_plan_rank _ _ Hplan) as [Htier Hcur].
  cbn [run exec]. rewrite Hu, Hk. simpl.
  unfold db_purchase_create.
  destruct (purchases db !! newId env) as [r0|] eqn:Hr; simpl; [congruence|].
  assert (Hrow : forall ext,
            <[newId env := checkout_row uid plan ext]> (purchases db) !! k
              = Some r ->
            In (Purchase.r_targetRole r)
               [USER_BRONZE; USER_GOLD; USER_PLATINUM] /\
            Purchase.r_status r = PENDING /\
            Purchase.r_currency r = Some "THB" /\
            truthy_num (b_userId req) = Some (Purchase.r_userId r)).
  { intros ext. rewrite lookup_insert. case_decide; [|congruence].
    intros [= <-]. simpl. by rewrite Hcur. }
  destruct (sessions_create env _) as [e|session]; simpl; [by apply Hrow|].
  unfold db_purchase_update. simpl. rewrite lookup_insert_eq. simpl.
  rewrite insert_insert_eq. by apply Hrow.
Qed.

Lemma checkout_targets_membership_tiers_witness :
  purchases
    (snd (fst (run Scenario.env_down
                 (createCheckoutSession STRIPE_PRICE_TO_PLAN Scenario.env_down
                    Scenario.gold_request) Scenario.db_pending))) !! "p2"
    = Some (Scenario.gold_row PENDING None) /\
  In USER_GOLD [USER_BRONZE; USER_GOLD; USER_PLATINUM].
Proof.
  assert (Hold : purchases Scenario.db_pending !! "p2" = None)
    by (vm_compute; reflexivity).
  assert (Hnew : purchases
    (snd (fst (run Scenario.env_down
                 (createCheckoutSession STRIPE_PRICE_TO_PLAN Scenario.env_down
                    Scenario.gold_request) Scenario.db_pending))) !! "p2"
    = Some (Scenario.gold_row PENDING None)) by (vm_compute; reflexivity).
  split; [exact Hnew|].
  exact (proj1 (checkout_targets_membership_tiers _ _ _ _ _ Hold Hnew)).
Defined.

(** X16.  No two roles share a rank.  Hence for two different roles exactly
    one direction passes the upgrade check, and a role never upgrades to
    itself. *)
Theorem role_rank_is_a_strict_order (a b : Role) :
  (ROLE_RANK a = ROLE_RANK b -> a = b) /\
  (a <> b ->
   (ROLE_RANK b >? ROLE_RANK a) = negb (ROLE_RANK a >? ROLE_RANK b)) /\
  (ROLE_RANK a >? ROLE_RANK a) = false.
Proof. destruct a, b; vm_compute; split_and!; congruence. Qed.

(** * The authentication middleware *)

Lemma substring_all s : String.substring 0 (String.length s) s = s.
Proof. induction s as [|a s IH]; simpl; [done|by rewrite IH]. Qed.

Lemma prefix_split p s :
  String.prefix p s = true ->
  s = (p ++ String.substring (String.length p)
               (String.length s - String.length p) s)%string.
Proof.
  revert s. induction p as [|a p IH]; intros s.
  - intros _. simpl. by rewrite Nat.sub_0_r, substring_all.
  - destruct s as [|b s]; simpl; [done|].
    destruct (ascii_dec a b) as [->|]; [|done].
    intros H. exact (f_equal (String b) (IH s H)).
Qed.

Lemma prefix_append p s : String.prefix p (p ++ s) = true.
Proof.
  induction p as [|a p IH]; simpl; [by destruct s|].
  by destruct (ascii_dec a a).
Qed.

Lemma slice_append p s :
  Auth.slice (String.length p) (p ++ s) = s.
Proof.
  unfold Auth.slice. induction p as [|a p IH]; simpl.
  - by rewrite Nat.sub_0_r, substring_all.
  - exact IH.
Qed.

Lemma extractToken_inv req t :
  Auth.extractToken req = Some t ->
  Auth.authorization req = Some ("Bearer " ++ t).
Proof.
  unfold Auth.extractToken.
  destruct (truthy (Auth.authorization req)) as [h|] eqn:Hh; [|done].
  apply truthy_inv in Hh as [-> _].
  destruct (String.prefix "Bearer " h) eqn:Hp; [|done].
  intros [= <-]. f_equal. by apply prefix_split.
Qed.

Lemma extractToken_of_bearer req t :
  Auth.authorization req = Some ("Bearer " ++ t) ->
  Auth.extractToken req = Some t.
Proof.
  unfold Auth.extractToken. intros ->.
  change (truthy (Some ("Bearer " ++ t))) with (Some ("Bearer " ++ t)).
  cbv beta iota. by rewrite prefix_append, slice_append.
Qed.

(** X17.  [extractToken] yields a token exactly for a header of the form
    "Bearer " followed by the token, and then yields that token unchanged;
    an absent or empty header, and any other scheme, yield none. *)
Theorem extractToken_bearer req t :
  Auth.extractToken req = Some t <->
  Auth.authorization req = Some ("Bearer " ++ t).
Proof.
  split.
  - apply extractToken_inv.
  - apply extractToken_of_bearer.
Qed.

Section AuthFacts.
Variable verifyToken : string -> Error + Auth.TokenPayload.

Lemma valid_bearer_token req t payload :
  Auth.authorization req = Some ("Bearer " ++ t) ->
  Auth.valid_bearer verifyToken req payload ->
  verifyToken t = inr payload.
Proof.
  intros Hh (t' & Ht' & _ & Hv). rewrite Hh in Ht'. by simplify_eq/=.
Qed.

Lemma token_cases req :
  (truthy (Auth.extractToken req) = None /\
   forall payload, ~ Auth.valid_bearer verifyToken req payload) \/
  (exists t, truthy (Auth.extractToken req) = Some t /\
             Auth.authorization req = Some ("Bearer " ++ t) /\ t <> "").
Proof.
  destruct (Auth.extractToken req) as [t|] eqn:Ht.
  - apply extractToken_inv in Ht as Hh.
    destruct t as [|a t].
    + left. split; [done|]. intros payload (t' & Ht' & Hne & _).
      rewrite Hh in Ht'. by simplify_eq/=.
    + right. by exists (String a t).
  - left. split; [done|]. intros payload (t' & Ht' & _).
    apply extractToken_of_bearer in Ht'. congruence.
Qed.

(** X18.  [requireAdmin] hands the request on exactly when the header
    carries a non-empty bearer token that verifies to a payload whose role
    is "ADMIN", and then attaches that payload as the user.  Otherwise it
    answers: 403 exactly for a verified token of another role, 401 for a
    missing or unverifiable token. *)
Theorem requireAdmin_admits_admins_only req :
  (forall req',
     Auth.requireAdmin verifyToken req = Auth.next req' <->
     exists payload,
       Auth.valid_bearer verifyToken req payload /\
       Auth.p_role payload = Some "ADMIN" /\
       req' = Auth.attach req payload) /\
  (forall r,
     Auth.requireAdmin verifyToken req = Auth.respond r ->
     (Auth.status r = 403 /\
      exists payload, Auth.valid_bearer verifyToken req payload /\
                      Auth.p_role payload <> Some "ADMIN") \/
     (Auth.status r = 401 /\ forall payload, ~ Auth.valid_bearer verifyToken req payload)).
Proof.
  unfold Auth.requireAdmin.
  destruct (token_cases req) as [[-> Hnone]|(t & -> & Hh & Hne)].
  { split.
    - intros req'. split; [done|]. intros (payload & Hv & _).
      by apply Hnone in Hv.
    - intros r [= <-]. right. by split. }
  destruct (verifyToken t) as [e|payload] eqn:Hv.
  { assert (forall payload, ~ Auth.valid_bearer verifyToken req payload) as Hnone.
    { intros payload Hv'%(valid_bearer_token _ _ _ Hh). congruence. }
    split.
    - intros req'. split; [done|]. intros (payload & Hv' & _).
      by apply Hnone in Hv'.
    - intros r [= <-]. right. by split. }
  assert (Hvalid : Auth.valid_bearer verifyToken req payload) by (by exists t).
  assert (Hfun : forall payload', Auth.valid_bearer verifyToken req payload' ->
                                  payload' = payload).
  { intros payload' Hv'%(valid_bearer_token _ _ _ Hh). congruence. }
  destruct (decide (Auth.p_role payload = Some "ADMIN")) as [Hrole|Hrole].
  - rewrite bool_decide_eq_true_2 by done. simpl. split; [|done].
    intros req'. split.
    + intros [= <-]. by exists payload.
    + intros (payload' & Hv' & _ & ->). by rewrite (Hfun _ Hv').
  - rewrite bool_decide_eq_false_2 by done. simpl. split.
    + intros req'. split; [done|].
      intros (payload' & Hv' & Hrole' & _).
      rewrite (Hfun _ Hv') in Hrole'. done.
    + intros r [= <-]. left. split; [done|]. by exists payload.
Qed.

(** X19.  [requireAuth] hands the request on exactly when the header
    carries a non-empty bearer token that verifies, whatever its role, and
    answers 401 in every other case. *)
Theorem requireAuth_admits_verified_tokens req :
  (forall req',
     Auth.requireAuth verifyToken req = Auth.next req' <->
     exists payload,
       Auth.valid_bearer verifyToken req payload /\ req' = Auth.attach req payload) /\
  (forall r,
     Auth.requireAuth verifyToken req = Auth.respond r ->
     Auth.status r = 401 /\ forall payload, ~ Auth.valid_bearer verifyToken req payload).
Proof.
  unfold Auth.requireAuth.
  destruct (token_cases req) as [[-> Hnone]|(t & -> & Hh & Hne)].
  { split.
    - intros req'. split; [done|]. intros (payload & Hv & _).
      by apply Hnone in Hv.
    - by intros r [= <-]. }
  destruct (verifyToken t) as [e|payload] eqn:Hv.
  { assert (forall payload, ~ Auth.valid_bearer verifyToken req payload) as Hnone.
    { intros payload Hv'%(valid_bearer_token _ _ _ Hh). congruence. }
    split.
    - intros req'. split; [done|]. intros (payload & Hv' & _).
      by apply Hnone in Hv'.
    - by intros r [= <-]. }
  split; [|done]. intros req'. split.
  - intros [= <-]. exists payload. split; [by exists t|done].
  - intros (payload' & Hv'%(valid_bearer_token _ _ _ Hh) & ->). congruence.
Qed.

(** X20.  [attachAuthIfPresent] never answers: it always hands the request
    on, with the header as it was.  The user it attaches is the verified
    payload when there is a valid bearer token; otherwise the request is
    handed on unchanged. *)
Theorem attachAuthIfPresent_never_rejects req :
  exists req',
    Auth.attachAuthIfPresent verifyToken req = Auth.next req' /\
    Auth.authorization req' = Auth.authorization req /\
    ((exists payload, Auth.valid_bearer verifyToken req payload /\
                      req' = Auth.attach req payload) \/
     ((forall payload, ~ Auth.valid_bearer verifyToken req payload) /\ req' = req)).
Proof.
  unfold Auth.attachAuthIfPresent.
  destruct (token_cases req) as [[-> Hnone]|(t & -> & Hh & Hne)].
  { exists req. split_and!; try done. by right. }
  destruct (verifyToken t) as [e|payload] eqn:Hv.
  - exists req. split_and!; try done. right. split; [|done].
    intros payload Hv'%(valid_bearer_token _ _ _ Hh). congruence.
  - exists (Auth.attach req payload). split_and!; try done.
    left. exists payload. split; [by exists t|done].
Qed.

(** X21.  The three middlewares agree on who the user is: a request that
    [requireAdmin] hands on is handed on by [requireAuth] and by
    [attachAuthIfPresent] with the same user attached. *)
Theorem requireAdmin_implies_requireAuth req req' :
  Auth.requireAdmin verifyToken req = Auth.next req' ->
  Auth.requireAuth verifyToken req = Auth.next req' /\
  Auth.attachAuthIfPresent verifyToken req = Auth.next req' /\
  exists u, Auth.authUser req' = Some u /\ Auth.role u = Some "ADMIN".
Proof.
  unfold Auth.requireAdmin, Auth.requireAuth, Auth.attachAuthIfPresent.
  destruct (truthy (Auth.extractToken req)) as [t|]; [|done].
  destruct (verifyToken t) as [e|payload]; [done|].
  destruct (decide (Auth.p_role payload = Some "ADMIN")) as [Hrole|Hrole].
  - rewrite bool_decide_eq_true_2 by done. simpl. intros [= <-].
    split_and!; try done. eexists. split; [reflexivity|done].
  - by rewrite bool_decide_eq_false_2.
Qed.

End AuthFacts.

Lemma requireAdmin_implies_requireAuth_witness :
  let vt := fun t : string =>
    if String.eqb t "good"
    then inr (Auth.mkPayload (Some 1) (Some "a@b.c") (Some "ADMIN"))
    else inl "jwt malformed" in
  let req := Auth.mkRequest (Some "Bearer good") None in
  Auth.requireAdmin vt req =
    Auth.next (Auth.mkRequest (Some "Bearer good")
                 (Some (Auth.mkAuthUser (Some 1) (Some "a@b.c")
                          (Some "ADMIN")))) /\
  Auth.requireAuth vt req =
    Auth.next (Auth.mkRequest (Some "Bearer good")
                 (Some (Auth.mkAuthUser (Some 1) (Some "a@b.c")
                          (Some "ADMIN")))).
Proof.
  intros vt req.
  assert (H : Auth.requireAdmin vt req =
    Auth.next (Auth.mkRequest (Some "Bearer good")
                 (Some (Auth.mkAuthUser (Some 1) (Some "a@b.c")
                          (Some "ADMIN"))))) by reflexivity.
  split; [exact H|].
  exact (proj1 (requireAdmin_implies_requireAuth vt req _ H)).
Defined.

(** * The category controller and its routes *)

Lemma truthy_Some_iff o x : truthy o = Some x <-> o = Some x /\ x <> "".
Proof.
  destruct o as [[|a s]|]; simpl; split; intros H; try done.
  - by destruct H as [[= <-] ?].
  - by simplify_eq.
  - destruct H as [[= <-] _]. done.
  - by destruct H.
Qed.

Lemma name_owner_None m n :
  Category.name_owner m n = None <->
  forall k r, m !! k = Some r -> Category.r_name r <> n.
Proof.
  unfold Category.name_owner. rewrite fmap_None, list_find_None, Forall_forall.
  split.
  - intros H k r Hk. apply (H (k, r)).
    by apply (proj2 (elem_of_map_to_list m k r)).
  - intros H [k r] Hin%elem_of_map_to_list. by apply (H k r).
Qed.

Lemma name_owner_Some m n k :
  Category.name_owner m n = Some k ->
  exists r, m !! k = Some r /\ Category.r_name r = n.
Proof.
  unfold Category.name_owner. intros H.
  apply fmap_Some in H as ([i [k' r]] & Hf & ->).
  apply list_find_Some in Hf as (Hl & Hp & _).
  exists r. split; [|done].
  apply (proj1 (elem_of_map_to_list m k' r)). by eapply list_elem_of_lookup_2.
Qed.

Lemma name_owner_cases m n :
  (Category.name_owner m n = None /\
   forall k r, m !! k = Some r -> Category.r_name r <> n) \/
  (exists k r, Category.name_owner m n = Some k /\
               m !! k = Some r /\ Category.r_name r = n).
Proof.
  destruct (Category.name_owner m n) as [k|] eqn:E.
  - right. apply name_owner_Some in E as (r & ? & ?). by exists k, r.
  - left. split; [done|]. by apply name_owner_None.
Qed.

Lemma count_classes_zero st k :
  Category.count_classes st k = 0%nat <-> Some k ∉ Category.classes st.
Proof.
  unfold Category.count_classes.
  induction (Category.classes st) as [|c l IH]; simpl.
  - split; [intros _; apply not_elem_of_nil | done].
  - rewrite not_elem_of_cons. case_bool_decide as Hc; simpl.
    + split; [done|]. intros [? _]. congruence.
    + rewrite IH. split; [intros ?; split; congruence|by intros [_ ?]].
Qed.

(** X22.  [createCategory] creates a category (201) exactly when the body
    has a non-empty name, a user is attached and no stored category has that
    name; it answers 409 exactly when the first two hold and some stored
    category has the name.  Whenever the answer is not 201 the store is left
    as it was. *)
Theorem createCategory_creates_iff req st :
  (Category.status (fst (Category.createCategory req st)) = 201 <->
   exists n,
     Category.cr_name req = Some n /\ n <> "" /\
     is_Some (Category.cr_authUser req) /\
     forall k r, Category.categories st !! k = Some r ->
                 Category.r_name r <> n) /\
  (Category.status (fst (Category.createCategory req st)) = 409 <->
   exists n k r,
     Category.cr_name req = Some n /\ n <> "" /\
     is_Some (Category.cr_authUser req) /\
     Category.categories st !! k = Some r /\ Category.r_name r = n) /\
  (Category.status (fst (Category.createCategory req st)) <> 201 ->
   snd (Category.createCategory req st) = st).
Proof.
  unfold Category.createCategory.
  destruct (truthy (Category.cr_name req)) as [n|] eqn:Hn.
  2: { simpl. split_and!; [split; [done|]|split; [done|]|done].
       - intros (n & Hn' & Hne & _).
         by rewrite (proj2 (truthy_Some_iff _ _) (conj Hn' Hne)) in Hn.
       - intros (n & k & r & Hn' & Hne & _).
         by rewrite (proj2 (truthy_Some_iff _ _) (conj Hn' Hne)) in Hn. }
  apply truthy_Some_iff in Hn as [Hn Hne].
  destruct (Category.cr_authUser req) as [u|] eqn:Hu.
  2: { simpl. split_and!; [split; [done|]|split; [done|]|done].
       - intros (? & _ & _ & [? ?] & _). done.
       - intros (? & ? & ? & _ & _ & [? ?] & _). done. }
  unfold Category.db_create.
  destruct (name_owner_cases (Category.categories st) n)
    as [[-> Hfree]|(k & r & -> & Hk & Hr)]; simpl.
  - split_and!; [split; [|done]|split; [done|]|done].
    + intros _. exists n. by split_and!.
    + intros (n' & k & r & Hn' & _ & _ & Hk & Hr). rewrite Hn in Hn'.
      simplify_eq. exfalso. by eapply Hfree.
  - split_and!; [split; [done|]|split; [|done]|done].
    + intros (n' & Hn' & _ & _ & Hfree). rewrite Hn in Hn'. simplify_eq.
      exfalso. by eapply Hfree.
    + intros _. exists n, k, r. by split_and!.
Qed.

Lemma createCategory_created req st c :
  Category.wf st ->
  fst (Category.createCategory req st)
    = Category.mkReply 201 (Category.category c) ->
  Category.id c = Category.next_id st /\
  Category.categories st !! Category.next_id st = None /\
  Category.cr_name req = Some (Category.name c) /\
  Category.description c = Category.cr_description req /\
  snd (Category.createCategory req st)
    = Category.mkStore
        (<[Category.next_id st :=
             Category.mkRow (Category.name c) (Category.description c)]>
           (Category.categories st))
        (Category.next_id st + 1) (Category.classes st).
Proof.
  intros [_ Hbelow]. unfold Category.createCategory.
  destruct (truthy (Category.cr_name req)) as [n|] eqn:Hn; [|done].
  apply truthy_Some_iff in Hn as [Hn Hne].
  destruct (Category.cr_authUser req) as [u|]; [|done].
  unfold Category.db_create.
  destruct (Category.name_owner (Category.categories st) n); [done|].
  simpl. intros [= <-]. simpl.
  split_and!; try done.
  destruct (Category.categories st !! Category.next_id st) as [r|] eqn:E;
    [|done].
  apply Hbelow in E. lia.
Qed.

(** X23.  In a store whose keys lie below the counter, a successful
    [createCategory] adds exactly one row: the returned category has a key
    no stored row had, the name and description of the request, every row
    stored before is still there unchanged, and the classes are untouched. *)
Theorem createCategory_adds_a_fresh_row req st c :
  Category.wf st ->
  fst (Category.createCategory req st)
    = Category.mkReply 201 (Category.category c) ->
  Category.categories st !! Category.id c = None /\
  Category.cr_name req = Some (Category.name c) /\
  Category.description c = Category.cr_description req /\
  Category.categories (snd (Category.createCategory req st))
    = <[Category.id c :=
          Category.mkRow (Category.name c) (Category.description c)]>
        (Category.categories st) /\
  (forall k r, Category.categories st !! k = Some r ->
     Category.categories (snd (Category.createCategory req st)) !! k
       = Some r) /\
  Category.classes (snd (Category.createCategory req st))
    = Category.classes st.
Proof.
  intros Hwf Hc.
  destruct (createCategory_created req st c Hwf Hc)
    as (Hid & Hfresh & Hn & Hd & ->).
  rewrite Hid. simpl. split_and!; try done.
  intros k r Hk. rewrite lookup_insert_ne; [done|]. congruence.
Qed.

Lemma studio_wf : Category.wf Studio.store.
Proof.
  split.
  - intros k1 k2 r1 r2 H1 H2 _. cbn in H1, H2.
    apply lookup_singleton_Some in H1 as [? _].
    apply lookup_singleton_Some in H2 as [? _]. congruence.
  - intros k r H. cbn in H.
    apply lookup_singleton_Some in H as [? _]. cbn. lia.
Qed.

Lemma studio_refs : Category.refs_ok Studio.store.
Proof.
  intros k Hk. cbn in Hk. apply list_elem_of_singleton in Hk as [= ->].
  by eexists.
Qed.

Lemma createCategory_adds_a_fresh_row_witness :
  Category.categories (snd (Category.createCategory Studio.boxing Studio.store))
    !! 1 = Some (Category.mkRow "Yoga" None) /\
  Category.categories (snd (Category.createCategory Studio.boxing Studio.store))
    !! 2 = Some (Category.mkRow "Boxing" (Some "Gloves on")).
Proof.
  assert (Hc : fst (Category.createCategory Studio.boxing Studio.store)
               = Category.mkReply 201
                   (Category.category
                      (Category.mk 2 "Boxing" (Some "Gloves on"))))
    by (vm_compute; reflexivity).
  destruct (createCategory_adds_a_fresh_row Studio.boxing Studio.store _
              studio_wf Hc)
    as (_ & _ & _ & Hst & Hkeep & _).
  split.
  - apply Hkeep. vm_compute; reflexivity.
  - rewrite Hst. apply lookup_insert_eq.
Defined.

Section CategoryFacts.
Variable Number : string -> Category.JsNumber.
Variable verifyToken : string -> Error + Auth.TokenPayload.

(** X24.  [updateCategory] updates (200) exactly when a user is attached,
    the id parameter is an integer, a category with that key is stored, the
    body gives a name or a description, and no other category has the given
    name.  Keeping or re-giving the category's own name is no conflict, and
    the name may be empty.  Whenever the answer is not 200 the store is left
    as it was. *)
Theorem updateCategory_updates_iff req st :
  (Category.status (fst (Category.updateCategory Number req st)) = 200 <->
   exists s k r,
     is_Some (Category.ur_authUser req) /\
     Category.ur_id req = Some s /\ s <> "" /\
     Number s = Category.js_int k /\
     Category.categories st !! k = Some r /\
     (is_Some (Category.ur_name req) \/
      is_Some (Category.ur_description req)) /\
     forall n k' r',
       Category.ur_name req = Some n -> k' <> k ->
       Category.categories st !! k' = Some r' -> Category.r_name r' <> n) /\
  (Category.status (fst (Category.updateCategory Number req st)) <> 200 ->
   snd (Category.updateCategory Number req st) = st).
Proof.
  unfold Category.updateCategory.
  destruct (Category.ur_authUser req) as [u|] eqn:Hu.
  2: { simpl. split; [split; [done|]|done].
       intros (? & ? & ? & [? ?] & _). done. }
  destruct (truthy (Category.ur_id req)) as [s|] eqn:Hs.
  2: { simpl. split; [split; [done|]|done].
       intros (s & ? & ? & _ & Hs' & Hne & _).
       by rewrite (proj2 (truthy_Some_iff _ _) (conj Hs' Hne)) in Hs. }
  apply truthy_Some_iff in Hs as [Hs Hne].
  destruct (Number s) as [|k|] eqn:HN.
  1,3: simpl; (split; [split; [done|]|done]);
       intros (s' & ? & ? & _ & Hs' & _ & HN' & _);
       rewrite Hs in Hs'; simplify_eq; congruence.
  destruct (Category.categories st !! k) as [r|] eqn:Hk.
  2: { simpl. split; [split; [done|]|done].
       intros (s' & k' & ? & _ & Hs' & _ & HN' & Hk' & _).
       rewrite Hs in Hs'. simplify_eq. congruence. }
  assert (Hsame : forall s' k' r',
            Category.ur_id req = Some s' -> Number s' = Category.js_int k' ->
            Category.categories st !! k' = Some r' -> k' = k /\ r' = r).
  { intros s' k' r' Hs' HN' Hk'. rewrite Hs in Hs'. injection Hs' as <-.
    rewrite HN in HN'. injection HN' as <-. rewrite Hk in Hk'.
    by injection Hk' as <-. }
  destruct (Category.ur_name req) as [n|] eqn:Hname.
  - unfold Category.db_update. rewrite Hk.
    destruct (name_owner_cases (delete k (Category.categories st)) n)
      as [[-> Hfree]|(k1 & r1 & -> & Hk1 & Hr1)]; simpl.
    + split; [split; [|done]|done]. intros _. exists s, k, r.
      split_and!; try done; [left; done|].
      intros n' k' r' [= <-] Hne' Hk'. eapply Hfree.
      by rewrite lookup_delete_ne.
    + split; [split; [done|]|done].
      intros (s' & k' & r' & _ & Hs' & _ & HN' & Hk' & _ & Hfree).
      destruct (Hsame _ _ _ Hs' HN' Hk') as [-> ->].
      apply lookup_delete_Some in Hk1 as [Hne1 Hk1].
      exfalso. by eapply (Hfree n k1 r1).
  - destruct (Category.ur_description req) as [d|] eqn:Hd.
    + unfold Category.db_update. rewrite Hk. simpl.
      split; [split; [|done]|done]. intros _. exists s, k, r.
      split_and!; try done. right; done.
    + simpl. split; [split; [done|]|done].
      intros (? & ? & ? & _ & _ & _ & _ & _ & [[? ?]|[? ?]] & _); done.
Qed.


(** X25.  A successful [updateCategory] rewrites the addressed row and
    nothing else: a field the body gives takes the given value, a field it
    omits keeps the stored one, and the other rows, the counter and the
    classes are as before. *)
Theorem updateCategory_changes_given_fields req st c :
  fst (Category.updateCategory Number req st)
    = Category.mkReply 200 (Category.category c) ->
  exists r,
    Category.categories st !! Category.id c = Some r /\
    Category.name c = default (Category.r_name r) (Category.ur_name req) /\
    Category.description c
      = match Category.ur_description req with
        | Some d => Some d
        | None => Category.r_description r
        end /\
    snd (Category.updateCategory Number req st)
      = Category.mkStore
          (<[Category.id c :=
               Category.mkRow (Category.name c) (Category.description c)]>
             (Category.categories st))
          (Category.next_id st) (Category.classes st).
Proof.
  unfold Category.updateCategory.
  destruct (Category.ur_authUser req) as [u|]; [|done].
  destruct (truthy (Category.ur_id req)) as [s|]; [|done].
  destruct (Number s) as [|k|]; [done| |done].
  destruct (Category.categories st !! k) as [r|] eqn:Hk; [|done].
  assert (Hdb : forall n d,
    fst (let (s1, st') := Category.db_update st k n d in
         match s1 with
         | inl Category.P2002 =>
             (Category.mkReply 409
                (Category.message "Category name already exists."), st')
         | inr c0 => (Category.mkReply 200 (Category.category c0), st')
         | inl _ =>
             (Category.mkReply 500
                (Category.message "Failed to update category."), st')
         end) = Category.mkReply 200 (Category.category c) ->
    Category.id c = k /\
    Category.name c = default (Category.r_name r) n /\
    Category.description c
      = match d with Some x => Some x | None => Category.r_description r end /\
    snd (let (s1, st') := Category.db_update st k n d in
         match s1 with
         | inl Category.P2002 =>
             (Category.mkReply 409
                (Category.message "Category name already exists."), st')
         | inr c0 => (Category.mkReply 200 (Category.category c0), st')
         | inl _ =>
             (Category.mkReply 500
                (Category.message "Failed to update category."), st')
         end)
      = Category.mkStore
          (<[k := Category.mkRow (Category.name c) (Category.description c)]>
             (Category.categories st))
          (Category.next_id st) (Category.classes st)).
  { intros n d. unfold Category.db_update. rewrite Hk.
    destruct n as [n'|].
    - destruct (Category.name_owner _ n'); [done|].
      simpl. intros [= <-]. done.
    - simpl. intros [= <-]. done. }
  destruct (Category.ur_name req) as [n|].
  - intros H. apply Hdb in H as (<- & Hn & Hd & Hst).
    exists r. by split_and!.
  - destruct (Category.ur_description req) as [d|]; [|done].
    intros H. apply Hdb in H as (<- & Hn & Hd & Hst).
    exists r. by split_and!.
Qed.

(** X26.  [deleteCategory] deletes (200) exactly when a user is attached,
    the id parameter is an integer, a category with that key is stored and
    no class refers to it.  It then removes that row only; in every other
    case the store is left as it was. *)
Theorem deleteCategory_deletes_iff req st :
  (Category.status (fst (Category.deleteCategory Number req st)) = 200 <->
   exists s k,
     is_Some (Category.dr_authUser req) /\
     Category.dr_id req = Some s /\ s <> "" /\
     Number s = Category.js_int k /\
     is_Some (Category.categories st !! k) /\
     Some k ∉ Category.classes st) /\
  (forall s k,
     Category.dr_id req = Some s -> Number s = Category.js_int k ->
     Category.status (fst (Category.deleteCategory Number req st)) = 200 ->
     snd (Category.deleteCategory Number req st)
       = Category.mkStore (delete k (Category.categories st))
           (Category.next_id st) (Category.classes st)) /\
  (Category.status (fst (Category.deleteCategory Number req st)) <> 200 ->
   snd (Category.deleteCategory Number req st) = st).
Proof.
  unfold Category.deleteCategory.
  destruct (Category.dr_authUser req) as [u|] eqn:Hu.
  2: { simpl. split_and!; [split; [done|]|done|done].
       intros (? & ? & [? ?] & _). done. }
  destruct (truthy (Category.dr_id req)) as [s|] eqn:Hs.
  2: { simpl. split_and!; [split; [done|]|done|done].
       intros (s & ? & _ & Hs' & Hne & _).
       by rewrite (proj2 (truthy_Some_iff _ _) (conj Hs' Hne)) in Hs. }
  apply truthy_Some_iff in Hs as [Hs Hne].
  destruct (Number s) as [|k|] eqn:HN.
  1,3: simpl; (split_and!; [split; [done|]|done|done]);
       intros (s' & ? & _ & Hs' & _ & HN' & _);
       rewrite Hs in Hs'; simplify_eq; congruence.
  assert (Hsame : forall s' k',
            Category.dr_id req = Some s' -> Number s' = Category.js_int k' ->
            k' = k).
  { intros s' k' Hs' HN'. rewrite Hs in Hs'. injection Hs' as <-.
    rewrite HN in HN'. by injection HN' as <-. }
  destruct (Category.categories st !! k) as [r|] eqn:Hk.
  2: { simpl. split_and!; [split; [done|]|done|done].
       intros (s' & k' & _ & Hs' & _ & HN' & [r' Hk'] & _).
       rewrite (Hsame _ _ Hs' HN') in Hk'. congruence. }
  destruct (0 <? Category.count_classes st k)%nat eqn:Hc.
  - simpl. split_and!; [split; [done|]|done|done].
    intros (s' & k' & _ & Hs' & _ & HN' & _ & Hno).
    rewrite (Hsame _ _ Hs' HN') in Hno.
    apply count_classes_zero in Hno. apply Nat.ltb_lt in Hc. lia.
  - unfold Category.db_delete. rewrite Hk. simpl.
    split_and!; [split; [|done]| |done].
    + intros _. exists s, k. split_and!; try done.
      apply count_classes_zero. apply Nat.ltb_ge in Hc. lia.
    + intros s' k' Hs' HN' _. by rewrite (Hsame _ _ Hs' HN').
Qed.




Lemma createCategory_store req st :
  snd (Category.createCategory req st) = st \/
  exists n d,
    snd (Category.createCategory req st) = snd (Category.db_create st n d).
Proof.
  unfold Category.createCategory.
  destruct (truthy (Category.cr_name req)) as [n|]; [|by left].
  destruct (Category.cr_authUser req); [|by left].
  right. exists n, (Category.cr_description req).
  by destruct (Category.db_create _ _ _) as [[[]|c] st'].
Qed.

Lemma updateCategory_store req st :
  snd (Category.updateCategory Number req st) = st \/
  exists k n d,
    snd (Category.updateCategory Number req st)
      = snd (Category.db_update st k n d).
Proof.
  unfold Category.updateCategory.
  destruct (Category.ur_authUser req); [|by left].
  destruct (truthy (Category.ur_id req)) as [s|]; [|by left].
  destruct (Number s) as [|k|]; [by left| |by left].
  destruct (Category.categories st !! k); [|by left].
  destruct (Category.ur_name req) as [n|].
  - right. exists k, (Some n), (Category.ur_description req).
    by destruct (Category.db_update _ _ _ _) as [[[]|c] st'].
  - destruct (Category.ur_description req) as [d|]; [|by left].
    right. exists k. exists None. exists (Some d).
    by destruct (Category.db_update _ _ _ _) as [[[]|c] st'].
Qed.

Lemma deleteCategory_store req st :
  snd (Category.deleteCategory Number req st) = st \/
  exists k,
    (Some k ∉ Category.classes st) /\
    snd (Category.deleteCategory Number req st)
      = snd (Category.db_delete st k).
Proof.
  unfold Category.deleteCategory.
  destruct (Category.dr_authUser req); [|by left].
  destruct (truthy (Category.dr_id req)) as [s|]; [|by left].
  destruct (Number s) as [|k|]; [by left| |by left].
  destruct (Category.categories st !! k); [|by left].
  destruct (0 <? Category.count_classes st k)%nat eqn:Hc; [by left|].
  right. exists k. split.
  - apply count_classes_zero. apply Nat.ltb_ge in Hc. lia.
  - by destruct (Category.db_delete _ _) as [[[]|[]] st'].
Qed.


(** X28.  No handler leaves a class that refers to a missing category: from
    a store where every class's category is stored, whatever the request,
    each handler leaves such a store.  For [deleteCategory] this rests on
    its refusal to delete a category that classes use. *)
Theorem category_references_stay_valid st cr ur dr :
  Category.refs_ok st ->
  Category.refs_ok (snd (Category.createCategory cr st)) /\
  Category.refs_ok (snd (Category.updateCategory Number ur st)) /\
  Category.refs_ok (snd (Category.deleteCategory Number dr st)).
Proof.
  intros Hrefs. split_and!.
  - destruct (createCategory_store cr st) as [->|(n & d & ->)]; [done|].
    unfold Category.db_create.
    destruct (Category.name_owner _ _); [done|]. simpl.
    intros k Hk. simpl in *. apply lookup_insert_is_Some'. right.
    by apply Hrefs.
  - destruct (updateCategory_store ur st) as [->|(k & n & d & ->)]; [done|].
    unfold Category.db_update.
    destruct (Category.categories st !! k); [|done].
    assert (Hgoal : forall r0,
      Category.refs_ok
        (Category.mkStore (<[k := r0]> (Category.categories st))
           (Category.next_id st) (Category.classes st))).
    { intros r0 k' Hk'. simpl in *. apply lookup_insert_is_Some'. right.
      by apply Hrefs. }
    destruct n as [n'|]; simpl; [|by apply Hgoal].
    destruct (Category.name_owner _ _); [done|]. by apply Hgoal.
  - destruct (deleteCategory_store dr st) as [->|(k & Hno & ->)]; [done|].
    unfold Category.db_delete.
    destruct (Category.categories st !! k); [|done]. simpl.
    intros k' Hk'. simpl in *. apply lookup_delete_is_Some. split.
    + intros ->. done.
    + by apply Hrefs.
Qed.

(** X29.  Creating a category and then deleting it, by the id the creation
    returned, succeeds and restores the category table and the classes; only
    the counter has advanced, so the id is not given out again. *)
Theorem create_then_delete_restores req st c u s :
  Category.wf st -> Category.refs_ok st ->
  fst (Category.createCategory req st)
    = Category.mkReply 201 (Category.category c) ->
  s <> "" -> Number s = Category.js_int (Category.id c) ->
  let st1 := snd (Category.createCategory req st) in
  let out := Category.deleteCategory Number
               (Category.mkDeleteRequest (Some u) (Some s)) st1 in
  fst out = Category.mkReply 200
              (Category.message "Category deleted successfully.") /\
  snd out = Category.mkStore (Category.categories st)
              (Category.next_id st + 1) (Category.classes st).
Proof.
  intros Hwf Hrefs Hc Hs HN st1 out. subst st1 out.
  destruct (createCategory_created req st c Hwf Hc)
    as (Hid & Hfresh & _ & _ & ->).
  rewrite Hid in HN.
  assert (Hno : Some (Category.next_id st) ∉ Category.classes st).
  { intros Hin. apply Hrefs in Hin as [r Hr]. congruence. }
  destruct s as [|a s]; [done|].
  unfold Category.deleteCategory. simpl. rewrite HN.
  simpl. rewrite lookup_insert_eq.
  rewrite (proj2 (count_classes_zero _ _)) by done. simpl.
  unfold Category.db_delete. simpl. rewrite lookup_insert_eq. simpl.
  by rewrite delete_insert_id.
Qed.


Lemma valid_bearer_header req1 req2 payload :
  Auth.authorization req1 = Auth.authorization req2 ->
  Auth.valid_bearer verifyToken req1 payload ->
  Auth.valid_bearer verifyToken req2 payload.
Proof. intros H (t & Ht & ?). exists t. by rewrite <- H. Qed.

Lemma attachAuthIfPresent_next req :
  exists req',
    Auth.attachAuthIfPresent verifyToken req = Auth.next req' /\
    Auth.authorization req' = Auth.authorization req.
Proof.
  unfold Auth.attachAuthIfPresent.
  destruct (truthy _) as [t|]; [|by exists req].
  destruct (verifyToken t); [by exists req|]. by eexists.
Qed.

Lemma requireAdmin_cases req :
  ((forall payload, ~ Auth.valid_bearer verifyToken req payload) /\
   exists m,
     Auth.requireAdmin verifyToken req = Auth.respond (Auth.mkReply 401 m)) \/
  (exists payload,
     Auth.valid_bearer verifyToken req payload /\
     (forall p, Auth.valid_bearer verifyToken req p -> p = payload) /\
     ((Auth.p_role payload <> Some "ADMIN" /\
       Auth.requireAdmin verifyToken req
         = Auth.respond
             (Auth.mkReply 403 "Only admins can perform this action.")) \/
      (Auth.p_role payload = Some "ADMIN" /\
       Auth.requireAdmin verifyToken req
         = Auth.next (Auth.attach req payload)))).
Proof.
  unfold Auth.requireAdmin.
  destruct (token_cases verifyToken req)
    as [[-> Hnone]|(t & -> & Hh & Hne)]; [left; eauto|].
  destruct (verifyToken t) as [e|payload] eqn:Hv.
  { left. split; [|eauto].
    intros payload Hv'%(valid_bearer_token _ _ _ _ Hh). congruence. }
  right. exists payload. split_and!.
  - by exists t.
  - intros p Hp%(valid_bearer_token _ _ _ _ Hh). congruence.
  - destruct (decide (Auth.p_role payload = Some "ADMIN")) as [Hrole|Hrole].
    + rewrite bool_decide_eq_true_2 by done. by right.
    + rewrite bool_decide_eq_false_2 by done. by left.
Qed.

Lemma behind_admin_gated {Req} authorization
    (handle : option Auth.AuthUser -> Req) h st :
  (forall u, Category.status (fst (h (handle (Some u)) st)) <> 401 /\
             Category.status (fst (h (handle (Some u)) st)) <> 403) ->
  Category.admin_gated verifyToken authorization st
    (Category.behind_admin verifyToken authorization handle h st).
Proof.
  intros Hh. unfold Category.admin_gated, Category.behind_admin.
  destruct (attachAuthIfPresent_next (Auth.mkRequest authorization None))
    as (req1 & -> & Hhdr).
  assert (Hvb : forall p,
            Auth.valid_bearer verifyToken req1 p <->
            Auth.valid_bearer verifyToken
              (Auth.mkRequest authorization None) p).
  { intros p. split; apply valid_bearer_header; done. }
  destruct (requireAdmin_cases req1)
    as [[Hnone [m ->]]
       |(p & Hv & Hfun & [[Hrole ->]|[Hrole ->]])]; simpl.
  - split_and!; [split; [|done]|split; [done|]|done].
    + intros _ p Hp. apply (Hnone p). by apply Hvb.
    + intros (p & Hp & _). exfalso. apply (Hnone p). by apply Hvb.
  - split_and!; [split; [done|]|split; [|done]|done].
    + intros Hnone. exfalso. apply (Hnone p). by apply Hvb.
    + intros _. exists p. split; [by apply Hvb|done].
  - split_and!; [split|split|].
    + intros H. exfalso. by eapply (proj1 (Hh _)).
    + intros Hnone. exfalso. apply (Hnone p). by apply Hvb.
    + intros H. exfalso. by eapply (proj2 (Hh _)).
    + intros (p' & Hp' & Hrole'). apply Hvb in Hp'.
      rewrite (Hfun _ Hp') in Hrole'. done.
    + intros _. exists p. split; [by apply Hvb|done].
Qed.

(** X30.  The three writing category routes sit behind the admin gate.
    Each answers 401 exactly when the header carries no valid bearer token,
    and 403 exactly when it carries a valid token whose role is not
    "ADMIN"; so the handlers' own missing-token answer is never given on
    these routes.  The store changes only for a request with a valid admin
    token. *)
Theorem category_routes_are_admin_gated authorization id name description st :
  Category.admin_gated verifyToken authorization st
    (Category.route_post verifyToken authorization name description st) /\
  Category.admin_gated verifyToken authorization st
    (Category.route_put Number verifyToken authorization id name description
       st) /\
  Category.admin_gated verifyToken authorization st
    (Category.route_delete Number verifyToken authorization id st).
Proof.
  split_and!; apply behind_admin_gated; intros u.
  - unfold Category.createCategory. simpl.
    destruct (truthy name); [|done].
    by destruct (Category.db_create _ _ _) as [[[]|c] st'].
  - unfold Category.updateCategory. destruct id as [|a id]; simpl; [done|].
    destruct (Number _); [done| |done].
    destruct (Category.categories st !! _); [|done].
    destruct name, description; try done;
      by destruct (Category.db_update _ _ _ _) as [[[]|c] st'].
  - unfold Category.deleteCategory. destruct id as [|a id]; simpl; [done|].
    destruct (Number _); [done| |done].
    destruct (Category.categories st !! _); [|done].
    destruct (0 <? _)%nat; [done|].
    by destruct (Category.db_delete _ _) as [[[]|[]] st'].
Qed.

End CategoryFacts.

Lemma updateCategory_changes_given_fields_witness :
  snd (Category.updateCategory Studio.number Studio.calm Studio.store)
    = Category.mkStore {[ 1 := Category.mkRow "Yoga" (Some "Calm") ]} 2
        [Some 1].
Proof.
  assert (Hc : fst (Category.updateCategory Studio.number Studio.calm
                      Studio.store)
               = Category.mkReply 200
                   (Category.category (Category.mk 1 "Yoga" (Some "Calm"))))
    by (vm_compute; reflexivity).
  destruct (updateCategory_changes_given_fields Studio.number Studio.calm
              Studio.store _ Hc) as (r & _ & _ & _ & ->).
  reflexivity.
Defined.


Lemma category_references_stay_valid_witness :
  Category.refs_ok
    (snd (Category.deleteCategory Studio.number (Studio.removal "1")
            Studio.store)) /\
  Category.status
    (fst (Category.deleteCategory Studio.number (Studio.removal "1")
            Studio.store)) = 400.
Proof.
  split; [|vm_compute; reflexivity].
  exact (proj2 (proj2 (category_references_stay_valid Studio.number
                         Studio.store Studio.boxing Studio.calm
                         (Studio.removal "1") studio_refs))).
Defined.

Lemma create_then_delete_restores_witness :
  snd (Category.deleteCategory Studio.number (Studio.removal "2")
         (snd (Category.createCategory Studio.boxing Studio.store)))
    = Category.mkStore {[ 1 := Category.mkRow "Yoga" None ]} 3 [Some 1].
Proof.
  assert (Hc : fst (Category.createCategory Studio.boxing Studio.store)
               = Category.mkReply 201
                   (Category.category
                      (Category.mk 2 "Boxing" (Some "Gloves on"))))
    by (vm_compute; reflexivity).
  assert (Hs : "2" <> "") by done.
  assert (HN : Studio.number "2" = Category.js_int 2) by reflexivity.
  exact (proj2 (create_then_delete_restores Studio.number Studio.boxing
                  Studio.store _ Studio.admin "2" studio_wf studio_refs Hc
                  Hs HN)).
Defined.
